(** * rmmvlt: fingerprints, tree paths and the translation map

    A shallow embedding of [rmmvlt.py] (the RPG Maker MV localisation
    tool) and the properties of its core: the fingerprint of an extracted
    string, the dotted-path writer of the patcher, the translation map
    that binds the two, and the import and patch runs built on them.

    Conventions of the embedding.
    - A Python [str] is a [string] holding its UTF-8 encoding, so
      [encode('utf-8')] is the list of its bytes and a character is one
      to four of them.  [isdigit], [int] and [strip] read the characters
      with the tables of Unicode 14 (decimal digits, other digits, white
      space); indexing a string and the [?] of [glob] count characters.
    - A parsed JSON file is a tree [json]; a Python [dict] is an
      association list in insertion order; a Python [list] is a [list]
      read with [!!] and written with [<[ _ := _ ]>] under an explicit
      range check.
    - A raised exception is [Raise e]; statements that may raise are
      sequenced with a small error monad. *)

From Stdlib Require Import ZArith Ascii String List Lia DecimalString.
From Stdlib Require DecimalPos DecimalN.
From stdpp Require Import base option list strings gmap.

Local Open Scope Z_scope.

(** ** SHA-256 (hashlib.sha256) on 32-bit words kept in [Z] *)

Module SHA256.

Definition wrap32 (x : Z) : Z := x mod 2 ^ 32.
Definition add32 (x y : Z) : Z := wrap32 (x + y).
Definition not32 (x : Z) : Z := Z.lxor x 0xffffffff.
Definition rotr (n x : Z) : Z :=
  Z.lor (Z.shiftr x n) (wrap32 (Z.shiftl x (32 - n))).

Definition Ch (x y z : Z) : Z := Z.lxor (Z.land x y) (Z.land (not32 x) z).
Definition Maj (x y z : Z) : Z :=
  Z.lxor (Z.lxor (Z.land x y) (Z.land x z)) (Z.land y z).
Definition bsig0 (x : Z) : Z := Z.lxor (Z.lxor (rotr 2 x) (rotr 13 x)) (rotr 22 x).
Definition bsig1 (x : Z) : Z := Z.lxor (Z.lxor (rotr 6 x) (rotr 11 x)) (rotr 25 x).
Definition ssig0 (x : Z) : Z := Z.lxor (Z.lxor (rotr 7 x) (rotr 18 x)) (Z.shiftr x 3).
Definition ssig1 (x : Z) : Z := Z.lxor (Z.lxor (rotr 17 x) (rotr 19 x)) (Z.shiftr x 10).

(** The constants are fractional parts of roots of the first primes
    (FIPS 180-4, 4.2.2 and 5.3.3): 32 bits of the cube roots of the first
    64 primes for the round constants, 32 bits of the square roots of
    the first 8 for the initial chaining words. *)
Definition is_prime (p : Z) : bool :=
  (1 <? p) && forallb (fun d => negb (p mod d =? 0))
                      (map Z.of_nat (seq 2 (Z.to_nat p - 2))).

Definition primes : list Z :=
  Eval vm_compute in List.filter is_prime (map Z.of_nat (seq 2 310)).

(** The integer cube root below [2 ^ n], one bit at a time. *)
Fixpoint cbrt_bits (n : nat) (x root : Z) : Z :=
  match n with
  | O => root
  | S m =>
      let candidate := root + 2 ^ Z.of_nat m in
      if candidate * candidate * candidate <=? x
      then cbrt_bits m x candidate
      else cbrt_bits m x root
  end.

Definition K : list Z :=
  Eval vm_compute in
    map (fun p => wrap32 (cbrt_bits 36 (p * 2 ^ 96) 0)) (firstn 64 primes).

(** The eight chaining words. *)
Record state := State8 {
  h0 : Z; h1 : Z; h2 : Z; h3 : Z; h4 : Z; h5 : Z; h6 : Z; h7 : Z }.

Definition initial_words : list Z :=
  Eval vm_compute in
    map (fun p => wrap32 (Z.sqrt (p * 2 ^ 64))) (firstn 8 primes).

Definition init : state :=
  State8 (nth 0 initial_words 0) (nth 1 initial_words 0)
         (nth 2 initial_words 0) (nth 3 initial_words 0)
         (nth 4 initial_words 0) (nth 5 initial_words 0)
         (nth 6 initial_words 0) (nth 7 initial_words 0).

(** Padding: the byte 0x80, zero bytes up to 56 modulo 64, then the bit
    length as a 64-bit big-endian integer. *)
Fixpoint be_bytes (n : nat) (x : Z) : list Z :=
  match n with
  | O => []
  | S m => Z.land (Z.shiftr x (8 * Z.of_nat m)) 0xff :: be_bytes m x
  end.

Definition pad (msg : list Z) : list Z :=
  let len := Z.of_nat (length msg) in
  let zeros := Z.to_nat ((55 - len) mod 64) in
  msg ++ 0x80 :: repeat 0 zeros ++ be_bytes 8 (8 * len).

Fixpoint be_words (n : nat) (bs : list Z) : list Z :=
  match n, bs with
  | S m, b3 :: b2 :: b1 :: b0 :: rest =>
      (Z.shiftl b3 24 + Z.shiftl b2 16 + Z.shiftl b1 8 + b0) :: be_words m rest
  | _, _ => []
  end.

(** The message schedule, newest word first: [rw] holds W[t-1], W[t-2], ... *)
Fixpoint extend (n : nat) (rw : list Z) : list Z :=
  match n with
  | O => rw
  | S m =>
      let w := add32 (add32 (add32 (ssig1 (nth 1 rw 0)) (nth 6 rw 0))
                            (ssig0 (nth 14 rw 0))) (nth 15 rw 0) in
      extend m (w :: rw)
  end.

Definition schedule (block : list Z) : list Z :=
  rev (extend 48 (rev (be_words 16 block))).

Definition round (s : state) (kw : Z * Z) : state :=
  let '(State8 a b c d e f g h) := s in
  let t1 := add32 (add32 (add32 (add32 h (bsig1 e)) (Ch e f g)) (fst kw)) (snd kw) in
  let t2 := add32 (bsig0 a) (Maj a b c) in
  State8 (add32 t1 t2) a b c (add32 d t1) e f g.

Definition compress (s : state) (block : list Z) : state :=
  let r := fold_left round (combine K (schedule block)) s in
  State8 (add32 (h0 s) (h0 r)) (add32 (h1 s) (h1 r))
         (add32 (h2 s) (h2 r)) (add32 (h3 s) (h3 r))
         (add32 (h4 s) (h4 r)) (add32 (h5 s) (h5 r))
         (add32 (h6 s) (h6 r)) (add32 (h7 s) (h7 r)).

Fixpoint blocks (n : nat) (bs : list Z) (s : state) : state :=
  match n with
  | O => s
  | S m => blocks m (skipn 64 bs) (compress s (firstn 64 bs))
  end.

Definition digest (msg : list Z) : state :=
  let p := pad msg in blocks (length p / 64) p init.

(** Lower-case hexadecimal, as [hexdigest] prints it. *)
Definition hexchar (n : Z) : ascii :=
  if n <? 10 then ascii_of_N (Z.to_N (48 + n))
  else ascii_of_N (Z.to_N (87 + n)).

Definition nibble (w : Z) (i : Z) : ascii :=
  hexchar (Z.land (Z.shiftr w (4 * i)) 15).

Definition hex8 (w : Z) (rest : string) : string :=
  String (nibble w 7) (String (nibble w 6) (String (nibble w 5)
 (String (nibble w 4) (String (nibble w 3) (String (nibble w 2)
 (String (nibble w 1) (String (nibble w 0) rest))))))).

Definition hex_of_state (s : state) : string :=
  hex8 (h0 s) (hex8 (h1 s) (hex8 (h2 s) (hex8 (h3 s)
 (hex8 (h4 s) (hex8 (h5 s) (hex8 (h6 s) (hex8 (h7 s) ""))))))).

(** [s.encode('utf-8')]: the bytes of the encoded string. *)
Definition encode (s : string) : list Z :=
  map (fun c => Z.of_N (N_of_ascii c)) (list_ascii_of_string s).

(** [hashlib.sha256(b).hexdigest()] *)
Definition hexdigest (s : string) : string := hex_of_state (digest (encode s)).

End SHA256.

(** ** Python strings *)

Module Py.

(** A [str] is a sequence of characters; the strings of this
    development hold its UTF-8 encoding, so a character is one to four
    bytes. *)

(** The payload of a continuation byte. *)
Definition continuation (b : ascii) : option N :=
  let n := N_of_ascii b in
  if ((128 <=? n) && (n <? 192))%N then Some (n - 128)%N else None.

(** A byte that begins no character is read as a character of its own,
    beyond the code points. *)
Definition stray (b : ascii) : N * string :=
  ((1114112 + N_of_ascii b)%N, String b "").

Definition is_surrogate (cp : N) : bool := ((55296 <=? cp) && (cp <? 57344))%N.

(** The characters of a string, each with its code point and its bytes. *)
Fixpoint characters (s : string) : list (N * string) :=
  match s with
  | EmptyString => []
  | String b0 r0 =>
      let n0 := N_of_ascii b0 in
      if (n0 <? 128)%N then (n0, String b0 "") :: characters r0
      else
        match r0 with
        | String b1 r1 =>
            match continuation b1 with
            | Some c1 =>
                if ((194 <=? n0) && (n0 <? 224))%N
                then (((n0 - 192) * 64 + c1)%N, String b0 (String b1 ""))
                       :: characters r1
                else
                  match r1 with
                  | String b2 r2 =>
                      match continuation b2 with
                      | Some c2 =>
                          let three := ((n0 - 224) * 4096 + c1 * 64 + c2)%N in
                          if ((224 <=? n0) && (n0 <? 240) && (2048 <=? three))%N
                             && negb (is_surrogate three)
                          then (three, String b0 (String b1 (String b2 "")))
                                 :: characters r2
                          else
                            match r2 with
                            | String b3 r3 =>
                                match continuation b3 with
                                | Some c3 =>
                                    let four := ((n0 - 240) * 262144 + c1 * 4096
                                                 + c2 * 64 + c3)%N in
                                    if ((240 <=? n0) && (n0 <? 245)
                                        && (65536 <=? four) && (four <? 1114112))%N
                                    then (four,
                                          String b0 (String b1 (String b2 (String b3 ""))))
                                           :: characters r3
                                    else stray b0 :: characters r0
                                | None => stray b0 :: characters r0
                                end
                            | EmptyString => stray b0 :: characters r0
                            end
                      | None => stray b0 :: characters r0
                      end
                  | EmptyString => stray b0 :: characters r0
                  end
            | None => stray b0 :: characters r0
            end
        | EmptyString => [ stray b0 ]
        end
  end.

(** [s.isascii()] *)
Definition isascii (s : string) : bool :=
  forallb (fun b => (N_of_ascii b <? 128)%N) (list_ascii_of_string s).

(** The zeros of the decimal digits of Unicode 14 (category Nd): each is
    followed by the digits one to nine of its script. *)
Definition decimal_zeros : list N :=
  [ 0x30; 0x660; 0x6f0; 0x7c0; 0x966; 0x9e6; 0xa66; 0xae6; 0xb66; 0xbe6; 0xc66;
    0xce6; 0xd66; 0xde6; 0xe50; 0xed0; 0xf20; 0x1040; 0x1090; 0x17e0; 0x1810;
    0x1946; 0x19d0; 0x1a80; 0x1a90; 0x1b50; 0x1bb0; 0x1c40; 0x1c50; 0xa620;
    0xa8d0; 0xa900; 0xa9d0; 0xa9f0; 0xaa50; 0xabf0; 0xff10; 0x104a0; 0x10d30;
    0x11066; 0x110f0; 0x11136; 0x111d0; 0x112f0; 0x11450; 0x114d0; 0x11650;
    0x116c0; 0x11730; 0x118e0; 0x11950; 0x11c50; 0x11d50; 0x11da0; 0x16a60;
    0x16ac0; 0x16b50; 0x1d7ce; 0x1d7d8; 0x1d7e2; 0x1d7ec; 0x1d7f6; 0x1e140;
    0x1e2f0; 0x1e950; 0x1fbf0 ]%N.

(** The value of a decimal digit. *)
Definition decimal_value (cp : N) : option N :=
  match List.find (fun zero => ((zero <=? cp) && (cp <? zero + 10))%N) decimal_zeros with
  | Some zero => Some (cp - zero)%N
  | None => None
  end.

Definition in_ranges (ranges : list (N * N)) (cp : N) : bool :=
  existsb (fun r => ((fst r <=? cp) && (cp <=? snd r))%N) ranges.

(** The digits that are not decimal: superscripts, subscripts, circled
    and dotted digits and the like. *)
Definition other_digits : list (N * N) :=
  [ (0xb2, 0xb3); (0xb9, 0xb9); (0x1369, 0x1371); (0x19da, 0x19da);
    (0x2070, 0x2070); (0x2074, 0x2079); (0x2080, 0x2089); (0x2460, 0x2468);
    (0x2474, 0x247c); (0x2488, 0x2490); (0x24ea, 0x24ea); (0x24f5, 0x24fd);
    (0x24ff, 0x24ff); (0x2776, 0x277e); (0x2780, 0x2788); (0x278a, 0x2792);
    (0x10a40, 0x10a43); (0x10e60, 0x10e68); (0x11052, 0x1105a);
    (0x1f100, 0x1f10a) ]%N.

(** [c.isdigit()] for a character *)
Definition is_digit (cp : N) : bool :=
  match decimal_value cp with
  | Some _ => true
  | None => in_ranges other_digits cp
  end.

(** [s.isdigit()]: at least one character, and every character a digit. *)
Definition isdigit (s : string) : bool :=
  match characters s with
  | [] => false
  | cs => forallb (fun c => is_digit (fst c)) cs
  end.

(** The digits read from the left. *)
Fixpoint int_acc (acc : N) (cps : list N) : option N :=
  match cps with
  | [] => Some acc
  | cp :: rest =>
      match decimal_value cp with
      | Some d => int_acc (10 * acc + d)%N rest
      | None => None
      end
  end.

(** [int(s)] on a string of digits, the strings [isdigit] accepts:
    [None] is Python's ValueError, raised when a digit is not decimal.
    The bound an interpreter may put on the number of digits (4300 by
    default since Python 3.11) is left out. *)
Definition int (s : string) : option N :=
  match characters s with
  | [] => None
  | cs => int_acc 0%N (map fst cs)
  end.

(** The digits of the ASCII range. *)
Definition is_ascii_digit (c : ascii) : bool :=
  let n := N_of_ascii c in ((48 <=? n) && (n <=? 57))%N.

Fixpoint all_digits (s : string) : bool :=
  match s with
  | EmptyString => true
  | String c rest => is_ascii_digit c && all_digits rest
  end.

(** [str(n)] for a non-negative integer. *)
Definition str_of_N (n : N) : string := NilZero.string_of_uint (N.to_uint n).
Definition str_of_nat (n : nat) : string := str_of_N (N.of_nat n).

(** [sep.join(parts)] *)
Fixpoint join (sep : string) (parts : list string) : string :=
  match parts with
  | [] => ""
  | [p] => p
  | p :: rest => p +:+ sep +:+ join sep rest
  end.

(** [s.split(c)] for a one-character separator: never empty, the pieces
    between consecutive separators, empty pieces kept. *)
Fixpoint split (sep : ascii) (s : string) : list string :=
  match s with
  | EmptyString => [""]
  | String c rest =>
      if Ascii.eqb c sep then "" :: split sep rest
      else match split sep rest with
           | [] => [String c ""]
           | p :: ps => String c p :: ps
           end
  end.

(** [s.startswith(p)] *)
Fixpoint startswith (p s : string) : bool :=
  match p, s with
  | EmptyString, _ => true
  | String a p', String b s' => Ascii.eqb a b && startswith p' s'
  | String _ _, EmptyString => false
  end.

(** [s[n:]] *)
Fixpoint drop (n : nat) (s : string) : string :=
  match n, s with
  | O, _ => s
  | S m, String _ rest => drop m rest
  | S _, EmptyString => ""
  end.

(** [s[:n]] *)
Fixpoint take (n : nat) (s : string) : string :=
  match n, s with
  | S m, String c rest => String c (take m rest)
  | _, _ => ""
  end.

(** White space: the characters [isspace] accepts. *)
Definition spaces : list (N * N) :=
  [ (0x9, 0xd); (0x1c, 0x20); (0x85, 0x85); (0xa0, 0xa0); (0x1680, 0x1680);
    (0x2000, 0x200a); (0x2028, 0x2029); (0x202f, 0x202f); (0x205f, 0x205f);
    (0x3000, 0x3000) ]%N.

Definition is_space (cp : N) : bool := in_ranges spaces cp.

Fixpoint lstrip_characters (cs : list (N * string)) : list (N * string) :=
  match cs with
  | c :: rest => if is_space (fst c) then lstrip_characters rest else cs
  | [] => []
  end.

Definition strip_characters (cs : list (N * string)) : list (N * string) :=
  rev (lstrip_characters (rev (lstrip_characters cs))).

(** The string of some characters. *)
Definition of_characters (cs : list (N * string)) : string :=
  fold_right (fun c rest => snd c +:+ rest) "" cs.

(** [s.strip()] *)
Definition strip (s : string) : string :=
  of_characters (strip_characters (characters s)).

(** [sub in s] for strings *)
Fixpoint contains (sub s : string) : bool :=
  startswith sub s ||
  match s with
  | EmptyString => false
  | String _ rest => contains sub rest
  end.

(** [str(x)] for an [Optional[str]]. *)
Definition str_of_optional (x : option string) : string :=
  match x with
  | Some s => s
  | None => "None"
  end.

End Py.

(** ** Exceptions and the error monad *)

Inductive exn :=
| KeyError | IndexError | TypeError | AttributeError | ValueError
| FileNotFoundError.

Inductive result (A : Type) :=
| Ok (a : A)
| Raise (e : exn).
Arguments Ok {A} a.
Arguments Raise {A} e.

#[global] Instance result_ret : MRet result := @Ok.
#[global] Instance result_bind : MBind result := fun A B f m =>
  match m with
  | Ok a => f a
  | Raise e => Raise e
  end.

Definition is_ok {A} (r : result A) : bool :=
  match r with Ok _ => true | Raise _ => false end.

(** Code that mutates a state [S] and may raise: the state reached when
    the exception is raised is kept, as Python keeps the mutations made
    before a [raise]. *)
Definition Exec (S A : Type) : Type := S -> result A * S.

#[global] Instance exec_ret {S} : MRet (Exec S) := fun A a s => (Ok a, s).
#[global] Instance exec_bind {S} : MBind (Exec S) := fun A B f m s =>
  match m s with
  | (Ok a, s') => f a s'
  | (Raise e, s') => (Raise e, s')
  end.

Definition modify {S} (f : S -> S) : Exec S unit := fun s => (Ok tt, f s).
Definition lift {S A} (r : result A) : Exec S A := fun s => (r, s).

(** [for x in xs: body(x)] *)
Fixpoint for_each {S A} (xs : list A) (body : A -> Exec S unit) : Exec S unit :=
  match xs with
  | [] => mret tt
  | x :: rest => body x ;; for_each rest body
  end.

(** [enumerate(xs)] *)
Definition enumerate {A} (xs : list A) : list (nat * A) :=
  combine (seq 0 (length xs)) xs.

(** ** Python dicts: association lists in insertion order *)

Section Dict.
Context {K V : Type} `{EqDecision K}.

(** [d[k]] / [d.get(k)] *)
Fixpoint dict_get (k : K) (d : list (K * V)) : option V :=
  match d with
  | [] => None
  | (k', v) :: rest => if decide (k' = k) then Some v else dict_get k rest
  end.

(** [d[k] = v]: an existing key keeps its place, a new key goes last. *)
Fixpoint dict_set (k : K) (v : V) (d : list (K * V)) : list (K * V) :=
  match d with
  | [] => [(k, v)]
  | (k', v') :: rest =>
      if decide (k' = k) then (k', v) :: rest
      else (k', v') :: dict_set k v rest
  end.

(** [k in d] *)
Definition dict_mem (k : K) (d : list (K * V)) : bool :=
  match dict_get k d with Some _ => true | None => false end.

Definition dict_keys (d : list (K * V)) : list K := map fst d.

(** The dict built from a sequence of pairs: a repeated key keeps its
    first place and its last value. *)
Definition dict_of_pairs (ps : list (K * V)) : list (K * V) :=
  fold_left (fun acc kv => dict_set (fst kv) (snd kv) acc) ps [].
End Dict.

(** ** JSON documents as Python holds them *)

(** A subscript, and a dict key: a string, or the integer a digit
    segment of a path was converted to. *)
Inductive pykey :=
| KStr (s : string)
| KInt (n : N).

#[global] Instance pykey_eq_dec : EqDecision pykey.
Proof. solve_decision. Defined.

#[local] Unset Elimination Schemes.
Inductive json :=
| JNull
| JBool (b : bool)
| JInt (n : Z)
| JFloat (num : Z) (den : positive)
| JStr (s : string)
| JList (items : list json)
| JDict (fields : list (pykey * json)).
#[local] Set Elimination Schemes.

Definition json_of_key (k : pykey) : json :=
  match k with
  | KStr s => JStr s
  | KInt n => JInt (Z.of_N n)
  end.

(** The characters of a string, each a string. *)
Definition chars (s : string) : list json :=
  map (fun c => JStr (snd c)) (Py.characters s).

(** [obj[k]] *)
Definition getitem (obj : json) (k : pykey) : result json :=
  match obj, k with
  | JDict d, _ =>
      match dict_get k d with
      | Some v => Ok v
      | None => Raise KeyError
      end
  | JList l, KInt n =>
      if (n <? N.of_nat (length l))%N
      then match l !! N.to_nat n with
           | Some v => Ok v
           | None => Raise IndexError
           end
      else Raise IndexError
  | JStr s, KInt n =>
      if (n <? N.of_nat (length (chars s)))%N
      then match chars s !! N.to_nat n with
           | Some v => Ok v
           | None => Raise IndexError
           end
      else Raise IndexError
  | _, _ => Raise TypeError
  end.

(** [obj[k] = v]: the object after the assignment.  A dict accepts any
    key; a list accepts an index in range only. *)
Definition setitem (obj : json) (k : pykey) (v : json) : result json :=
  match obj, k with
  | JDict d, _ => Ok (JDict (dict_set k v d))
  | JList l, KInt n =>
      if (n <? N.of_nat (length l))%N
      then Ok (JList (<[N.to_nat n := v]> l))
      else Raise IndexError
  | _, _ => Raise TypeError
  end.

(** The values [for x in obj] yields. *)
Definition iter (obj : json) : result (list json) :=
  match obj with
  | JList l => Ok l
  | JDict d => Ok (map json_of_key (dict_keys d))
  | JStr s => Ok (chars s)
  | _ => Raise TypeError
  end.

(** [x == s] for a string [s] *)
Definition eq_str (x : json) (s : string) : bool :=
  match x with
  | JStr t => bool_decide (t = s)
  | _ => false
  end.

(** [x == n] for an integer [n] *)
Definition eq_int (x : json) (n : Z) : bool :=
  match x with
  | JInt m => m =? n
  | JFloat num den => num =? n * Z.pos den
  | JBool b => (if b then 1 else 0) =? n
  | _ => false
  end.

(** [s in obj] for a string [s] *)
Definition contains (s : string) (obj : json) : result bool :=
  match obj with
  | JDict d => Ok (dict_mem (KStr s) d)
  | JList l => Ok (existsb (fun x => eq_str x s) l)
  | JStr t => Ok (Py.contains s t)
  | _ => Raise TypeError
  end.

(** [obj.get(k, default)]: only a dict has the method. *)
Definition get_method (obj : json) (k : string) (default : json) : result json :=
  match obj with
  | JDict d => Ok (from_option id default (dict_get (KStr k) d))
  | _ => Raise AttributeError
  end.

(** A value used where Python needs a [str] ([join] raises TypeError on
    anything else). *)
Definition as_text (v : json) : result string :=
  match v with
  | JStr s => Ok s
  | _ => Raise TypeError
  end.

(** ** The translation map *)

Record context := Context {
  c_file : string;
  c_path : string;
  c_event_id : option string;
  c_map_id : option string }.

(** One entry of the map; [e_translations] is [None] while the entry has
    no "translations" key. *)
Record entry := Entry {
  e_original : string;
  e_context : context;
  e_translations : option (list (string * string)) }.

Definition tmap := list (string * entry).

(** ** LocalizationProcessor *)

Record processor := Processor {
  translation_map : tmap;
  processed_strings : gset string }.

(** [LocalizationProcessor.__init__] *)
Definition new_processor : processor := Processor [] ∅.

Definition fingerprint_string (text file_path context_path : string)
    (event_id map_id : option string) : string :=
  let components :=
    [ text; file_path; context_path;
      Py.str_of_optional event_id; Py.str_of_optional map_id ] in
  Py.join "||" components.

Definition generate_fingerprint (text file_path context_path : string)
    (event_id map_id : option string) : Exec processor string :=
  let hasher := SHA256.hexdigest
    (fingerprint_string text file_path context_path event_id map_id) in
  mret (Py.take 16 hasher).

Definition process_string (text file_path context_path : string)
    (event_id map_id : option string) : Exec processor unit :=
  fingerprint ← generate_fingerprint text file_path context_path event_id map_id;
  modify (fun self =>
    Processor
      (dict_set fingerprint
         (Entry text (Context file_path context_path event_id map_id) None)
         (translation_map self))
      ({[ text ]} ∪ processed_strings self)).

(** [Map???.json]: the names [glob] keeps, Map and .json with three
    characters between them. *)
Definition glob_map (name : string) : bool :=
  bool_decide (length (Py.characters name) = 11%nat)
  && Py.startswith "Map" name
  && bool_decide (Py.drop (String.length name - 5) name = ".json")
  && negb (Py.contains "/" name).

(** [map_file.stem] of a name ending in ".json" *)
Definition stem (name : string) : string :=
  Py.take (String.length name - 5) name.

Definition process_map_item (file_path map_id : string) (event_idx page_idx : nat)
    (entry : nat * json) : Exec processor unit :=
  let '(list_idx, item) := entry in
  let prefix := "events." +:+ Py.str_of_nat event_idx +:+ ".pages."
                +:+ Py.str_of_nat page_idx +:+ ".list."
                +:+ Py.str_of_nat list_idx +:+ ".parameters.0" in
  code ← lift (getitem item (KStr "code"));
  if eq_int code 401 then
    parameters ← lift (getitem item (KStr "parameters"));
    first ← lift (getitem parameters (KInt 0));
    text ← lift (as_text first);
    process_string text file_path prefix
      (Some (Py.str_of_nat event_idx)) (Some map_id)
  else
    code ← lift (getitem item (KStr "code"));
    if eq_int code 102 then
      parameters ← lift (getitem item (KStr "parameters"));
      first ← lift (getitem parameters (KInt 0));
      choices ← lift (iter first);
      for_each (enumerate choices) (fun '(choice_idx, choice) =>
        text ← lift (as_text choice);
        process_string text file_path
          (prefix +:+ "." +:+ Py.str_of_nat choice_idx)
          (Some (Py.str_of_nat event_idx)) (Some map_id))
    else mret tt.

Definition process_map_event (file_path map_id : string)
    (entry : nat * json) : Exec processor unit :=
  let '(event_idx, event) := entry in
  match event with
  | JNull => mret tt
  | _ =>
      pages ← lift (getitem event (KStr "pages") ≫= iter);
      for_each (enumerate pages) (fun '(page_idx, page) =>
        items ← lift (getitem page (KStr "list") ≫= iter);
        for_each (enumerate items)
          (process_map_item file_path map_id event_idx page_idx))
  end.

(** The body of the loop of [process_map_files] for one file. *)
Definition process_map_file (name : string) (data : json) : Exec processor unit :=
  let map_id := Py.drop 3 (stem name) in
  let file_path := "data/" +:+ name in
  xs ← lift (iter data);
  for_each xs (fun x =>
    if eq_str x "displayName" then
      text ← lift (getitem data (KStr "displayName") ≫= as_text);
      process_string text file_path (map_id +:+ ".displayName") None (Some map_id)
    else mret tt) ;;
  has_events ← lift (contains "events" data);
  if negb has_events then mret tt
  else
    events ← lift (getitem data (KStr "events") ≫= iter);
    for_each (enumerate events) (process_map_event file_path map_id).

(** [process_map_files] over the listing of the project's [data]
    directory: each file name with its parsed content. *)
Definition process_map_files (listing : list (string * json)) : Exec processor unit :=
  for_each (List.filter (fun f => glob_map (fst f)) listing)
    (fun '(name, data) => process_map_file name data).

(** ** Files and console *)

(** The text a dict key is written with by [json.dump]. *)
Definition key_str (k : pykey) : string :=
  match k with
  | KStr s => s
  | KInt n => Py.str_of_N n
  end.

(** What [json.load] reads back from what [json.dump] wrote: integer
    keys have become strings, and of two equal keys the first place and
    the last value remain. *)
Fixpoint dump_load (j : json) : json :=
  match j with
  | JList l => JList (map dump_load l)
  | JDict d =>
      JDict (dict_of_pairs
               (map (fun kv => (KStr (key_str (fst kv)), dump_load (snd kv))) d))
  | _ => j
  end.

Inductive line :=
| Print (s : string)
| PrintExn (s : string) (e : exn).

(** Project files by their path relative to the project directory, each
    with its parsed content, and the lines printed so far. *)
Record world := World {
  files : gmap string json;
  stdout : list line }.

Definition print (s : string) : Exec world unit :=
  modify (fun w => World (files w) (stdout w ++ [Print s])).

Definition print_exn (s : string) (e : exn) : Exec world unit :=
  modify (fun w => World (files w) (stdout w ++ [PrintExn s e])).

(** [with open(file_path) as f: data = json.load(f)] *)
Definition read_json (file_path : string) : Exec world json := fun w =>
  match files w !! file_path with
  | Some data => (Ok data, w)
  | None => (Raise FileNotFoundError, w)
  end.

(** [with open(file_path, 'w') as f: json.dump(data, f, ...)] *)
Definition write_json (file_path : string) (data : json) : Exec world unit :=
  modify (fun w => World (<[file_path := dump_load data]> (files w)) (stdout w)).

(** [try: body  except Exception as e: handler(e)] *)
Definition try_except {S A} (body : Exec S A) (handler : exn -> Exec S A) : Exec S A :=
  fun s =>
    match body s with
    | (Ok a, s') => (Ok a, s')
    | (Raise e, s') => handler e s'
    end.

(** ** LocalizationPatcher *)

Record patcher := Patcher {
  language : string;
  p_translation_map : tmap }.

(** A path component as it is used to subscript: [int(comp)] when
    [comp.isdigit()], else [comp] itself. *)
Definition subscript_of (comp : string) : result pykey :=
  if Py.isdigit comp then
    match Py.int comp with
    | Some n => Ok (KInt n)
    | None => Raise ValueError
    end
  else Ok (KStr comp).

(** [for comp in components[:-1]: target = target[comp]].  [trail] keeps
    the objects walked through, innermost first, each with the subscript
    under which it holds the next one. *)
Fixpoint walk (target : json) (trail : list (json * pykey)) (comps : list string)
    : result (json * list (json * pykey)) :=
  match comps with
  | [] => Ok (target, trail)
  | comp :: rest =>
      k ← subscript_of comp;
      child ← getitem target k;
      walk child ((target, k) :: trail) rest
  end.

(** [parent] once the object it holds under [k] has become [child].  A
    string holds no object: subscripting it made a new one. *)
Definition holding (parent : json) (k : pykey) (child : json) : json :=
  match parent, k with
  | JDict d, _ => JDict (dict_set k child d)
  | JList l, KInt n => JList (<[N.to_nat n := child]> l)
  | _, _ => parent
  end.

(** The document once the innermost object of the trail has been
    mutated into [target]. *)
Fixpoint rebuild (trail : list (json * pykey)) (target : json) : json :=
  match trail with
  | [] => target
  | (parent, k) :: up => rebuild up (holding parent k target)
  end.

(** One turn of the loop of [patch_file]. *)
Definition apply_patch (data : json) (path new_text : string) : result json :=
  let components := Py.split "." path in
  '(target, trail) ← walk data [] (removelast components);
  last_comp ← subscript_of (List.last components "");
  target ← setitem target last_comp (JStr new_text);
  Ok (rebuild trail target).

Fixpoint apply_patches (data : json) (patches : list (string * string)) : result json :=
  match patches with
  | [] => Ok data
  | (path, new_text) :: rest =>
      data ← apply_patch data path new_text;
      apply_patches data rest
  end.

Definition patch_file (file_path : string) (patches : list (string * string))
    : Exec world unit :=
  data ← read_json file_path;
  data ← lift (apply_patches data patches);
  write_json file_path data.

(** [for item in ...: if item.get("id") == target_id: item["text"] = new_text; break]
    over the elements of a list: the list with the first matching
    element updated. *)
Fixpoint patch_first (items : list json) (target_id new_text : string)
    : result (list json) :=
  match items with
  | [] => Ok []
  | item :: rest =>
      id ← get_method item "id" JNull;
      if eq_str id target_id then
        item ← setitem item (KStr "text") (JStr new_text);
        Ok (item :: rest)
      else
        rest ← patch_first rest target_id new_text;
        Ok (item :: rest)
  end.

(** One turn of the loop of [patch_misc_file]. *)
Definition apply_misc_patch (data : json) (path new_text : string) : result json :=
  if Py.startswith "misc." path then
    let target_id := Py.drop 5 path in
    misc_strings ← get_method data "misc_strings" (JList []);
    match misc_strings with
    | JList items =>
        items ← patch_first items target_id new_text;
        (* the elements are objects of the document: it holds them as updated *)
        match data with
        | JDict d =>
            if dict_mem (KStr "misc_strings") d
            then Ok (JDict (dict_set (KStr "misc_strings") (JList items) d))
            else Ok data
        | _ => Ok data
        end
    | _ =>
        (* the keys of a dict, the characters of a string: none has [get] *)
        items ← iter misc_strings;
        match items with
        | [] => Ok data
        | _ :: _ => Raise AttributeError
        end
    end
  else Ok data.

Fixpoint apply_misc_patches (data : json) (patches : list (string * string))
    : result json :=
  match patches with
  | [] => Ok data
  | (path, new_text) :: rest =>
      data ← apply_misc_patch data path new_text;
      apply_misc_patches data rest
  end.

Definition patch_misc_file (file_path : string) (patches : list (string * string))
    : Exec world unit :=
  data ← read_json file_path;
  data ← lift (apply_misc_patches data patches);
  write_json file_path data.

(** The first loop of [patch_all_files]: one entry of the map added to
    the patches grouped by file. *)
Definition group_entry (language : string)
    (file_patches : list (string * list (string * string)))
    (item : string * entry) : list (string * list (string * string)) :=
  let entry := snd item in
  match dict_get language (default [] (e_translations entry)) with
  | None => file_patches
  | Some translated_text =>
      let file_path := c_file (e_context entry) in
      let context_path := c_path (e_context entry) in
      let file_patches :=
        if dict_mem file_path file_patches then file_patches
        else dict_set file_path [] file_patches in
      dict_set file_path
        (dict_set context_path translated_text
           (default [] (dict_get file_path file_patches)))
        file_patches
  end.

Definition group_patches (self : patcher) : list (string * list (string * string)) :=
  fold_left (group_entry (language self)) (p_translation_map self) [].

(** The body of the second loop of [patch_all_files]. *)
Definition patch_grouped (group : string * list (string * string)) : Exec world unit :=
  let '(file_path, patches) := group in
  print ("   [*] patching " +:+ file_path +:+ "...") ;;
  if Py.contains "rmmvlt_misc.json" file_path
  then patch_misc_file file_path patches
  else patch_file file_path patches.

Definition patch_all_files (self : patcher) : Exec world unit :=
  for_each (group_patches self) patch_grouped.

(** [print_success] *)
Definition print_success (message : string) : Exec world unit :=
  print (String "010" ("[@] " +:+ message)) ;;
  print "[@] operation success" ;;
  print "".

(** The [patch] branch of [main], from the line it prints first; the
    translation map is the one the patcher has loaded from the strings
    file. *)
Definition main_patch (translation_map : tmap) (language : string) : Exec world unit :=
  print ("[>] patching project with language: " +:+ language) ;;
  let patcher := Patcher language translation_map in
  try_except
    (patch_all_files patcher ;; print_success "patching complete!")
    (fun e => print_exn "[!] error during patching: " e).

(** The status the interpreter exits with: 0 when [main] returns, 1 when
    an exception leaves it. *)
Definition exit_status {A} (r : result A) : Z :=
  match r with
  | Ok _ => 0
  | Raise _ => 1
  end.

(** ** Import of translations (excel_to_translation_map) *)

(** The variables of the import loop. *)
Record importer := Importer {
  i_translation_map : tmap;
  i_processed : nat;
  i_skipped : nat;
  i_stdout : list line }.

Definition warning_line (fingerprint : string) : line :=
  Print ("   [!] warning: fingerprint not found in map: " +:+ fingerprint).

Definition processed_line (processed : nat) : line :=
  Print ("   [*] processed " +:+ Py.str_of_nat processed +:+ " translations").

Definition skipped_line (skipped : nat) : line :=
  Print ("   [!] skipped " +:+ Py.str_of_nat skipped +:+ " invalid fingerprints").

(** The body of [for fingerprint in fingerprints]. *)
Definition merge_translation (language translated_text : string)
    (st : importer) (fingerprint : string) : importer :=
  match dict_get fingerprint (i_translation_map st) with
  | Some entry =>
      let translations := default [] (e_translations entry) in
      Importer
        (dict_set fingerprint
           (Entry (e_original entry) (e_context entry)
                  (Some (dict_set language translated_text translations)))
           (i_translation_map st))
        (S (i_processed st)) (i_skipped st) (i_stdout st)
  | None =>
      Importer (i_translation_map st) (i_processed st) (S (i_skipped st))
        (i_stdout st ++ [warning_line fingerprint])
  end.

(** [[fp.strip() for fp in raw.split(';') if fp.strip()]] *)
Definition split_fingerprints (raw_fingerprints : string) : list string :=
  map Py.strip
    (List.filter (fun fp => negb (bool_decide (Py.strip fp = "")))
                 (Py.split ";" raw_fingerprints)).

(** A row of the sheet: the text of its Fingerprint cell, and the text
    of its translation cell unless the cell is empty ([pd.notna]). *)
Definition row : Type := string * option string.

Definition import_row (language : string) (st : importer) (r : row) : importer :=
  match snd r with
  | Some translated_text =>
      fold_left (merge_translation language translated_text)
                (split_fingerprints (fst r)) st
  | None => st
  end.

(** The map written to [output_map_file] and the lines printed. *)
Definition excel_to_translation_map (rows : list row) (translation_map : tmap)
    (output_map_file language : string) : tmap * list line :=
  let st := fold_left (import_row language) rows (Importer translation_map 0 0 []) in
  let out := i_stdout st ++ [processed_line (i_processed st)] in
  let out := if (0 <? i_skipped st)%nat then out ++ [skipped_line (i_skipped st)] else out in
  (i_translation_map st,
   out ++ [Print ("   [*] translation map created: " +:+ output_map_file)]).

(** The pairs of translated text and fingerprint the two nested loops
    of the import go through, in their order. *)
Definition merges (rows : list row) : list (string * string) :=
  flat_map (fun r : row =>
              match snd r with
              | Some translated_text =>
                  map (pair translated_text) (split_fingerprints (fst r))
              | None => []
              end) rows.

Definition run_merges (language : string) (ms : list (string * string))
    (st : importer) : importer :=
  fold_left (fun st m => merge_translation language (fst m) st (snd m)) ms st.

(** ** The path addressing of the specification *)

(** A segment is an index or a field name. *)
Inductive segment :=
| Index (n : N)
| Field (name : string).

#[global] Instance segment_eq_dec : EqDecision segment.
Proof. solve_decision. Defined.

Definition key_of (seg : segment) : pykey :=
  match seg with
  | Index n => KInt n
  | Field name => KStr name
  end.

(** The number written by decimal digits, the last digit first. *)
Fixpoint decimal_rev (digits : list N) : option N :=
  match digits with
  | [] => Some 0%N
  | c :: higher =>
      d ← Py.decimal_value c;
      h ← decimal_rev higher;
      Some (d + 10 * h)%N
  end.

(** A segment parses as a non-negative base-10 integer: it is not
    empty and each of its characters is a decimal digit. *)
Definition parse_decimal (seg : string) : option N :=
  match seg with
  | EmptyString => None
  | _ => decimal_rev (rev (map fst (Py.characters seg)))
  end.

Definition classify (seg : string) : segment :=
  match parse_decimal seg with
  | Some n => Index n
  | None => Field seg
  end.

Definition segments (path : string) : list segment :=
  map classify (Py.split "." path).

(** [read]: descend one segment at a time. *)
Fixpoint read_path (doc : json) (segs : list segment) : result json :=
  match segs with
  | [] => Ok doc
  | seg :: rest =>
      child ← getitem doc (key_of seg);
      read_path child rest
  end.

(** [write]: descend to the parent of the last segment and replace that
    child, every object on the way holding its child as it has become. *)
Fixpoint write_path (doc : json) (segs : list segment) (v : json) : result json :=
  match segs with
  | [] => Ok v
  | [seg] => setitem doc (key_of seg) v
  | seg :: rest =>
      child ← getitem doc (key_of seg);
      child ← write_path child rest v;
      Ok (holding doc (key_of seg) child)
  end.

(** The last segment can be assigned in the object the walk ends at. *)
Definition assignable (target : json) (seg : segment) : bool :=
  match target, seg with
  | JDict _, _ => true
  | JList l, Index n => (n <? N.of_nat (length l))%N
  | _, _ => false
  end.

(** What a segment is: a number, written with decimal digits; a name,
    which has a character that is no digit, or none; or a numeral, made
    of digits that are not all decimal, such as a superscript two. *)
Inductive kind :=
| Number (n : N)
| Name (name : string)
| Numeral.

Definition kind_of (seg : string) : kind :=
  match parse_decimal seg with
  | Some n => Number n
  | None => if Py.isdigit seg then Numeral else Name seg
  end.

Definition well_formed (seg : string) : bool :=
  match kind_of seg with
  | Numeral => false
  | _ => true
  end.

(** The path can be written in the document: no segment is a numeral,
    every segment before the last resolves and the last is assignable. *)
Definition writable (doc : json) (path : string) : bool :=
  let segs := segments path in
  forallb well_formed (Py.split "." path)
  && match read_path doc (removelast segs) with
     | Ok target => assignable target (List.last segs (Field ""))
     | Raise _ => false
     end.

(** The element or the field under a key: the first entry of a mapping
    with the key, the element of a sequence at the index, the character
    of a string. *)
Definition child_of (doc : json) (k : pykey) : result json :=
  match doc, k with
  | JDict d, _ =>
      match list_find (fun kv => fst kv = k) d with
      | Some (_, kv) => Ok (snd kv)
      | None => Raise KeyError
      end
  | JList l, KInt n =>
      match l !! N.to_nat n with
      | Some v => Ok v
      | None => Raise IndexError
      end
  | JStr s, KInt n =>
      match Py.characters s !! N.to_nat n with
      | Some c => Ok (JStr (snd c))
      | None => Raise IndexError
      end
  | _, _ => Raise TypeError
  end.

(** The document with [v] under the key: in place of the first entry
    with the key, or as a new last entry, in a mapping; in place of the
    element at the index in a sequence, which keeps its length. *)
Definition with_child (doc : json) (k : pykey) (v : json) : result json :=
  match doc, k with
  | JDict d, _ =>
      match list_find (fun kv => fst kv = k) d with
      | Some (i, _) => Ok (JDict (take i d ++ (k, v) :: drop (S i) d))
      | None => Ok (JDict (d ++ [ (k, v) ]))
      end
  | JList l, KInt n =>
      if decide (N.to_nat n < length l)%nat
      then Ok (JList (take (N.to_nat n) l ++ v :: drop (S (N.to_nat n)) l))
      else Raise IndexError
  | _, _ => Raise TypeError
  end.

(** A number is an index, a name is a key, a numeral is an error. *)
Definition key_of_kind (seg : string) : result pykey :=
  match kind_of seg with
  | Number n => Ok (KInt n)
  | Name name => Ok (KStr name)
  | Numeral => Raise ValueError
  end.

(** The document with [v] in place of what the segments lead to. *)
Fixpoint replace_at (doc : json) (segs : list string) (v : json) : result json :=
  match segs with
  | [] => Ok v
  | seg :: rest =>
      k ← key_of_kind seg;
      match rest with
      | [] => with_child doc k v
      | _ :: _ =>
          child ← child_of doc k;
          child ← replace_at child rest v;
          with_child doc k child
      end
  end.


(** ** Predicates of the properties *)

Definition is_hex_char (c : ascii) : bool :=
  let n := N_of_ascii c in
  (((48 <=? n) && (n <=? 57)) || ((97 <=? n) && (n <=? 102)))%N.

Fixpoint all_hex (s : string) : bool :=
  match s with
  | EmptyString => true
  | String c rest => is_hex_char c && all_hex rest
  end.

(** The arguments of one call of [process_string]. *)
Record call := Call {
  a_text : string;
  a_file_path : string;
  a_context_path : string;
  a_event_id : option string;
  a_map_id : option string }.

Definition record (c : call) : Exec processor unit :=
  process_string (a_text c) (a_file_path c) (a_context_path c)
                 (a_event_id c) (a_map_id c).

(** The key is the fingerprint of the fields stored under it. *)
Definition keyed_by_fingerprint (self : processor) : Prop :=
  forall k e, (k, e) ∈ translation_map self ->
    forall any : processor,
      generate_fingerprint (e_original e) (c_file (e_context e))
        (c_path (e_context e)) (c_event_id (e_context e))
        (c_map_id (e_context e)) any = (Ok k, any).

(** A statement keeps a property of the processor, whether it returns or
    raises. *)
Definition preserves {A} (I : processor -> Prop) (m : Exec processor A) : Prop :=
  forall s, I s -> I (snd (m s)).

(** ** Documents as json.load returns them *)

Definition is_dict (j : json) : bool :=
  match j with
  | JDict _ => true
  | _ => false
  end.

Definition is_str (j : json) : bool :=
  match j with
  | JStr _ => true
  | _ => false
  end.

(** A value [json.load] can return: the keys of every mapping are
    strings, each at most once. *)
Fixpoint loaded (j : json) : bool :=
  match j with
  | JList l => forallb loaded l
  | JDict d =>
      forallb (fun kv => match fst kv with
                         | KStr _ => loaded (snd kv)
                         | KInt _ => false
                         end) d
      && bool_decide (NoDup (map fst d))
  | _ => true
  end.

(** The shape of rmmvlt_misc.json: a mapping whose "misc_strings", when
    it has one, is a sequence of mappings. *)
Definition misc_document (data : json) : bool :=
  match data with
  | JDict d =>
      match dict_get (KStr "misc_strings") d with
      | None => true
      | Some (JList items) => forallb is_dict items
      | Some _ => false
      end
  | _ => false
  end.

Definition misc_items (data : json) : list json :=
  match data with
  | JDict d =>
      match dict_get (KStr "misc_strings") d with
      | Some (JList items) => items
      | _ => []
      end
  | _ => []
  end.

(** [item.get("id")] of a mapping *)
Definition item_id (item : json) : json :=
  match item with
  | JDict d => default JNull (dict_get (KStr "id") d)
  | _ => JNull
  end.

(** [item.get("id") == target_id] *)
Definition has_id (target_id : string) (item : json) : bool :=
  eq_str (item_id item) target_id.

(** The patch addresses an element of "misc_strings". *)
Definition matched (data : json) (path : string) : bool :=
  Py.startswith "misc." path
  && existsb (has_id (Py.drop 5 path)) (misc_items data).

(** The document holding [items] as its "misc_strings". *)
Definition with_misc_items (data : json) (items : list json) : json :=
  match data with
  | JDict d => JDict (dict_set (KStr "misc_strings") (JList items) d)
  | _ => data
  end.

(** ** Readings of the grouped patches and of the import *)

(** The translation of an entry for a language, if it has one. *)
Definition translation_of (language : string) (e : entry) : option string :=
  dict_get language (default [] (e_translations e)).

(** The translations, in the order of the map, of the entries recorded
    for a path of a file. *)
Definition translations_at (language file_path context_path : string) (tm : tmap)
    : list string :=
  omap (fun item : string * entry =>
          if bool_decide (c_file (e_context (snd item)) = file_path)
             && bool_decide (c_path (e_context (snd item)) = context_path)
          then translation_of language (snd item)
          else None) tm.

(** The last element of a list, if it has one. *)
Definition last_of {A} (l : list A) : option A := List.last (map Some l) None.

(** [entry] with the translation of one language set. *)
Definition set_translation (language translated_text : string) (e : entry) : entry :=
  Entry (e_original e) (e_context e)
        (Some (dict_set language translated_text (default [] (e_translations e)))).

(** The texts a sheet holds for a fingerprint, in the order of the loops. *)
Definition texts_for (fingerprint : string) (ms : list (string * string)) : list string :=
  map fst (List.filter (fun m => bool_decide (snd m = fingerprint)) ms).

(** Every file once, and every path once within a file. *)
Definition grouped_once (file_patches : list (string * list (string * string))) : Prop :=
  NoDup (dict_keys file_patches)
  /\ Forall (fun group => NoDup (dict_keys (snd group))) file_patches.

(** The map after the body of the import loop, for a text and a
    fingerprint. *)
Definition merge_map (language translated_text : string) (tm : tmap)
    (fingerprint : string) : tmap :=
  match dict_get fingerprint tm with
  | Some e => dict_set fingerprint (set_translation language translated_text e) tm
  | None => tm
  end.

(** Two entries with the same original text and context, and the same
    translations for every language but one. *)
Definition same_but_language (language : string) (e e' : entry) : Prop :=
  e_original e' = e_original e
  /\ e_context e' = e_context e
  /\ forall other : string, other <> language ->
       translation_of other e' = translation_of other e.

(** ** The extractors of the data files *)

(** Truth value of [if obj:] *)
Definition truthy (obj : json) : bool :=
  match obj with
  | JNull => false
  | JBool b => b
  | JInt n => negb (n =? 0)
  | JFloat num _ => negb (num =? 0)
  | JStr s => negb (bool_decide (s = ""))
  | JList l => negb (bool_decide (l = []))
  | JDict d => negb (bool_decide (d = []))
  end.

(** The pairs of value and context path an extractor returns. *)
Definition pairs : Type := list (json * string).

(** [for x in xs: ...results.append(...)...]: the pairs appended for
    each element, in order; an exception discards the list. *)
Fixpoint collect {A} (xs : list A) (f : A -> result pairs) : result pairs :=
  match xs with
  | [] => Ok []
  | x :: rest =>
      r ← f x;
      rs ← collect rest f;
      Ok (r ++ rs)
  end.

(** [if name in item: results.append((item[name], f"{idx}.{name}"))] *)
Definition field_pair (idx : nat) (item : json) (name : string) : result pairs :=
  contains name item ≫= fun present : bool =>
  if present then
    v ← getitem item (KStr name);
    Ok [ (v, Py.str_of_nat idx +:+ "." +:+ name) ]
  else Ok [].

(** [if item and name in item: ...] *)
Definition guarded_field (idx : nat) (item : json) (name : string) : result pairs :=
  if truthy item then field_pair idx item name else Ok [].

(** [if item: if n1 in item: ...; if n2 in item: ...; ...] *)
Definition guarded_fields (idx : nat) (item : json) (names : list string)
    : result pairs :=
  if truthy item then collect names (field_pair idx item) else Ok [].

Definition extract_from_items (data : json) : result pairs :=
  xs ← iter data;
  collect (enumerate xs) (fun '(idx, item) =>
    r1 ← guarded_field idx item "name";
    r2 ← guarded_field idx item "description";
    Ok (r1 ++ r2)).

Definition extract_from_actors (data : json) : result pairs :=
  xs ← iter data;
  collect (enumerate xs) (fun '(idx, actor) =>
    r1 ← guarded_field idx actor "name";
    r2 ← guarded_field idx actor "profile";
    Ok (r1 ++ r2)).

Definition extract_from_classes (data : json) : result pairs :=
  xs ← iter data;
  collect (enumerate xs) (fun '(idx, class_data) =>
    guarded_field idx class_data "name").

Definition extract_from_skills (data : json) : result pairs :=
  xs ← iter data;
  collect (enumerate xs) (fun '(idx, skill) =>
    guarded_fields idx skill [ "name"; "description"; "message1"; "message2" ]).

Definition extract_from_states (data : json) : result pairs :=
  xs ← iter data;
  collect (enumerate xs) (fun '(idx, state) =>
    guarded_fields idx state
      [ "name"; "message1"; "message2"; "message3"; "message4" ]).

Definition extract_from_weapons (data : json) : result pairs :=
  xs ← iter data;
  collect (enumerate xs) (fun '(idx, weapon) =>
    guarded_fields idx weapon [ "name"; "description" ]).

Definition extract_from_armors (data : json) : result pairs :=
  xs ← iter data;
  collect (enumerate xs) (fun '(idx, armor) =>
    guarded_fields idx armor [ "name"; "description" ]).

Definition extract_from_enemies (data : json) : result pairs :=
  xs ← iter data;
  collect (enumerate xs) (fun '(idx, enemy) =>
    guarded_field idx enemy "name").

Definition extract_from_troops (data : json) : result pairs :=
  xs ← iter data;
  collect (enumerate xs) (fun '(idx, troop) =>
    guarded_field idx troop "name").

(** The extractors of the files that are a sequence of records. *)
Definition record_extractors : list (json -> result pairs) :=
  [ extract_from_items; extract_from_actors; extract_from_classes;
    extract_from_skills; extract_from_states; extract_from_weapons;
    extract_from_armors; extract_from_enemies; extract_from_troops ].

(** [isinstance(x, dict)] and [isinstance(x, list)] *)
Definition is_list (j : json) : bool :=
  match j with
  | JList _ => true
  | _ => false
  end.

(** [for idx, term in enumerate(terms): if term: results.append((term, f"{prefix}{idx}"))] *)
Definition truthy_terms (prefix : string) (terms : json) : result pairs :=
  if is_list terms then
    xs ← iter terms;
    collect (enumerate xs) (fun '(idx, term) =>
      if truthy term then Ok [ (term, prefix +:+ Py.str_of_nat idx) ] else Ok [])
  else Ok [].

(** [for key, message in messages.items(): if message: ...] *)
Definition truthy_messages (messages : json) : result pairs :=
  match messages with
  | JDict d =>
      collect d (fun '(key, message) =>
        if truthy message
        then Ok [ (message, "terms.messages." +:+ key_str key) ]
        else Ok [])
  | _ => Ok []
  end.

(** [if name in data: results.append((data[name], name))] *)
Definition top_level (data : json) (name : string) : result pairs :=
  contains name data ≫= fun present : bool =>
  if present then v ← getitem data (KStr name); Ok [ (v, name) ] else Ok [].

Definition extract_from_system (data : json) : result pairs :=
  terms ← get_method data "terms" (JDict []);
  in_terms ←
    (if is_dict terms then
       basic ← get_method terms "basic" (JList []);
       r1 ← truthy_terms "terms.basic." basic;
       commands ← get_method terms "commands" (JList []);
       r2 ← truthy_terms "terms.commands." commands;
       params ← get_method terms "params" (JList []);
       r3 ← truthy_terms "terms.params." params;
       messages ← get_method terms "messages" (JDict []);
       r4 ← truthy_messages messages;
       Ok (r1 ++ r2 ++ r3 ++ r4)
     else Ok []);
  r5 ← top_level data "gameTitle";
  r6 ← top_level data "currencyUnit";
  Ok (in_terms ++ r5 ++ r6).

(** The number a decimal numeral denotes, read from its first digit. *)
Fixpoint uint_value (acc : N) (d : Decimal.uint) : N :=
  match d with
  | Decimal.Nil => acc
  | Decimal.D0 d => uint_value (10 * acc + 0) d
  | Decimal.D1 d => uint_value (10 * acc + 1) d
  | Decimal.D2 d => uint_value (10 * acc + 2) d
  | Decimal.D3 d => uint_value (10 * acc + 3) d
  | Decimal.D4 d => uint_value (10 * acc + 4) d
  | Decimal.D5 d => uint_value (10 * acc + 5) d
  | Decimal.D6 d => uint_value (10 * acc + 6) d
  | Decimal.D7 d => uint_value (10 * acc + 7) d
  | Decimal.D8 d => uint_value (10 * acc + 8) d
  | Decimal.D9 d => uint_value (10 * acc + 9) d
  end%N.

(** A field name that is one segment of a path, and a key. *)
Definition plain_name (name : string) : Prop :=
  Py.split "." name = [ name ] /\ kind_of name = Name name.

(** The value at a field of a record of a sequence can be read and
    replaced. *)
Definition field_of_record (data : json) (p : json * string) : Prop :=
  exists (idx : nat) (name : string) (d : list (pykey * json)),
    plain_name name
    /\ getitem data (KInt (N.of_nat idx)) = Ok (JDict d)
    /\ dict_get (KStr name) d = Some (fst p)
    /\ snd p = Py.str_of_nat idx +:+ "." +:+ name.


(** A loop body that appends fields of the record it is given. *)
Definition appends_fields (body : nat * json -> result pairs) : Prop :=
  forall idx item r p,
    body (idx, item) = Ok r -> p ∈ r ->
    exists name d v,
      plain_name name /\ item = JDict d /\ dict_get (KStr name) d = Some v
      /\ p = (v, Py.str_of_nat idx +:+ "." +:+ name).

(** ** extract_from_common_events *)

(** The pairs one command of an event list appends: the line of a text
    command (code 401), the choices of a choice command (code 102). *)
Definition command_pairs (idx : nat) (entry : nat * json) : result pairs :=
  let '(list_idx, item) := entry in
  let path := Py.str_of_nat idx +:+ ".list." +:+ Py.str_of_nat list_idx
              +:+ ".parameters.0" in
  code ← getitem item (KStr "code");
  if eq_int code 401 then
    parameters ← getitem item (KStr "parameters");
    first ← getitem parameters (KInt 0);
    Ok [ (first, path) ]
  else
    code ← getitem item (KStr "code");
    if eq_int code 102 then
      parameters ← getitem item (KStr "parameters");
      first ← getitem parameters (KInt 0);
      choices ← iter first;
      Ok (map (fun '(choice_idx, choice) =>
                 (choice, path +:+ "." +:+ Py.str_of_nat choice_idx))
              (enumerate choices))
    else Ok [].

(** [if "name" in event and event["name"]: results.append(...)] *)
Definition event_name (idx : nat) (event : json) : result pairs :=
  contains "name" event ≫= fun has_name : bool =>
  if has_name then
    name ← getitem event (KStr "name");
    if truthy name then
      name ← getitem event (KStr "name");
      Ok [ (name, Py.str_of_nat idx +:+ ".name") ]
    else Ok []
  else Ok [].

(** [if "list" not in event: continue], then the loop over the commands *)
Definition event_commands (idx : nat) (event : json) : result pairs :=
  contains "list" event ≫= fun has_list : bool =>
  if negb has_list then Ok []
  else
    items ← getitem event (KStr "list") ≫= iter;
    collect (enumerate items) (command_pairs idx).

(** The body of the loop over the events. *)
Definition event_pairs (entry : nat * json) : result pairs :=
  let '(idx, event) := entry in
  match event with
  | JNull => Ok []
  | _ =>
      r1 ← event_name idx event;
      r2 ← event_commands idx event;
      Ok (r1 ++ r2)
  end.

Definition extract_from_common_events (data : json) : result pairs :=
  xs ← iter data;
  collect (enumerate xs) event_pairs.

(** ** Event commands as the editor writes them *)

(** The parameters of a command are a list, and the first parameter of
    a choice command (code 102) is the list of its choices. *)
Definition command_shaped (d : list (pykey * json)) : bool :=
  match dict_get (KStr "parameters") d with
  | None => true
  | Some (JList ps) =>
      match dict_get (KStr "code") d, ps with
      | Some code, first :: _ => if eq_int code 102 then is_list first else true
      | _, _ => true
      end
  | Some _ => false
  end.

(** Every mapping of the document that has parameters has them in that
    shape. *)
Fixpoint commands_shaped (j : json) : bool :=
  match j with
  | JList l => forallb commands_shaped l
  | JDict d => command_shaped d && forallb (fun kv => commands_shaped (snd kv)) d
  | _ => true
  end.

(** A field that is no numeral. *)
Definition proper_segment (seg : segment) : bool :=
  match seg with
  | Index _ => true
  | Field name => well_formed name
  end.

(** The segments lead to [v] in the document, the last of them can be
    assigned where the others lead, and none is a numeral. *)
Definition reaches (doc : json) (segs : list segment) (v : json) : Prop :=
  read_path doc segs = Ok v
  /\ match read_path doc (removelast segs) with
     | Ok target => assignable target (List.last segs (Field ""))
     | Raise _ => false
     end = true
  /\ forallb proper_segment segs = true.

(** The text of an entry is read at its path and can be replaced there. *)
Definition patchable (data : json) (text path : string) : Prop :=
  reaches data (segments path) (JStr text).

(** Every entry recorded with an event id names a map file of the
    listing in which its text can be patched. *)
Definition event_entries_patchable (listing : list (string * json))
    (self : processor) : Prop :=
  forall k e, (k, e) ∈ translation_map self ->
    c_event_id (e_context e) <> None ->
    exists name data,
      (name, data) ∈ listing
      /\ c_file (e_context e) = "data/" +:+ name
      /\ patchable data (e_original e) (c_path (e_context e)).

(** ** extract_from_misc *)

(** [str(n)] of an integer *)
Definition str_of_Z (z : Z) : string :=
  match z with
  | Z0 => "0"
  | Zpos p => Py.str_of_N (Npos p)
  | Zneg p => "-" +:+ Py.str_of_N (Npos p)
  end.

Section Format.

(** The text Python prints for a float, a list or a mapping is left
    open. *)
Variable repr : json -> string.

(** [f"{v}"] *)
Definition format_value (v : json) : string :=
  match v with
  | JStr s => s
  | JInt z => str_of_Z z
  | JBool true => "True"
  | JBool false => "False"
  | JNull => "None"
  | _ => repr v
  end.

(** The body of the loop of [extract_from_misc]. *)
Definition misc_pair (item : json) : result pairs :=
  contains "text" item ≫= fun has_text : bool =>
  if has_text then
    contains "id" item ≫= fun has_id : bool =>
    if has_id then
      id ← getitem item (KStr "id");
      text ← getitem item (KStr "text");
      Ok [ (text, "misc." +:+ format_value id) ]
    else Ok []
  else Ok [].

Definition extract_from_misc (data : json) : result pairs :=
  misc_strings ← get_method data "misc_strings" (JList []);
  items ← iter misc_strings;
  collect items misc_pair.

(** What the loop appends for an element that is a mapping. *)
Definition misc_pairs_of (item : json) : pairs :=
  match item with
  | JDict fields =>
      match dict_get (KStr "text") fields, dict_get (KStr "id") fields with
      | Some text, Some id => [ (text, "misc." +:+ format_value id) ]
      | _, _ => []
      end
  | _ => []
  end.

End Format.

(** ** process_custom_file *)

(** The directory a candidate path starts from. *)
Inductive base :=
| ProjectDir
| WorkingDir.

#[global] Instance base_eq_dec : EqDecision base.
Proof. solve_decision. Defined.

(** The content of the file at a path: nothing when no file is there,
    else what [json.load] returns or raises. *)
Definition disk : Type := base * string -> option (result json).

(** The four places a data file is looked for, in order; the name is a
    plain file name, as the names [extract_strings] passes. *)
Definition possible_paths (file_name : string) : list (base * string) :=
  [ (ProjectDir, "data/" +:+ file_name);
    (ProjectDir, file_name);
    (WorkingDir, "data/" +:+ file_name);
    (WorkingDir, file_name) ].

(** [path.exists()] *)
Definition path_exists (d : disk) (path : base * string) : bool :=
  match d path with
  | Some _ => true
  | None => false
  end.

(** The loop over the pairs of one extractor. *)
Definition process_pairs (file_path : string) (results : pairs) : Exec processor unit :=
  for_each results (fun '(text, context_path) =>
    text ← lift (as_text text);
    process_string text file_path context_path None None).

(** The file path recorded for the place found is the path below the
    project directory, or below the working directory when the file was
    found there. *)
Definition process_custom_file (d : disk) (file_name : string)
    (path_extractors : list (json -> result pairs)) : Exec processor unit :=
  match List.find (path_exists d) (possible_paths file_name) with
  | None => lift (Raise FileNotFoundError)
  | Some file_path =>
      data ← lift (default (Raise FileNotFoundError) (d file_path));
      for_each path_extractors (fun extractor =>
        results ← lift (extractor data);
        process_pairs (snd file_path) results)
  end.

(** ** extract_strings *)

(** The state of an extraction: the processor, the console, and the
    strings files written. *)
Record run := Run {
  processor_of : processor;
  world_of : world;
  saved : list (string * tmap) }.

Definition on_processor {A} (m : Exec processor A) : Exec run A := fun r =>
  (fst (m (processor_of r)), Run (snd (m (processor_of r))) (world_of r) (saved r)).

Definition on_world {A} (m : Exec world A) : Exec run A := fun r =>
  (fst (m (world_of r)), Run (processor_of r) (snd (m (world_of r))) (saved r)).

(** [save_translation_map] *)
Definition save_translation_map (output_file : string) : Exec run unit :=
  modify (fun r =>
    Run (processor_of r) (world_of r)
        (saved r ++ [ (output_file, translation_map (processor_of r)) ])).

Definition data_files : list (string * list (json -> result pairs)) :=
  [ ("Items.json", [ extract_from_items ]);
    ("Actors.json", [ extract_from_actors ]);
    ("Classes.json", [ extract_from_classes ]);
    ("Skills.json", [ extract_from_skills ]);
    ("States.json", [ extract_from_states ]);
    ("System.json", [ extract_from_system ]);
    ("Weapons.json", [ extract_from_weapons ]);
    ("Armors.json", [ extract_from_armors ]);
    ("Enemies.json", [ extract_from_enemies ]);
    ("CommonEvents.json", [ extract_from_common_events ]) ].

(** The body of the loop over the data files, with its handlers. *)
Definition extract_data_file (d : disk)
    (file : string * list (json -> result pairs)) : Exec run unit :=
  let '(filename, extractors) := file in
  try_except
    (on_world (print ("   [*] reading " +:+ filename +:+ "...")) ;;
     on_processor (process_custom_file d filename extractors))
    (fun e =>
       match e with
       | FileNotFoundError =>
           on_world (print ("   [~] " +:+ filename +:+ " not found, skipping..."))
       | _ =>
           on_world (print_exn ("   [!] error processing " +:+ filename +:+ ": ") e)
       end).

(** [extract_strings], from a new processor; [maps] lists the files of
    the data directory of the project. *)
Definition extract_strings (repr : json -> string) (maps : list (string * json))
    (d : disk) (output_file : string) : Exec run unit :=
  on_world (print "[>] initializing") ;;
  modify (fun r => Run new_processor (world_of r) (saved r)) ;;
  on_world (print (String "010" "[>] processing maps")) ;;
  on_processor (process_map_files maps) ;;
  on_world (print (String "010" "[>] processing datafiles")) ;;
  for_each data_files (extract_data_file d) ;;
  try_except
    (on_world (print (String "010" "[>] processing rmmvlt_misc.json...")) ;;
     on_processor (process_custom_file d "rmmvlt_misc.json" [ extract_from_misc repr ]) ;;
     on_world (print "   [*] processed misc strings"))
    (fun e =>
       match e with
       | FileNotFoundError =>
           on_world (print "   [~] no rmmvlt_misc.json found, skipping misc strings...")
       | _ => on_world (print_exn "   [!] error processing rmmvlt_misc.json: " e)
       end) ;;
  on_world (print (String "010" ("[>] creating strings file: " +:+ output_file))) ;;
  save_translation_map output_file ;;
  on_world (print_success "extraction complete").

(** No entry has translations. *)
Definition untranslated (self : processor) : Prop :=
  forall k e, (k, e) ∈ translation_map self -> e_translations e = None.

(** Every entry recorded without a map id has its text at its path in
    the document, where it can be replaced. *)
Definition custom_entries_patchable (file_path : string) (data : json)
    (self : processor) : Prop :=
  forall k e, (k, e) ∈ translation_map self ->
    c_file (e_context e) = file_path
    /\ patchable data (e_original e) (c_path (e_context e)).

(** [process_string] keeps the property, whatever it is given. *)
Definition recording (I : processor -> Prop) : Prop :=
  forall text file_path context_path event_id map_id,
    preserves I (process_string text file_path context_path event_id map_id).

(** A step of the extraction keeps a property of the processor and
    writes no strings file, whether it returns or raises. *)
Definition careful (I : processor -> Prop) (m : Exec run unit) : Prop :=
  forall r, I (processor_of r) ->
    I (processor_of (snd (m r))) /\ saved (snd (m r)) = saved r.

(** A careful step that returns. *)
Definition safe (I : processor -> Prop) (m : Exec run unit) : Prop :=
  forall r, I (processor_of r) ->
    fst (m r) = Ok tt
    /\ I (processor_of (snd (m r))) /\ saved (snd (m r)) = saved r.

(** Every entry names the file. *)
Definition recorded_in (file_path : string) (self : processor) : Prop :=
  forall k e, (k, e) ∈ translation_map self -> c_file (e_context e) = file_path.

(** ** Export to a sheet (translation_map_to_excel) *)

(** White space around a number: that of [isspace], the separators
    0x1c to 0x1f apart. *)
Definition is_int_space (cp : N) : bool :=
  Py.is_space cp && negb ((28 <=? cp) && (cp <=? 31))%N.

Fixpoint int_lstrip (cps : list N) : list N :=
  match cps with
  | cp :: rest => if is_int_space cp then int_lstrip rest else cps
  | [] => []
  end.

Definition int_strip (cps : list N) : list N :=
  rev (int_lstrip (rev (int_lstrip cps))).

(** The digits of [int(s)]: decimal digits, single underscores between
    digits allowed. *)
Fixpoint int_digits (acc : N) (after_digit : bool) (cps : list N) : option N :=
  match cps with
  | [] => if after_digit then Some acc else None
  | cp :: rest =>
      match Py.decimal_value cp with
      | Some d => int_digits (10 * acc + d)%N true rest
      | None =>
          if (cp =? 95)%N
          then (if after_digit then int_digits acc false rest else None)
          else None
      end
  end.

(** [int(s)] for a string: white space around, a sign, then the digits. *)
Definition int_of_text (s : string) : result Z :=
  let parsed :=
    match int_strip (map fst (Py.characters s)) with
    | cp :: rest =>
        if (cp =? 43)%N then option_map Z.of_N (int_digits 0 false rest)
        else if (cp =? 45)%N
             then option_map (fun n => - Z.of_N n) (int_digits 0 false rest)
             else option_map Z.of_N (int_digits 0 false (cp :: rest))
    | [] => None
    end in
  match parsed with
  | Some z => Ok z
  | None => Raise ValueError
  end.

(** [int(x)] for a string or [None] *)
Definition int_of_optional (x : option string) : result Z :=
  match x with
  | Some s => int_of_text s
  | None => Raise TypeError
  end.

(** [not x] for a string or [None] *)
Definition falsy (x : option string) : bool :=
  match x with
  | Some s => bool_decide (s = "")
  | None => true
  end.

(** The strings of one original text. *)
Record group := Group {
  g_fingerprints : list string;
  g_contexts : list string;
  g_translation : string;
  g_first_context : option (Z * Z) }.

(** [(int(map_id), int(event_id) if event_id else 0)] *)
Definition first_context_of (c : context) : result (Z * Z) :=
  map_id ← int_of_optional (c_map_id c);
  event_id ← (if falsy (c_event_id c) then Ok 0 else int_of_optional (c_event_id c));
  Ok (map_id, event_id).

(** The label of an entry of a map file. *)
Definition map_label (c : context) : string :=
  if falsy (c_event_id c) || bool_decide (c_event_id c = Some "-1")
  then "Map " +:+ Py.str_of_optional (c_map_id c) +:+ " Display Name"
  else "Map " +:+ Py.str_of_optional (c_map_id c) +:+ " Event "
       +:+ Py.str_of_optional (c_event_id c).

(** The label of an entry, and its group with the first context set
    when the entry is the first of a map file. *)
Definition label_entry (entry : entry) (g : group) : result (string * group) :=
  let context := c_file (e_context entry) in
  if Py.contains "MapInfos.json" context then
    let map_id := hd "" (Py.split "." (c_path (e_context entry))) in
    Ok ("Map Name: " +:+ map_id, g)
  else if Py.contains "Map" context then
    match g_first_context g with
    | Some _ => Ok (map_label (e_context entry), g)
    | None =>
        first ← first_context_of (e_context entry);
        Ok (map_label (e_context entry),
            Group (g_fingerprints g) (g_contexts g) (g_translation g) (Some first))
    end
  else Ok (context +:+ ": " +:+ c_path (e_context entry), g).

(** The body of the loop over the entries of the map. *)
Definition export_entry (language : string) (grouped_data : list (string * group))
    (item : string * entry) : result (list (string * group)) :=
  let '(fingerprint, entry) := item in
  let original_text := Py.strip (e_original entry) in
  if bool_decide (original_text = "") then Ok grouped_data
  else
    let grouped_data :=
      if dict_mem original_text grouped_data then grouped_data
      else dict_set original_text
             (Group [] []
                (default "" (dict_get language (default [] (e_translations entry))))
                None)
             grouped_data in
    let g := default (Group [] [] "" None) (dict_get original_text grouped_data) in
    labelled ← label_entry entry g;
    let '(context_str, g) := labelled in
    Ok (dict_set original_text
          (Group (g_fingerprints g ++ [ fingerprint ]) (g_contexts g ++ [ context_str ])
                 (g_translation g) (g_first_context g))
          grouped_data).

Fixpoint group_entries (language : string) (grouped_data : list (string * group))
    (items : tmap) : result (list (string * group)) :=
  match items with
  | [] => Ok grouped_data
  | item :: rest =>
      grouped_data ← export_entry language grouped_data item;
      group_entries language grouped_data rest
  end.

(** A row of the sheet. *)
Record sheet_row := SheetRow {
  r_fingerprint : string;
  r_context : string;
  r_original : string;
  r_translation : string;
  r_comment : string }.

(** [context_counts[ctx] = context_counts.get(ctx, 0) + 1] *)
Definition count_context (context_counts : list (string * nat)) (ctx : string)
    : list (string * nat) :=
  dict_set ctx (S (default 0%nat (dict_get ctx context_counts))) context_counts.

Definition format_context (counted : string * nat) : string :=
  let '(ctx, count) := counted in
  if (1 <? count)%nat then ctx +:+ " (×" +:+ Py.str_of_nat count +:+ ")" else ctx.

(** The row of a group, with its sort key when the group has a first
    context. *)
Definition export_group (item : string * group) : option Z * sheet_row :=
  let '(original_text, g) := item in
  let fingerprints := Py.join "; " (g_fingerprints g) in
  let context_counts := fold_left count_context (g_contexts g) [] in
  let contexts := Py.join " | " (map format_context context_counts) in
  let row := SheetRow fingerprints contexts original_text (g_translation g) "" in
  match g_first_context g with
  | Some (map_id, event_id) => (Some (map_id * 10000 + event_id), row)
  | None => (None, row)
  end.

(** [list.sort(key=...)]: the sort is stable. *)
Fixpoint insert_by_key (x : Z * sheet_row) (sorted : list (Z * sheet_row))
    : list (Z * sheet_row) :=
  match sorted with
  | [] => [ x ]
  | y :: rest =>
      if fst x <=? fst y then x :: y :: rest else y :: insert_by_key x rest
  end.

Definition sort_by_key (rows : list (Z * sheet_row)) : list (Z * sheet_row) :=
  foldr insert_by_key [] rows.

(** The rows with a sort key, and the others. *)
Definition map_data (rows : list (option Z * sheet_row)) : list (Z * sheet_row) :=
  omap (fun r => key ← fst r; Some (key, snd r)) rows.

Definition other_data (rows : list (option Z * sheet_row)) : list sheet_row :=
  omap (fun r => match fst r with Some _ => None | None => Some (snd r) end) rows.

(** The rows [translation_map_to_excel] gives to the sheet, for the map
    read from the strings file. *)
Definition translation_map_to_excel (data : tmap) (language : string)
    : result (list sheet_row) :=
  grouped_data ← group_entries language [] data;
  let rows := map export_group grouped_data in
  Ok (map snd (sort_by_key (map_data rows)) ++ other_data rows).

(** ** Readings of the export *)

(** A fingerprint that the Fingerprint cell can hold: not empty, made
    of ASCII characters, no separator, no white space. *)
Definition clean_fingerprint (fingerprint : string) : bool :=
  negb (bool_decide (fingerprint = ""))
  && forallb (fun c => (N_of_ascii c <? 128)%N && negb (Ascii.eqb c ";")
                       && negb (Py.is_space (N_of_ascii c)))
       (list_ascii_of_string fingerprint).

(** The fingerprints of the entries with the text, in the order of the
    map. *)
Definition fingerprints_of (text : string) (data : tmap) : list string :=
  map fst (List.filter (fun item => bool_decide (Py.strip (e_original (snd item)) = text))
             data).

(** The groups hold, under each text that is not blank, the
    fingerprints of the entries read so far that have the text. *)
Definition grouped_by_text (read : tmap) (grouped_data : list (string * group)) : Prop :=
  NoDup (dict_keys grouped_data)
  /\ forall text,
       match dict_get text grouped_data with
       | Some g =>
           text <> "" /\ g_fingerprints g = fingerprints_of text read
           /\ g_fingerprints g <> []
       | None => text <> "" -> fingerprints_of text read = []
       end.

(** The ids of a context are numbers: the map id is made of ASCII
    digits, the event id is absent, empty or made of ASCII digits. *)
Definition numbered (c : context) : bool :=
  match c_map_id c with
  | Some map_id => Py.isascii map_id && Py.isdigit map_id
  | None => false
  end
  && match c_event_id c with
     | Some event_id =>
         bool_decide (event_id = "") || (Py.isascii event_id && Py.isdigit event_id)
     | None => true
     end.

(** Every entry of a map file has numbers for ids. *)
Definition exportable (self : processor) : Prop :=
  forall k e, (k, e) ∈ translation_map self ->
    Py.contains "MapInfos.json" (c_file (e_context e)) = false ->
    Py.contains "Map" (c_file (e_context e)) = true ->
    numbered (e_context e) = true.

(** * Properties *)

(** ** Strings *)

Lemma app_nil_l (t : string) : "" +:+ t = t.
Proof. reflexivity. Qed.

Lemma app_cons (c : ascii) (s t : string) : String c s +:+ t = String c (s +:+ t).
Proof. reflexivity. Qed.

Lemma length_app (s t : string) :
  String.length (s +:+ t) = (String.length s + String.length t)%nat.
Proof.
  induction s as [|c s IH]; [done|].
  rewrite app_cons. simpl. by rewrite IH.
Qed.

Lemma app_inj_r (t s1 s2 : string) : s1 +:+ t = s2 +:+ t -> s1 = s2.
Proof.
  revert s2. induction s1 as [|c s1 IH]; intros [|c' s2] H.
  - done.
  - apply (f_equal String.length) in H. rewrite !length_app in H. simpl in H. lia.
  - apply (f_equal String.length) in H. rewrite !length_app in H. simpl in H. lia.
  - rewrite !app_cons in H. injection H as -> H. f_equal. by apply IH.
Qed.

Lemma app_inj_l (s t1 t2 : string) : s +:+ t1 = s +:+ t2 -> t1 = t2.
Proof.
  induction s as [|c s IH]; [done|].
  rewrite !app_cons. intros H. injection H as H. auto.
Qed.

(** The tables at work: a no-break space and an ideographic space are
    stripped, a superscript two is a digit that [int] rejects, an
    Arabic-Indic three is read as three, and a name with an accented
    letter between Map and .json has eleven characters. *)
Example characters_examples :
  Py.strip (String "194" (String "160" " a b ")
            +:+ String "227" (String "128" (String "128" ""))) = "a b"
  /\ Py.isdigit "²" = true /\ Py.int "²" = None
  /\ Py.isdigit "٣" = true /\ Py.int "٣" = Some 3%N
  /\ Py.isdigit "12a" = false
  /\ length (Py.characters "Mapé01.json") = 11%nat
  /\ glob_map "Mapé01.json" = true
  /\ glob_map "Map0001.json" = false.
Proof. repeat split; vm_compute; reflexivity. Qed.

(** *** Separators *)

Lemma split_prefix (sep : ascii) (s t : string) :
  forallb (fun c => negb (Ascii.eqb c sep)) (list_ascii_of_string s) = true ->
  Py.split sep (s +:+ String sep t) = s :: Py.split sep t.
Proof.
  induction s as [|c s IH].
  - intros _. rewrite app_nil_l. simpl. by rewrite Ascii.eqb_refl.
  - intros H. simpl in H. apply andb_prop in H as [Hc Hs].
    rewrite app_cons. simpl.
    destruct (Ascii.eqb c sep); [done|]. by rewrite (IH Hs).
Qed.

Lemma split_no_separator (sep : ascii) (s : string) :
  forallb (fun c => negb (Ascii.eqb c sep)) (list_ascii_of_string s) = true ->
  Py.split sep s = [ s ].
Proof.
  induction s as [|c s IH]; simpl; [done|].
  intros [Hc Hs]%andb_prop. destruct (Ascii.eqb c sep); [done|]. by rewrite (IH Hs).
Qed.

(** A dot in a string is one of its characters: no byte of a character
    of several bytes is a dot. *)
Lemma continuation_not_dot (b : ascii) (c : N) :
  Py.continuation b = Some c -> b <> "."%char.
Proof. intros H ->. vm_compute in H. done. Qed.

Lemma dot_is_character_bounded (n : nat) :
  forall s : string,
    (String.length s <= n)%nat ->
    In "."%char (list_ascii_of_string s) ->
    In 46%N (map fst (Py.characters s)).
Proof.
  induction n as [|n IH]; intros s Hlen Hin.
  - destruct s; [done | simpl in Hlen; lia].
  - destruct s as [|b0 r0]; [done|].
    cbn [list_ascii_of_string] in Hin. simpl in Hlen.
    destruct (decide (b0 = "."%char)) as [->|Hb0].
    { left. reflexivity. }
    destruct Hin as [Hin|Hin]; [done|].
    assert (Hr0 : In 46%N (map fst (Py.characters r0))) by (apply IH; [lia | done]).
    cbn [Py.characters]. cbv zeta.
    repeat case_match; subst; cbn [map fst]; right; try exact Hr0;
      cbn [list_ascii_of_string] in Hin;
      repeat match goal with
             | H : In "."%char (?b :: _), Hc : Py.continuation ?b = Some _ |- _ =>
                 destruct H as [H|H];
                 [by apply continuation_not_dot in Hc | clear Hc]
             end;
      (apply IH; [simpl in Hlen; lia | done]).
Qed.

Lemma dot_is_character (s : string) :
  In "."%char (list_ascii_of_string s) -> In 46%N (map fst (Py.characters s)).
Proof. by apply (dot_is_character_bounded (String.length s)). Qed.

(** A string of digits has no dot. *)
Lemma isdigit_no_dot (s : string) :
  Py.isdigit s = true ->
  forallb (fun c => negb (Ascii.eqb c ".")) (list_ascii_of_string s) = true.
Proof.
  intros Hs. apply forallb_forall. intros c Hc.
  destruct (Ascii.eqb c ".") eqn:Heq; [|done].
  apply Ascii.eqb_eq in Heq. subst c. apply dot_is_character in Hc.
  unfold Py.isdigit in Hs.
  assert (Hall : forallb (fun c => Py.is_digit (fst c)) (Py.characters s) = true).
  { by destruct (Py.characters s). }
  rewrite forallb_forall in Hall.
  apply in_map_iff in Hc as (ch & Hfst & Hch).
  specialize (Hall ch Hch). rewrite Hfst in Hall. by vm_compute in Hall.
Qed.

(** *** Strings of the ASCII range *)

Lemma characters_ascii (s : string) :
  Py.isascii s = true ->
  Py.characters s = map (fun b => (N_of_ascii b, String b "")) (list_ascii_of_string s).
Proof.
  unfold Py.isascii. induction s as [|b s IH]; [done|].
  cbn [list_ascii_of_string forallb map]. intros [Hb Hs]%andb_prop.
  cbn [Py.characters]. cbv zeta. by rewrite Hb, (IH Hs).
Qed.

Lemma isascii_app (s t : string) :
  Py.isascii (s +:+ t) = Py.isascii s && Py.isascii t.
Proof.
  unfold Py.isascii. induction s as [|b s IH]; [done|].
  rewrite app_cons. cbn [list_ascii_of_string forallb]. by rewrite IH, andb_assoc.
Qed.

Lemma is_ascii_digit_value (c : ascii) :
  Py.is_ascii_digit c = true ->
  (N_of_ascii c <? 128)%N = true
  /\ Py.decimal_value (N_of_ascii c) = Some (N_of_ascii c - 48)%N.
Proof. destruct c as [[] [] [] [] [] [] [] []]; vm_compute; done. Qed.

Lemma is_digit_ascii (c : ascii) :
  (N_of_ascii c <? 128)%N = true -> Py.is_digit (N_of_ascii c) = Py.is_ascii_digit c.
Proof. destruct c as [[] [] [] [] [] [] [] []]; vm_compute; done. Qed.

Lemma is_space_ascii_digit (c : ascii) :
  Py.is_ascii_digit c = true -> Py.is_space (N_of_ascii c) = false.
Proof. destruct c as [[] [] [] [] [] [] [] []]; vm_compute; done. Qed.

Lemma all_digits_isascii (s : string) : Py.all_digits s = true -> Py.isascii s = true.
Proof.
  unfold Py.isascii. induction s as [|c s IH]; [done|].
  cbn [Py.all_digits list_ascii_of_string forallb]. intros [Hc Hs]%andb_prop.
  by rewrite (proj1 (is_ascii_digit_value c Hc)), (IH Hs).
Qed.

(** The characters of a string of ASCII digits are its bytes. *)
Lemma all_digits_characters (s : string) :
  Py.all_digits s = true ->
  Py.characters s = map (fun b => (N_of_ascii b, String b "")) (list_ascii_of_string s).
Proof. intros Hs. by apply characters_ascii, all_digits_isascii. Qed.

Lemma forallb_is_digit_ascii (s : string) :
  Py.isascii s = true ->
  forallb (fun c : N * string => Py.is_digit (fst c))
          (map (fun b => (N_of_ascii b, String b "")) (list_ascii_of_string s))
  = Py.all_digits s.
Proof.
  unfold Py.isascii. induction s as [|b s IH]; [done|].
  cbn [list_ascii_of_string forallb map Py.all_digits fst].
  intros [Hb Hs]%andb_prop. by rewrite (is_digit_ascii b Hb), (IH Hs).
Qed.

(** On the ASCII range [isdigit] asks for ASCII digits. *)
Lemma isdigit_ascii (s : string) :
  Py.isascii s = true ->
  Py.isdigit s = match s with "" => false | _ => Py.all_digits s end.
Proof.
  intros Hs. unfold Py.isdigit. rewrite (characters_ascii s Hs).
  destruct s as [|b s]; [done|].
  by rewrite <- (forallb_is_digit_ascii _ Hs).
Qed.

Lemma all_digits_isdigit (s : string) :
  s <> "" -> Py.all_digits s = true -> Py.isdigit s = true.
Proof.
  intros Hne Hs. rewrite (isdigit_ascii s (all_digits_isascii s Hs)).
  by destruct s.
Qed.

Lemma isdigit_all_digits (s : string) :
  Py.isascii s = true -> Py.isdigit s = true -> s <> "" /\ Py.all_digits s = true.
Proof.
  intros Hs. rewrite (isdigit_ascii s Hs). by destruct s.
Qed.


(** ** Dicts *)

Section DictFacts.
Context {K V : Type} `{EqDecision K}.
Implicit Types (d : list (K * V)) (k : K) (v : V).

Lemma dict_get_set_eq d k v : dict_get k (dict_set k v d) = Some v.
Proof.
  induction d as [|[k' v'] d IH]; simpl.
  - by rewrite decide_True.
  - destruct (decide (k' = k)) as [->|Hne]; simpl.
    + by rewrite decide_True.
    + by rewrite decide_False.
Qed.

Lemma dict_get_set_ne d k k' v :
  k <> k' -> dict_get k' (dict_set k v d) = dict_get k' d.
Proof.
  intros Hne. induction d as [|[k0 v0] d IH]; simpl.
  - by rewrite decide_False.
  - destruct (decide (k0 = k)) as [->|Hk]; simpl.
    + by rewrite !decide_False.
    + destruct (decide (k0 = k')); [done | apply IH].
Qed.

Lemma dict_set_idem d k v : dict_set k v (dict_set k v d) = dict_set k v d.
Proof.
  induction d as [|[k' v'] d IH]; simpl.
  - by rewrite decide_True.
  - destruct (decide (k' = k)) as [->|Hne]; simpl.
    + by rewrite decide_True.
    + rewrite decide_False by done. by rewrite IH.
Qed.

Lemma dict_keys_set_present d k v :
  is_Some (dict_get k d) -> dict_keys (dict_set k v d) = dict_keys d.
Proof.
  unfold dict_keys. induction d as [|[k' v'] d IH]; simpl; intros [x Hx].
  - done.
  - destruct (decide (k' = k)); simpl; [done|]. f_equal. apply IH. eauto.
Qed.

Lemma dict_keys_set_absent d k v :
  dict_get k d = None -> dict_keys (dict_set k v d) = dict_keys d ++ [k].
Proof.
  unfold dict_keys. induction d as [|[k' v'] d IH]; simpl; intros Hx.
  - done.
  - destruct (decide (k' = k)); simpl; [done|]. f_equal. by apply IH.
Qed.

Lemma dict_get_Some_elem d k v : dict_get k d = Some v -> (k, v) ∈ d.
Proof.
  induction d as [|[k' v'] d IH]; simpl; [done|].
  destruct (decide (k' = k)) as [->|Hne].
  - intros [= ->]. left.
  - intros Hd. right. auto.
Qed.

Lemma dict_get_None_keys d k : dict_get k d = None <-> k ∉ dict_keys d.
Proof.
  unfold dict_keys. induction d as [|[k' v'] d IH]; simpl.
  - split; [intros _; apply not_elem_of_nil | done].
  - destruct (decide (k' = k)) as [->|Hne].
    + split; [done | intros Hn; exfalso; apply Hn; left].
    + rewrite IH, not_elem_of_cons.
      split; [intros Hk; split; [congruence | done] | by intros [_ Hk]].
Qed.

(** Every pair of the dict after an assignment is the assigned pair
    or a pair that was there. *)
Lemma dict_set_elem d k v k' v' :
  (k', v') ∈ dict_set k v d -> (k' = k /\ v' = v) \/ (k', v') ∈ d.
Proof.
  induction d as [|[k0 v0] d IH]; simpl.
  - intros Hin%list_elem_of_singleton. left. by simplify_eq.
  - destruct (decide (k0 = k)) as [->|Hne].
    + intros [Heq|Hin]%elem_of_cons; [left; by simplify_eq | right; by right].
    + intros [Heq|Hin]%elem_of_cons; [right; simplify_eq; left |].
      destruct (IH Hin) as [?|?]; [by left | right; by right].
Qed.
End DictFacts.

(** ** The fingerprint *)

(** The digest agrees with hashlib on the test vectors of FIPS 180-4 and
    on the example of the specification. *)
Example hexdigest_empty :
  SHA256.hexdigest ""
  = "e3b0c44298fc1c149afbf4c8996fb92427ae41e4649b934ca495991b7852b855".
Proof. vm_compute. reflexivity. Qed.

Example hexdigest_abc :
  SHA256.hexdigest "abc"
  = "ba7816bf8f01cfea414140de5dae2223b00361a396177a9cb410ff61f20015ad".
Proof. vm_compute. reflexivity. Qed.

Example hexdigest_two_blocks :
  SHA256.hexdigest "abcdbcdecdefdefgefghfghighijhijkijkljklmklmnlmnomnopnopq"
  = "248d6a61d20638b8e5c026930c3e6039a33ce45964ff2167f6ecedd419db06c1".
Proof. vm_compute. reflexivity. Qed.

Example fingerprint_of_the_specification :
  fst (generate_fingerprint "Hello" "data/Map001.json"
         "events.0.pages.0.list.1.parameters.0" (Some "0") (Some "001")
         new_processor)
  = Ok "371871dd9a0005d0".
Proof. vm_compute. reflexivity. Qed.

Lemma nibble_hex (w i : Z) : is_hex_char (SHA256.nibble w i) = true.
Proof.
  unfold SHA256.nibble.
  assert (Hr : 0 <= Z.land (Z.shiftr w (4 * i)) 15 < 16).
  { change 15 with (Z.ones 4). rewrite Z.land_ones by lia.
    apply Z.mod_pos_bound. lia. }
  set (v := Z.land (Z.shiftr w (4 * i)) 15) in *.
  assert (Hv : v = 0 \/ v = 1 \/ v = 2 \/ v = 3 \/ v = 4 \/ v = 5 \/ v = 6 \/ v = 7
            \/ v = 8 \/ v = 9 \/ v = 10 \/ v = 11 \/ v = 12 \/ v = 13 \/ v = 14
            \/ v = 15) by lia.
  clearbody v.
  repeat (destruct Hv as [-> | Hv]; [reflexivity|]). subst v. reflexivity.
Qed.

Lemma hexdigest_prefix (s : string) :
  exists a b rest,
    SHA256.hexdigest s = SHA256.hex8 a (SHA256.hex8 b rest).
Proof. unfold SHA256.hexdigest, SHA256.hex_of_state. eauto. Qed.

(** From here on the digest is computed by [vm_compute] only. *)
#[global] Opaque SHA256.digest.

Lemma take16_length (a b : Z) (rest : string) :
  String.length (Py.take 16 (SHA256.hex8 a (SHA256.hex8 b rest))) = 16%nat.
Proof. reflexivity. Qed.

Lemma take16_hex (a b : Z) (rest : string) :
  all_hex (Py.take 16 (SHA256.hex8 a (SHA256.hex8 b rest))) = true.
Proof.
  unfold SHA256.hex8. cbn [Py.take all_hex].
  by rewrite !nibble_hex.
Qed.

(** C2. [generate_fingerprint] is deterministic and leaves the processor
    as it was: on every processor state it returns one and the same
    value for the same five arguments, a string of 16 hexadecimal
    characters, without raising, and the state after the call is the
    state before it, so a second call returns that value again. *)
Theorem generate_fingerprint_deterministic
    (text file_path context_path : string) (event_id map_id : option string) :
  exists fp : string,
    String.length fp = 16%nat /\ all_hex fp = true /\
    forall self : processor,
      generate_fingerprint text file_path context_path event_id map_id self
        = (Ok fp, self) /\
      (generate_fingerprint text file_path context_path event_id map_id ;;
       generate_fingerprint text file_path context_path event_id map_id) self
        = (Ok fp, self).
Proof.
  destruct (hexdigest_prefix
    (fingerprint_string text file_path context_path event_id map_id))
    as (a & b & rest & Hd).
  exists (Py.take 16 (SHA256.hex8 a (SHA256.hex8 b rest))).
  split; [apply take16_length|]. split; [apply take16_hex|].
  intros self. unfold generate_fingerprint. rewrite Hd. done.
Qed.

Lemma fingerprint_string_unfold text file_path context_path event_id map_id :
  fingerprint_string text file_path context_path event_id map_id
  = text +:+ "||" +:+ file_path +:+ "||" +:+ context_path +:+ "||"
    +:+ Py.str_of_optional event_id +:+ "||" +:+ Py.str_of_optional map_id.
Proof. reflexivity. Qed.

Lemma fingerprint_string_event_inj text file_path context_path e1 e2 map_id :
  fingerprint_string text file_path context_path e1 map_id
  = fingerprint_string text file_path context_path e2 map_id ->
  Py.str_of_optional e1 = Py.str_of_optional e2.
Proof.
  rewrite !fingerprint_string_unfold. intros H.
  do 6 apply app_inj_l in H. by apply app_inj_r in H.
Qed.

Lemma fingerprint_string_map_inj text file_path context_path event_id m1 m2 :
  fingerprint_string text file_path context_path event_id m1
  = fingerprint_string text file_path context_path event_id m2 ->
  Py.str_of_optional m1 = Py.str_of_optional m2.
Proof.
  rewrite !fingerprint_string_unfold. intros H.
  by do 8 apply app_inj_l in H.
Qed.

(** C3, refuted: with the text, file, path and map of the specification's
    example, an absent event id and the event id "None" give the same
    fingerprint (and so for the map id). *)
Lemma none_collides_with_the_string_None :
  ~ (fst (generate_fingerprint "Hello" "data/Map001.json"
            "events.0.pages.0.list.1.parameters.0" None (Some "001") new_processor)
     <> fst (generate_fingerprint "Hello" "data/Map001.json"
            "events.0.pages.0.list.1.parameters.0" (Some "None") (Some "001")
            new_processor))
  /\ ~ (fst (generate_fingerprint "Hello" "data/System.json" "gameTitle"
            None None new_processor)
     <> fst (generate_fingerprint "Hello" "data/System.json" "gameTitle"
            None (Some "None") new_processor)).
Proof. split; intros H; apply H; reflexivity. Qed.

(** C3, amended: the placeholder of an absent id is the text None.  The
    fingerprint of an absent event id is the fingerprint of the event id
    "None", on every state and for every other argument, and likewise
    for the map id; the string that is hashed for an absent id differs
    from the string hashed for every id other than "None". *)
Theorem absent_id_is_hashed_as_None
    (text file_path context_path : string) (event_id map_id : option string)
    (self : processor) :
  generate_fingerprint text file_path context_path None map_id self
    = generate_fingerprint text file_path context_path (Some "None") map_id self
  /\ generate_fingerprint text file_path context_path event_id None self
    = generate_fingerprint text file_path context_path event_id (Some "None") self
  /\ (forall id : string, id <> "None" ->
        fingerprint_string text file_path context_path (Some id) map_id
          <> fingerprint_string text file_path context_path None map_id)
  /\ (forall id : string, id <> "None" ->
        fingerprint_string text file_path context_path event_id (Some id)
          <> fingerprint_string text file_path context_path event_id None).
Proof.
  repeat split.
  - intros id Hid H. by apply fingerprint_string_event_inj in H.
  - intros id Hid H. by apply fingerprint_string_map_inj in H.
Qed.

Lemma absent_id_is_hashed_as_None_witness :
  "7" <> "None" /\
  fingerprint_string "Hello" "data/Map001.json" "events.7.pages.0.list.1.parameters.0"
    (Some "7") (Some "001")
  <> fingerprint_string "Hello" "data/Map001.json" "events.7.pages.0.list.1.parameters.0"
    None (Some "001").
Proof.
  split; [discriminate|].
  destruct (absent_id_is_hashed_as_None "Hello" "data/Map001.json"
              "events.7.pages.0.list.1.parameters.0" None (Some "001") new_processor)
    as (_ & _ & Hevent & _).
  apply Hevent. discriminate.
Defined.

(** ** Recording *)

Lemma process_string_run text file_path context_path event_id map_id self :
  exists fingerprint,
    generate_fingerprint text file_path context_path event_id map_id self
      = (Ok fingerprint, self) /\
    process_string text file_path context_path event_id map_id self
      = (Ok tt,
         Processor
           (dict_set fingerprint
              (Entry text (Context file_path context_path event_id map_id) None)
              (translation_map self))
           ({[ text ]} ∪ processed_strings self)).
Proof. eexists. split; reflexivity. Qed.

(** C7. Recording is idempotent: [process_string] returns without
    raising; a second call with the same arguments leaves the processor
    (translation map and set of processed strings) as the first call
    left it; the entry of the fingerprint is the one just recorded, the
    entry of every other fingerprint is as before, and when the
    fingerprint was already a key the keys keep their order, so the
    entry is overwritten in place. *)
Theorem process_string_idempotent
    (text file_path context_path : string) (event_id map_id : option string)
    (self : processor) :
  let process := process_string text file_path context_path event_id map_id in
  exists (fingerprint : string) (once : processor),
    generate_fingerprint text file_path context_path event_id map_id self
      = (Ok fingerprint, self) /\
    process self = (Ok tt, once) /\
    (process ;; process) self = (Ok tt, once) /\
    dict_get fingerprint (translation_map once)
      = Some (Entry text (Context file_path context_path event_id map_id) None) /\
    (forall other : string, other <> fingerprint ->
       dict_get other (translation_map once) = dict_get other (translation_map self)) /\
    (is_Some (dict_get fingerprint (translation_map self)) ->
       dict_keys (translation_map once) = dict_keys (translation_map self)).
Proof.
  intros process.
  destruct (process_string_run text file_path context_path event_id map_id self)
    as (fp & Hfp & Hrun).
  eexists fp, _. split; [exact Hfp|]. split; [exact Hrun|].
  split; [|split; [|split]].
  - unfold process.
    change ((process_string text file_path context_path event_id map_id ;;
             process_string text file_path context_path event_id map_id) self)
      with (match process_string text file_path context_path event_id map_id self with
            | (Ok a, s') => process_string text file_path context_path event_id map_id s'
            | (Raise e, s') => (Raise e, s')
            end).
    rewrite Hrun.
    destruct (process_string_run text file_path context_path event_id map_id
      (Processor
         (dict_set fp
            (Entry text (Context file_path context_path event_id map_id) None)
            (translation_map self))
         ({[ text ]} ∪ processed_strings self))) as (fp' & Hfp' & ->).
    assert (fp' = fp) as ->.
    { unfold generate_fingerprint, mret, exec_ret in Hfp, Hfp'. congruence. }
    simpl. f_equal. f_equal.
    + apply dict_set_idem.
    + by rewrite (assoc_L (∪)), (idemp_L (∪)).
  - simpl. apply dict_get_set_eq.
  - intros other Hne. simpl. by apply dict_get_set_ne.
  - intros Hin. simpl. by apply dict_keys_set_present.
Qed.

Lemma process_string_idempotent_witness :
  exists fingerprint once,
    let self := Processor
      [("371871dd9a0005d0",
        Entry "Hello" (Context "data/Map001.json"
          "events.0.pages.0.list.1.parameters.0" (Some "0") (Some "001")) None);
       ("18d85f68e0bd0c78",
        Entry "Town" (Context "data/Map001.json" "001.displayName" None (Some "001"))
          None)] {[ "Hello"; "Town" ]} in
    let process := process_string "Hello" "data/Map001.json"
      "events.0.pages.0.list.1.parameters.0" (Some "0") (Some "001") in
    fingerprint = "371871dd9a0005d0" /\
    "18d85f68e0bd0c78" <> fingerprint /\
    is_Some (dict_get fingerprint (translation_map self)) /\
    (process ;; process) self = (Ok tt, once) /\
    dict_get "18d85f68e0bd0c78" (translation_map once)
      = dict_get "18d85f68e0bd0c78" (translation_map self) /\
    dict_keys (translation_map once) = dict_keys (translation_map self).
Proof.
  destruct (process_string_idempotent "Hello" "data/Map001.json"
    "events.0.pages.0.list.1.parameters.0" (Some "0") (Some "001")
    (Processor
      [("371871dd9a0005d0",
        Entry "Hello" (Context "data/Map001.json"
          "events.0.pages.0.list.1.parameters.0" (Some "0") (Some "001")) None);
       ("18d85f68e0bd0c78",
        Entry "Town" (Context "data/Map001.json" "001.displayName" None (Some "001"))
          None)] {[ "Hello"; "Town" ]}))
    as (fp & once & Hfp & Hrun & Htwice & Hget & Hother & Hkeys).
  assert (Heq : fp = "371871dd9a0005d0").
  { vm_compute in Hfp. congruence. }
  exists fp, once. cbv zeta. subst fp.
  split; [reflexivity|]. split; [done|].
  assert (Hsome : is_Some (dict_get "371871dd9a0005d0"
    [("371871dd9a0005d0",
      Entry "Hello" (Context "data/Map001.json"
        "events.0.pages.0.list.1.parameters.0" (Some "0") (Some "001")) None);
     ("18d85f68e0bd0c78",
      Entry "Town" (Context "data/Map001.json" "001.displayName" None (Some "001"))
        None)])) by (vm_compute; eauto).
  split; [exact Hsome|]. split; [exact Htwice|].
  split; [apply Hother; done | apply Hkeys; exact Hsome].
Defined.

Lemma preserves_ret {A} (I : processor -> Prop) (a : A) : preserves I (mret a).
Proof. intros s Hs. exact Hs. Qed.

Lemma preserves_lift {A} (I : processor -> Prop) (r : result A) : preserves I (lift r).
Proof. intros s Hs. exact Hs. Qed.

Lemma preserves_bind {A B} (I : processor -> Prop)
    (m : Exec processor A) (f : A -> Exec processor B) :
  preserves I m -> (forall a, preserves I (f a)) -> preserves I (m ≫= f).
Proof.
  intros Hm Hf s Hs. unfold mbind, exec_bind.
  specialize (Hm s Hs). destruct (m s) as [[a|e] s']; simpl in *.
  - by apply Hf.
  - exact Hm.
Qed.

Lemma preserves_for_each {A} (I : processor -> Prop)
    (xs : list A) (body : A -> Exec processor unit) :
  (forall x, preserves I (body x)) -> preserves I (for_each xs body).
Proof.
  intros Hbody. induction xs as [|x xs IH]; simpl.
  - apply preserves_ret.
  - apply preserves_bind; [apply Hbody | intros _; exact IH].
Qed.

Lemma preserves_process_string text file_path context_path event_id map_id :
  preserves keyed_by_fingerprint
    (process_string text file_path context_path event_id map_id).
Proof.
  intros s Hs.
  destruct (process_string_run text file_path context_path event_id map_id s)
    as (fp & Hfp & ->).
  intros k e Hin any. simpl in Hin.
  apply dict_set_elem in Hin as [[-> ->]|Hin]; [|by apply Hs].
  simpl. unfold generate_fingerprint, mret, exec_ret in *. congruence.
Qed.

Lemma keyed_new_processor : keyed_by_fingerprint new_processor.
Proof. intros k e Hin. by apply elem_of_nil in Hin. Qed.

Create HintDb preserves.
#[local] Hint Resolve preserves_ret preserves_lift preserves_process_string : preserves.

Ltac preserves_step :=
  match goal with
  | |- preserves _ (_ ≫= _) => apply preserves_bind; [|intros ?]
  | |- preserves _ (for_each _ _) => apply preserves_for_each; intros ?
  | |- preserves _ (if ?b then _ else _) => destruct b
  | |- preserves _ (let '(_, _) := ?p in _) => destruct p
  | |- preserves _ (match ?x with _ => _ end) => destruct x
  | |- preserves _ _ => solve [auto with preserves]
  end.

Lemma preserves_process_map_file name data :
  preserves keyed_by_fingerprint (process_map_file name data).
Proof.
  unfold process_map_file, process_map_event, process_map_item.
  repeat preserves_step.
Qed.

(** The invariant also holds after [process_map_files], which records
    through [process_string] only. *)
Lemma process_map_files_keyed listing :
  keyed_by_fingerprint (snd (process_map_files listing new_processor)).
Proof.
  unfold process_map_files.
  refine (preserves_for_each keyed_by_fingerprint _ _ _ new_processor
            keyed_new_processor).
  intros [name data]. apply preserves_process_map_file.
Qed.

(** C9. After any sequence of [process_string] calls on a new processor,
    every key of the translation map is the value [generate_fingerprint]
    returns for the fields stored in its own entry (original text, file,
    path, event id, map id): the key can be recomputed from the entry. *)
Theorem translation_map_keys_are_fingerprints
    (calls : list call) (k : string) (e : entry) :
  (k, e) ∈ translation_map (snd (for_each calls record new_processor)) ->
  forall any : processor,
    generate_fingerprint (e_original e) (c_file (e_context e))
      (c_path (e_context e)) (c_event_id (e_context e))
      (c_map_id (e_context e)) any = (Ok k, any).
Proof.
  revert k e.
  change (keyed_by_fingerprint (snd (for_each calls record new_processor))).
  refine (preserves_for_each keyed_by_fingerprint _ _ _ new_processor
            keyed_new_processor).
  intros c. unfold record. apply preserves_process_string.
Qed.

Lemma translation_map_keys_are_fingerprints_witness :
  let calls :=
    [ Call "Town" "data/Map001.json" "001.displayName" None (Some "001");
      Call "Hello" "data/Map001.json" "events.0.pages.0.list.1.parameters.0"
           (Some "0") (Some "001");
      Call "Town" "data/Map001.json" "001.displayName" None (Some "001") ] in
  let e := Entry "Hello"
    (Context "data/Map001.json" "events.0.pages.0.list.1.parameters.0"
             (Some "0") (Some "001")) None in
  ("371871dd9a0005d0", e)
    ∈ translation_map (snd (for_each calls record new_processor)) /\
  generate_fingerprint "Hello" "data/Map001.json"
    "events.0.pages.0.list.1.parameters.0" (Some "0") (Some "001") new_processor
  = (Ok "371871dd9a0005d0", new_processor).
Proof.
  cbv zeta.
  assert (Hin : ("371871dd9a0005d0",
      Entry "Hello"
        (Context "data/Map001.json" "events.0.pages.0.list.1.parameters.0"
                 (Some "0") (Some "001")) None)
    ∈ translation_map (snd (for_each
        [ Call "Town" "data/Map001.json" "001.displayName" None (Some "001");
          Call "Hello" "data/Map001.json" "events.0.pages.0.list.1.parameters.0"
               (Some "0") (Some "001");
          Call "Town" "data/Map001.json" "001.displayName" None (Some "001") ]
        record new_processor))).
  { vm_compute. right. left. }
  split; [exact Hin|].
  exact (translation_map_keys_are_fingerprints _ _ _ Hin new_processor).
Defined.

(** ** Segments *)

Lemma characters_nil (s : string) : Py.characters s = [] <-> s = "".
Proof.
  split; [|by intros ->].
  destruct s as [|b0 r0]; [done|]. simpl.
  repeat case_match; done.
Qed.

(** A digit appended to the reversed digits is the leading digit. *)
Lemma decimal_rev_snoc (r : list N) (c : N) :
  decimal_rev (r ++ [c]) =
    match Py.decimal_value c with
    | Some d =>
        match decimal_rev r with
        | Some v => Some (v + d * 10 ^ N.of_nat (length r))%N
        | None => None
        end
    | None => None
    end.
Proof.
  induction r as [|a r IH]; simpl.
  - destruct (Py.decimal_value c); simpl; [|done]. f_equal. lia.
  - rewrite IH.
    destruct (Py.decimal_value a), (Py.decimal_value c); simpl; try done.
    destruct (decimal_rev r) as [v|]; simpl; [|done]. f_equal.
    rewrite Nat2N.inj_succ, N.pow_succ_r'. lia.
Qed.

Lemma int_acc_decimal (cps : list N) (acc : N) :
  Py.int_acc acc cps =
    match decimal_rev (rev cps) with
    | Some v => Some (acc * 10 ^ N.of_nat (length cps) + v)%N
    | None => None
    end.
Proof.
  revert acc. induction cps as [|c cps IH]; intros acc; simpl.
  - f_equal. lia.
  - rewrite decimal_rev_snoc, length_rev.
    destruct (Py.decimal_value c) as [d|]; [|done]. rewrite IH.
    destruct (decimal_rev (rev cps)) as [v|]; [|done].
    f_equal. rewrite Nat2N.inj_succ, N.pow_succ_r'. lia.
Qed.

Lemma decimal_rev_digits (cps : list N) (v : N) :
  decimal_rev cps = Some v -> forallb Py.is_digit cps = true.
Proof.
  revert v. induction cps as [|c cps IH]; intros v; simpl; [done|].
  unfold Py.is_digit. destruct (Py.decimal_value c) as [d|]; simpl; [|done].
  destruct (decimal_rev cps) as [h|]; simpl; [|done]. intros _. by apply (IH h).
Qed.

Lemma forallb_fmap {A B} (f : A -> B) (p : B -> bool) (l : list A) :
  forallb p (map f l) = forallb (fun x => p (f x)) l.
Proof. induction l as [|x l IH]; [done|]. simpl. by rewrite IH. Qed.

Lemma forallb_rev {A} (f : A -> bool) (l : list A) : forallb f (rev l) = forallb f l.
Proof.
  induction l as [|x l IH]; [done|]. simpl.
  rewrite forallb_app, IH. simpl. by rewrite andb_true_r, andb_comm.
Qed.

(** A segment that parses is made of digits, and [int] reads the same
    number. *)
Lemma parse_decimal_Some (seg : string) (n : N) :
  parse_decimal seg = Some n -> Py.isdigit seg = true /\ Py.int seg = Some n.
Proof.
  unfold parse_decimal, Py.isdigit, Py.int. destruct seg as [|b r]; [done|].
  destruct (Py.characters (String b r)) as [|c cs] eqn:Hcs;
    [by apply characters_nil in Hcs|].
  intros Hv. split.
  - apply decimal_rev_digits in Hv. rewrite forallb_rev in Hv.
    by rewrite forallb_fmap in Hv.
  - rewrite int_acc_decimal, Hv. f_equal; lia.
Qed.

Lemma parse_decimal_None (seg : string) :
  parse_decimal seg = None -> Py.int seg = None.
Proof.
  unfold parse_decimal, Py.int. destruct seg as [|b r]; [done|].
  destruct (Py.characters (String b r)) as [|c cs] eqn:Hcs; [done|].
  intros Hv. by rewrite int_acc_decimal, Hv.
Qed.

(** The code's test and conversion make of a number an index, of a name
    a key, and raise on a numeral. *)
Lemma subscript_of_kind (comp : string) : subscript_of comp = key_of_kind comp.
Proof.
  unfold subscript_of, key_of_kind, kind_of.
  destruct (parse_decimal comp) as [n|] eqn:Hparse.
  - destruct (parse_decimal_Some _ _ Hparse) as [-> ->]. done.
  - rewrite (parse_decimal_None _ Hparse). by destruct (Py.isdigit comp).
Qed.

(** The code's test and conversion compute the decimal reading of the
    specification on every segment but the numerals. *)
Lemma subscript_of_classify (comp : string) :
  well_formed comp = true -> subscript_of comp = Ok (key_of (classify comp)).
Proof.
  rewrite subscript_of_kind. unfold key_of_kind, well_formed, kind_of, classify.
  destruct (parse_decimal comp); [done|]. by destruct (Py.isdigit comp).
Qed.

Lemma subscript_of_Ok (comp : string) (k : pykey) :
  subscript_of comp = Ok k -> well_formed comp = true /\ k = key_of (classify comp).
Proof.
  rewrite subscript_of_kind. unfold key_of_kind, well_formed, kind_of, classify.
  destruct (parse_decimal comp); [by intros [= <-]|].
  destruct (Py.isdigit comp); [done | by intros [= <-]].
Qed.

Lemma split_nonempty (sep : ascii) (s : string) : Py.split sep s <> [].
Proof.
  destruct s as [|c s]; simpl; [done|].
  destruct (Ascii.eqb c sep); [done|]. by destruct (Py.split sep s).
Qed.

(** ** Writing at a path *)

Lemma bind_Ok {A B} (a : A) (f : A -> result B) : (Ok a ≫= f) = f a.
Proof. reflexivity. Qed.

Lemma walk_cons target trail comp rest :
  walk target trail (comp :: rest)
  = (k ← subscript_of comp; child ← getitem target k;
     walk child ((target, k) :: trail) rest).
Proof. reflexivity. Qed.

Lemma write_path_cons doc seg seg' rest v :
  write_path doc (seg :: seg' :: rest) v
  = (child ← getitem doc (key_of seg);
     child ← write_path child (seg' :: rest) v;
     Ok (holding doc (key_of seg) child)).
Proof. reflexivity. Qed.

(** The loop over all components but the last, the assignment at the
    last and the objects of the trail holding the result, against the
    recursive writer. *)
Lemma walk_write (comps : list string) (v : json) :
  comps <> [] -> forallb well_formed comps = true ->
  forall (data : json) (trail : list (json * pykey)),
    ('(target, trail') ← walk data trail (removelast comps);
     last_comp ← subscript_of (List.last comps "");
     target ← setitem target last_comp v;
     Ok (rebuild trail' target))
    = (r ← write_path data (map classify comps) v; Ok (rebuild trail r)).
Proof.
  induction comps as [|c comps IH]; [done|]. intros _ Hwf data trail.
  simpl in Hwf. apply andb_prop in Hwf as [Hc Hwf].
  destruct comps as [|c' rest].
  - simpl. rewrite (subscript_of_classify _ Hc). simpl.
    by destruct (setitem data (key_of (classify c)) v).
  - change (removelast (c :: c' :: rest)) with (c :: removelast (c' :: rest)).
    change (List.last (c :: c' :: rest) "") with (List.last (c' :: rest) "").
    change (map classify (c :: c' :: rest))
      with (classify c :: classify c' :: map classify rest).
    rewrite walk_cons, write_path_cons, (subscript_of_classify c Hc), bind_Ok.
    destruct (getitem data (key_of (classify c))) as [child|e]; [|done].
    rewrite !bind_Ok.
    rewrite (IH ltac:(done) Hwf child ((data, key_of (classify c)) :: trail)).
    change (map classify (c' :: rest)) with (classify c' :: map classify rest).
    by destruct (write_path child (classify c' :: map classify rest) v).
Qed.

(** On a path without numerals one turn of the loop of [patch_file] is
    the recursive write along the classified segments. *)
Lemma apply_patch_write_path (data : json) (path new_text : string) :
  forallb well_formed (Py.split "." path) = true ->
  apply_patch data path new_text
  = write_path data (segments path) (JStr new_text).
Proof.
  intros Hwf. unfold apply_patch, segments.
  rewrite (walk_write (Py.split "." path) (JStr new_text)
             (split_nonempty _ _) Hwf data []).
  by destruct (write_path data (map classify (Py.split "." path)) (JStr new_text)).
Qed.

(** ** The walk against the replacement of the specification *)

Lemma list_find_dict_get (k : pykey) (d : list (pykey * json)) :
  match list_find (fun kv : pykey * json => fst kv = k) d with
  | Some (_, kv) => Some (snd kv)
  | None => None
  end = dict_get k d.
Proof.
  induction d as [|[k' v'] d IH]; [done|]. cbn [list_find dict_get fst].
  destruct (decide (k' = k)); [done|].
  rewrite <- IH. by destruct (list_find _ d) as [[i kv]|].
Qed.

Lemma list_find_dict_set (k : pykey) (v : json) (d : list (pykey * json)) :
  match list_find (fun kv : pykey * json => fst kv = k) d with
  | Some (i, _) => take i d ++ (k, v) :: drop (S i) d
  | None => d ++ [ (k, v) ]
  end = dict_set k v d.
Proof.
  induction d as [|[k' v'] d IH]; [done|]. cbn [list_find dict_set fst].
  destruct (decide (k' = k)) as [->|Hne]; [done|].
  rewrite <- IH. by destruct (list_find _ d) as [[i kv]|].
Qed.

Lemma child_of_getitem (doc : json) (k : pykey) : child_of doc k = getitem doc k.
Proof.
  destruct doc as [|b|z|num den|s|l|d], k as [name|n]; simpl; try done.
  - unfold chars. rewrite list_lookup_fmap, length_map.
    destruct (n <? N.of_nat (length (Py.characters s)))%N eqn:Hn.
    + by destruct (Py.characters s !! N.to_nat n).
    + apply N.ltb_ge in Hn. rewrite lookup_ge_None_2; [done | lia].
  - destruct (n <? N.of_nat (length l))%N eqn:Hn; [done|].
    apply N.ltb_ge in Hn. rewrite lookup_ge_None_2; [done | lia].
  - rewrite <- list_find_dict_get. by destruct (list_find _ d) as [[i kv]|].
  - rewrite <- list_find_dict_get. by destruct (list_find _ d) as [[i kv]|].
Qed.

Lemma with_child_setitem (doc : json) (k : pykey) (v : json) :
  with_child doc k v = setitem doc k v.
Proof.
  destruct doc as [|b|z|num den|s|l|d], k as [name|n]; simpl; try done.
  - destruct (n <? N.of_nat (length l))%N eqn:Hn.
    + apply N.ltb_lt in Hn. rewrite decide_True by lia.
      rewrite insert_take_drop; [done | lia].
    + apply N.ltb_ge in Hn. rewrite decide_False; [done | lia].
  - rewrite <- list_find_dict_set. by destruct (list_find _ d) as [[i kv]|].
  - rewrite <- list_find_dict_set. by destruct (list_find _ d) as [[i kv]|].
Qed.

(** Once the child has been read, putting it back is holding it. *)
Lemma setitem_holding (doc child child' : json) (k : pykey) :
  getitem doc k = Ok child -> is_str doc = false ->
  setitem doc k child' = Ok (holding doc k child').
Proof.
  destruct doc as [|b|z|num den|s|l|d], k as [name|n]; simpl; try done.
  by destruct (n <? N.of_nat (length l))%N.
Qed.

Lemma replace_at_one (doc : json) (seg : string) (v : json) :
  replace_at doc [ seg ] v = (k ← key_of_kind seg; with_child doc k v).
Proof. reflexivity. Qed.

Lemma replace_at_cons (doc : json) (seg seg' : string) (rest : list string) (v : json) :
  replace_at doc (seg :: seg' :: rest) v
  = (k ← key_of_kind seg;
     child ← child_of doc k;
     child ← replace_at child (seg' :: rest) v;
     with_child doc k child).
Proof. reflexivity. Qed.

(** Nothing is replaced in a string. *)
Lemma replace_at_str (segs : list string) (s : string) (v : json) :
  segs <> [] -> is_ok (replace_at (JStr s) segs v) = false.
Proof.
  revert s. induction segs as [|seg segs IH]; [done|]. intros s _.
  destruct segs as [|seg' rest].
  - rewrite replace_at_one. destruct (key_of_kind seg) as [k|e]; [|done].
    rewrite bind_Ok. by destruct k.
  - rewrite replace_at_cons. destruct (key_of_kind seg) as [k|e]; [|done].
    rewrite bind_Ok. destruct k as [name|n]; [done|]. simpl child_of.
    destruct (Py.characters s !! N.to_nat n) as [c|]; [|done].
    rewrite bind_Ok.
    specialize (IH (snd c) ltac:(done)).
    by destruct (replace_at (JStr (snd c)) (seg' :: rest) v).
Qed.

Lemma walk_replace (comps : list string) (v : json) :
  comps <> [] ->
  forall (data : json) (trail : list (json * pykey)),
    ('(target, trail') ← walk data trail (removelast comps);
     last_comp ← subscript_of (List.last comps "");
     target ← setitem target last_comp v;
     Ok (rebuild trail' target))
    = (r ← replace_at data comps v; Ok (rebuild trail r)).
Proof.
  induction comps as [|c comps IH]; [done|]. intros _ data trail.
  destruct comps as [|c' rest].
  - cbn [removelast List.last walk]. rewrite bind_Ok, replace_at_one.
    rewrite (subscript_of_kind c).
    destruct (key_of_kind c) as [k|e]; [|done].
    rewrite !bind_Ok, with_child_setitem. by destruct (setitem data k v).
  - change (removelast (c :: c' :: rest)) with (c :: removelast (c' :: rest)).
    change (List.last (c :: c' :: rest) "") with (List.last (c' :: rest) "").
    rewrite walk_cons, replace_at_cons, (subscript_of_kind c).
    destruct (key_of_kind c) as [k|e]; [|done].
    rewrite !bind_Ok, child_of_getitem.
    destruct (getitem data k) as [child|e] eqn:Hchild; [|done].
    rewrite !bind_Ok.
    rewrite (IH ltac:(done) child ((data, k) :: trail)).
    destruct (replace_at child (c' :: rest) v) as [child'|e] eqn:Hrec; [|done].
    rewrite !bind_Ok, with_child_setitem. cbn [rebuild].
    destruct (is_str data) eqn:Hstr.
    + destruct data; try done. destruct k as [name|n]; [done|].
      simpl in Hchild.
      destruct (n <? N.of_nat (length (chars s)))%N; [|done].
      destruct (chars s !! N.to_nat n) as [x|] eqn:Hx; [|done].
      injection Hchild as <-. unfold chars in Hx. rewrite list_lookup_fmap in Hx.
      destruct (Py.characters s !! N.to_nat n) as [ch|]; [|done].
      injection Hx as <-.
      pose proof (replace_at_str (c' :: rest) (snd ch) v ltac:(done)) as Hno.
      by rewrite Hrec in Hno.
    + by rewrite (setitem_holding _ child _ _ Hchild Hstr).
Qed.

(** One turn of the loop of [patch_file] is the replacement along the
    segments of the path. *)
Lemma apply_patch_replace_at (data : json) (path new_text : string) :
  apply_patch data path new_text
  = replace_at data (Py.split "." path) (JStr new_text).
Proof.
  unfold apply_patch.
  rewrite (walk_replace (Py.split "." path) (JStr new_text)
             (split_nonempty _ _) data []).
  by destruct (replace_at data (Py.split "." path) (JStr new_text)).
Qed.

Lemma replace_at_well_formed (segs : list string) (doc doc' v : json) :
  replace_at doc segs v = Ok doc' -> forallb well_formed segs = true.
Proof.
  revert doc doc'. induction segs as [|seg segs IH]; intros doc doc'; [done|].
  assert (Hkey : forall k, key_of_kind seg = Ok k -> well_formed seg = true).
  { intros k. unfold key_of_kind, well_formed. by destruct (kind_of seg). }
  destruct segs as [|seg' rest].
  - rewrite replace_at_one. destruct (key_of_kind seg) as [k|e] eqn:Hk; [|done].
    intros _. simpl. by rewrite (Hkey k).
  - rewrite replace_at_cons. destruct (key_of_kind seg) as [k|e] eqn:Hk; [|done].
    rewrite bind_Ok. destruct (child_of doc k) as [child|]; [|done]. rewrite bind_Ok.
    destruct (replace_at child (seg' :: rest) v) as [child'|] eqn:Hrec; [|done].
    intros _. cbn [forallb]. rewrite (Hkey k eq_refl).
    by apply (IH child child').
Qed.

(** A turn of the loop that returns has met no numeral. *)
Lemma apply_patch_well_formed (data data' : json) (path new_text : string) :
  apply_patch data path new_text = Ok data' ->
  forallb well_formed (Py.split "." path) = true.
Proof. rewrite apply_patch_replace_at. apply replace_at_well_formed. Qed.

Lemma apply_patch_Ok_write_path (data data' : json) (path new_text : string) :
  apply_patch data path new_text = Ok data' ->
  write_path data (segments path) (JStr new_text) = Ok data'.
Proof.
  intros Hrun. by rewrite <- (apply_patch_write_path _ _ _ (apply_patch_well_formed _ _ _ _ Hrun)).
Qed.

(** What the kinds are, on segments of each sort: ASCII digits, digits of
    another script, a sign, nothing, a superscript. *)
Example kind_of_examples :
  kind_of "12" = Number 12
  /\ kind_of "007" = Number 7
  /\ kind_of "٣" = Number 3
  /\ kind_of "+3" = Name "+3"
  /\ kind_of "1e3" = Name "1e3"
  /\ kind_of "" = Name ""
  /\ kind_of "name" = Name "name"
  /\ kind_of "²" = Numeral
  /\ segments "list.٣.name" = [ Field "list"; Index 3; Field "name" ]
  /\ subscript_of "٣" = Ok (KInt 3)
  /\ subscript_of "²" = Raise ValueError.
Proof. repeat split; vm_compute; reflexivity. Qed.




Lemma is_ok_setitem (target : json) (seg : segment) (v : json) :
  is_ok (setitem target (key_of seg) v) = assignable target seg.
Proof.
  destruct target, seg; simpl; try done.
  by destruct (n <? N.of_nat (length items))%N.
Qed.

Lemma is_ok_write_path (segs : list segment) (v : json) :
  segs <> [] ->
  forall doc : json,
    is_ok (write_path doc segs v) =
      match read_path doc (removelast segs) with
      | Ok target => assignable target (List.last segs (Field ""))
      | Raise _ => false
      end.
Proof.
  induction segs as [|seg segs IH]; [done|]. intros _ doc.
  destruct segs as [|seg' rest].
  - simpl. apply is_ok_setitem.
  - rewrite write_path_cons.
    change (removelast (seg :: seg' :: rest)) with (seg :: removelast (seg' :: rest)).
    change (List.last (seg :: seg' :: rest) (Field ""))
      with (List.last (seg' :: rest) (Field "")).
    cbn [read_path].
    destruct (getitem doc (key_of seg)) as [child|e]; [|done].
    rewrite !bind_Ok, <- (IH ltac:(done) child).
    by destruct (write_path child (seg' :: rest) v).
Qed.

(** One turn of the loop of [patch_file] returns exactly on the writable
    paths. *)
Lemma is_ok_apply_patch (data : json) (path new_text : string) :
  is_ok (apply_patch data path new_text) = writable data path.
Proof.
  unfold writable.
  destruct (forallb well_formed (Py.split "." path)) eqn:Hwf; simpl.
  - rewrite (apply_patch_write_path _ _ _ Hwf).
    apply is_ok_write_path. unfold segments.
    intros H. apply map_eq_nil in H. by apply split_nonempty in H.
  - destruct (apply_patch data path new_text) as [d|e] eqn:Hrun; [|done].
    apply apply_patch_well_formed in Hrun. congruence.
Qed.

Lemma apply_patches_app (data : json) (pre post : list (string * string)) :
  apply_patches data (pre ++ post)
  = (data1 ← apply_patches data pre; apply_patches data1 post).
Proof.
  revert data. induction pre as [|[path new_text] pre IH]; intros data; [done|].
  simpl. destruct (apply_patch data path new_text) as [d|e]; [|done].
  rewrite !bind_Ok. apply IH.
Qed.

Lemma patch_file_run (file_path : string) (patches : list (string * string)) (w : world) :
  patch_file file_path patches w =
    match files w !! file_path with
    | None => (Raise FileNotFoundError, w)
    | Some data =>
        match apply_patches data patches with
        | Ok data' =>
            (Ok tt, World (<[file_path := dump_load data']> (files w)) (stdout w))
        | Raise e => (Raise e, w)
        end
    end.
Proof.
  unfold patch_file, read_json, mbind, exec_bind.
  destruct (files w !! file_path) as [data|]; [|done].
  unfold lift. by destruct (apply_patches data patches).
Qed.

(** ** The patch run *)

Lemma patch_misc_file_run (file_path : string) (patches : list (string * string))
    (w : world) :
  patch_misc_file file_path patches w =
    match files w !! file_path with
    | None => (Raise FileNotFoundError, w)
    | Some data =>
        match apply_misc_patches data patches with
        | Ok data' =>
            (Ok tt, World (<[file_path := dump_load data']> (files w)) (stdout w))
        | Raise e => (Raise e, w)
        end
    end.
Proof.
  unfold patch_misc_file, read_json, mbind, exec_bind.
  destruct (files w !! file_path) as [data|]; [|done].
  unfold lift. by destruct (apply_misc_patches data patches).
Qed.

(** A file whose patching raises has been announced and not written. *)
Lemma patch_grouped_raise file_path patches w e w' :
  patch_grouped (file_path, patches) w = (Raise e, w') ->
  w' = World (files w) (stdout w ++ [Print ("   [*] patching " +:+ file_path +:+ "...")]).
Proof.
  unfold patch_grouped, mbind, exec_bind, print, modify.
  destruct (Py.contains "rmmvlt_misc.json" file_path).
  - rewrite patch_misc_file_run. simpl.
    destruct (files w !! file_path) as [data|]; [|by intros [= _ <-]].
    destruct (apply_misc_patches data patches); [done | by intros [= _ <-]].
  - rewrite patch_file_run. simpl.
    destruct (files w !! file_path) as [data|]; [|by intros [= _ <-]].
    destruct (apply_patches data patches); [done | by intros [= _ <-]].
Qed.

Lemma for_each_stops {S A} (body : A -> Exec S unit) (pre post : list A) (x : A)
    (s s1 s2 : S) (e : exn) :
  for_each pre body s = (Ok tt, s1) ->
  body x s1 = (Raise e, s2) ->
  for_each (pre ++ x :: post) body s = (Raise e, s2).
Proof.
  revert s. induction pre as [|y pre IH]; intros s; simpl.
  - intros [= <-] Hx. unfold mbind, exec_bind. by rewrite Hx.
  - unfold mbind, exec_bind. destruct (body y s) as [[[]|e'] s'] eqn:Hy.
    + intros Hpre Hx. by apply IH.
    + done.
Qed.

(** [main] always returns from its [patch] branch. *)
Lemma main_patch_returns tm language w : fst (main_patch tm language w) = Ok tt.
Proof.
  unfold main_patch, try_except, mbind, exec_bind, print, modify, patch_all_files.
  simpl.
  destruct (for_each _ patch_grouped _) as [[[]|e] w']; simpl; reflexivity.
Qed.

(** C6, refuted: the translation of the map name makes the patching of
    Map001.json raise; Actors.json, whose own patch is applicable, is
    left unpatched, and [main] returns, so the exit status is 0. *)
Lemma failing_file_ends_the_run :
  let map001 := JDict [ (KStr "displayName", JStr "Town") ] in
  let actors := JList [ JNull; JDict [ (KStr "name", JStr "Harold") ] ] in
  let w := World {[ "data/Map001.json" := map001; "data/Actors.json" := actors ]} [] in
  let tm :=
    [ ("18d85f68e0bd0c78",
       Entry "Town" (Context "data/Map001.json" "001.displayName" None (Some "001"))
             (Some [ ("fr", "Ville") ]));
      ("a301f9519cc955a2",
       Entry "Harold" (Context "data/Actors.json" "1.name" None None)
             (Some [ ("fr", "Harald") ])) ] in
  patch_file "data/Actors.json" [ ("1.name", "Harald") ] w
  = (Ok tt,
     World {[ "data/Map001.json" := map001;
              "data/Actors.json" :=
                JList [ JNull; JDict [ (KStr "name", JStr "Harald") ] ] ]} [])
  /\ ~ (files (snd (main_patch tm "fr" w)) !! "data/Actors.json"
        = Some (JList [ JNull; JDict [ (KStr "name", JStr "Harald") ] ]))
  /\ files (snd (main_patch tm "fr" w)) = files w
  /\ ~ (exit_status (fst (main_patch tm "fr" w)) <> 0).
Proof.
  cbv zeta. split; [vm_compute; reflexivity|].
  split; [vm_compute; discriminate|].
  split; [vm_compute; reflexivity|].
  intros H. apply H. vm_compute. reflexivity.
Qed.

(** C6, amended: a failure while patching one file ends the run.  The
    files grouped before it have been patched and saved, the failing
    file and every file after it are left as they were, [main] prints
    the exception once and returns, and the exit status is 0. *)
Theorem patch_run_stops_at_first_failure
    (tm : tmap) (language : string) (w w1 w2 : world)
    (pre post : list (string * list (string * string)))
    (file_path : string) (patches : list (string * string)) (e : exn) :
  group_patches (Patcher language tm) = pre ++ (file_path, patches) :: post ->
  for_each pre patch_grouped
    (World (files w)
       (stdout w ++ [Print ("[>] patching project with language: " +:+ language)]))
    = (Ok tt, w1) ->
  patch_grouped (file_path, patches) w1 = (Raise e, w2) ->
  main_patch tm language w
  = (Ok tt,
     World (files w1)
       (stdout w1 ++ [ Print ("   [*] patching " +:+ file_path +:+ "...");
                       PrintExn "[!] error during patching: " e ]))
  /\ exit_status (fst (main_patch tm language w)) = 0.
Proof.
  intros Hgroups Hpre Hfail. split; [|by rewrite main_patch_returns].
  pose proof (patch_grouped_raise _ _ _ _ _ Hfail) as ->.
  pose proof (for_each_stops patch_grouped pre post _ _ _ _ e Hpre Hfail) as Hrun.
  unfold main_patch, try_except, patch_all_files.
  unfold mbind at 1. unfold exec_bind at 1. unfold print at 1. unfold modify at 1.
  unfold mbind at 1. unfold exec_bind at 1.
  rewrite Hgroups, Hrun. unfold print_exn, modify. simpl.
  by rewrite <- app_assoc.
Qed.

Lemma patch_run_stops_at_first_failure_witness :
  let map001 := JDict [ (KStr "displayName", JStr "Town") ] in
  let actors := JList [ JNull; JDict [ (KStr "name", JStr "Harold") ] ] in
  let items := JList [ JNull; JDict [ (KStr "name", JStr "Potion") ] ] in
  let w := World {[ "data/Map001.json" := map001; "data/Actors.json" := actors;
                    "data/Items.json" := items ]} [] in
  let tm :=
    [ ("1a14249056ea0d0f",
       Entry "Potion" (Context "data/Items.json" "1.name" None None)
             (Some [ ("fr", "Potion de soin") ]));
      ("18d85f68e0bd0c78",
       Entry "Town" (Context "data/Map001.json" "001.displayName" None (Some "001"))
             (Some [ ("fr", "Ville") ]));
      ("a301f9519cc955a2",
       Entry "Harold" (Context "data/Actors.json" "1.name" None None)
             (Some [ ("fr", "Harald") ])) ] in
  main_patch tm "fr" w
  = (Ok tt,
     World {[ "data/Map001.json" := map001; "data/Actors.json" := actors;
              "data/Items.json" :=
                JList [ JNull; JDict [ (KStr "name", JStr "Potion de soin") ] ] ]}
       [ Print "[>] patching project with language: fr";
         Print "   [*] patching data/Items.json...";
         Print "   [*] patching data/Map001.json...";
         PrintExn "[!] error during patching: " KeyError ]).
Proof.
  cbv zeta.
  refine (eq_trans (proj1 (patch_run_stops_at_first_failure _ "fr" _
    (World {[ "data/Map001.json" := JDict [ (KStr "displayName", JStr "Town") ];
              "data/Actors.json" :=
                JList [ JNull; JDict [ (KStr "name", JStr "Harold") ] ];
              "data/Items.json" :=
                JList [ JNull; JDict [ (KStr "name", JStr "Potion de soin") ] ] ]}
       [ Print "[>] patching project with language: fr";
         Print "   [*] patching data/Items.json..." ])
    _
    [ ("data/Items.json", [ ("1.name", "Potion de soin") ]) ]
    [ ("data/Actors.json", [ ("1.name", "Harald") ]) ]
    "data/Map001.json" [ ("001.displayName", "Ville") ] KeyError _ _ _)) _).
  - vm_compute. reflexivity.
  - vm_compute. reflexivity.
  - vm_compute. reflexivity.
  - vm_compute. reflexivity.
Defined.

(** ** Extraction, import and patch together *)

Lemma digit_is_not_dot (c : ascii) :
  Py.is_ascii_digit c = true -> Ascii.eqb c "." = false.
Proof. destruct c as [[] [] [] [] [] [] [] []]; simpl; done. Qed.

Lemma split_digits_prefix (s t : string) :
  Py.all_digits s = true ->
  Py.split "." (s +:+ String "." t) = s :: Py.split "." t.
Proof.
  induction s as [|c s IH]; intros Hd.
  - reflexivity.
  - simpl in Hd. apply andb_prop in Hd as [Hc Hs].
    rewrite app_cons. simpl. rewrite (digit_is_not_dot c Hc), (IH Hs). done.
Qed.

(** [int] reads a string of ASCII digits byte by byte. *)
Lemma int_all_digits (s : string) :
  s <> "" -> Py.all_digits s = true ->
  Py.int s = Py.int_acc 0 (map N_of_ascii (list_ascii_of_string s)).
Proof.
  intros Hne Hs. unfold Py.int. rewrite (all_digits_characters s Hs).
  destruct s as [|b s]; [done|].
  cbn [list_ascii_of_string map fst]. by rewrite map_map.
Qed.

Lemma int_acc_all_digits (s : string) (acc : N) :
  Py.all_digits s = true ->
  is_Some (Py.int_acc acc (map N_of_ascii (list_ascii_of_string s))).
Proof.
  revert acc. induction s as [|c s IH]; intros acc; [done|].
  cbn [Py.all_digits list_ascii_of_string map Py.int_acc].
  intros [Hc Hs]%andb_prop. rewrite (proj2 (is_ascii_digit_value c Hc)).
  by apply IH.
Qed.

(** A string of ASCII digits parses as a number. *)
Lemma parse_decimal_all_digits (s : string) :
  s <> "" -> Py.all_digits s = true -> exists n, parse_decimal s = Some n.
Proof.
  intros Hne Hs. destruct (parse_decimal s) as [n|] eqn:Hp; [by exists n|].
  apply parse_decimal_None in Hp. rewrite (int_all_digits s Hne Hs) in Hp.
  destruct (int_acc_all_digits s 0 Hs) as [n Hn]. congruence.
Qed.

(** The path recorded for the display name of a map resolves in no map
    document: its first segment is the number of the map, and the
    document is a mapping with string keys. *)
Lemma display_name_path_raises (d : list (pykey * json)) (map_id new_text : string) :
  Py.isdigit map_id = true ->
  Forall (fun kv => exists s, fst kv = KStr s) d ->
  apply_patch (JDict d) (map_id +:+ ".displayName") new_text
  = Raise (match Py.int map_id with Some _ => KeyError | None => ValueError end).
Proof.
  intros Hdigit Hkeys. unfold apply_patch.
  change (map_id +:+ ".displayName") with (map_id +:+ String "." "displayName").
  rewrite (split_prefix "." _ _ (isdigit_no_dot _ Hdigit)).
  change (Py.split "." "displayName") with ["displayName"].
  change (removelast [map_id; "displayName"]) with [map_id].
  rewrite walk_cons. unfold subscript_of. rewrite Hdigit.
  destruct (Py.int map_id) as [n|]; [|done].
  rewrite bind_Ok.
  assert (Hget : getitem (JDict d) (KInt n) = Raise KeyError).
  { simpl. induction Hkeys as [|[k v] d [s Hs] _ IH]; [done|].
    simpl in *. subst k. by rewrite decide_False. }
  by rewrite Hget.
Qed.

(** [int] reads every string of ASCII digits. *)
Lemma int_ascii_digits (s : string) :
  Py.isascii s = true -> Py.isdigit s = true -> is_Some (Py.int s).
Proof.
  intros Hascii Hdigit. destruct (isdigit_all_digits _ Hascii Hdigit) as [Hne Hall].
  rewrite (int_all_digits _ Hne Hall). by apply int_acc_all_digits.
Qed.

(** C1, the failing input.  Map001.json holds a display name and one
    line of dialogue.  Extraction records both; the translation of the
    display name is imported; the patch run then raises KeyError on the
    recorded path "001.displayName" and leaves the file as it was,
    though the string is read at path "displayName". *)
Theorem display_name_is_not_patched :
  let map001 :=
    JDict [ (KStr "displayName", JStr "Town");
            (KStr "events", JList [ JNull;
               JDict [ (KStr "id", JInt 1);
                       (KStr "pages", JList [ JDict [ (KStr "list", JList [
                          JDict [ (KStr "code", JInt 401);
                                  (KStr "parameters", JList [ JStr "Hello" ]) ] ]) ] ]) ] ]) ] in
  let extraction := process_map_files [ ("Map001.json", map001) ] new_processor in
  let import :=
    excel_to_translation_map [ ("18d85f68e0bd0c78", Some "Ville") ]
      (translation_map (snd extraction)) "rmmvlt.json" "fr" in
  let w := World {[ "data/Map001.json" := map001 ]} [] in
  fst extraction = Ok tt
  /\ dict_get "18d85f68e0bd0c78" (translation_map (snd extraction))
     = Some (Entry "Town"
               (Context "data/Map001.json" "001.displayName" None (Some "001")) None)
  /\ dict_get "18d85f68e0bd0c78" (fst import)
     = Some (Entry "Town"
               (Context "data/Map001.json" "001.displayName" None (Some "001"))
               (Some [ ("fr", "Ville") ]))
  /\ read_path map001 (segments "displayName") = Ok (JStr "Town")
  /\ read_path map001 (segments "001.displayName") = Raise KeyError
  /\ main_patch (fst import) "fr" w
     = (Ok tt,
        World {[ "data/Map001.json" := map001 ]}
          [ Print "[>] patching project with language: fr";
            Print "   [*] patching data/Map001.json...";
            PrintExn "[!] error during patching: " KeyError ]).
Proof. cbv zeta. repeat split; vm_compute; reflexivity. Qed.

(** The same run with the translation of the line of dialogue: the
    value at the recorded path becomes the translation and the rest of
    the document is as it was. *)
Example dialogue_line_is_patched :
  let map001 :=
    JDict [ (KStr "displayName", JStr "Town");
            (KStr "events", JList [ JNull;
               JDict [ (KStr "id", JInt 1);
                       (KStr "pages", JList [ JDict [ (KStr "list", JList [
                          JDict [ (KStr "code", JInt 401);
                                  (KStr "parameters", JList [ JStr "Hello" ]) ] ]) ] ]) ] ]) ] in
  let extraction := process_map_files [ ("Map001.json", map001) ] new_processor in
  let import :=
    excel_to_translation_map [ ("ab145aed2279820d", Some "Bonjour") ]
      (translation_map (snd extraction)) "rmmvlt.json" "fr" in
  let w := World {[ "data/Map001.json" := map001 ]} [] in
  files (snd (main_patch (fst import) "fr" w))
  = {[ "data/Map001.json" :=
    JDict [ (KStr "displayName", JStr "Town");
            (KStr "events", JList [ JNull;
               JDict [ (KStr "id", JInt 1);
                       (KStr "pages", JList [ JDict [ (KStr "list", JList [
                          JDict [ (KStr "code", JInt 401);
                                  (KStr "parameters", JList [ JStr "Bonjour" ]) ] ]) ] ]) ] ]) ] ]}.
Proof. cbv zeta. vm_compute. reflexivity. Qed.

(** ** Import *)

Lemma import_rows_merges (language : string) (rows : list row) (st : importer) :
  fold_left (import_row language) rows st = run_merges language (merges rows) st.
Proof.
  unfold run_merges. revert st. induction rows as [|[raw cell] rows IH]; intros st.
  - reflexivity.
  - simpl. rewrite fold_left_app, <- IH. f_equal.
    unfold import_row. simpl. destruct cell as [t|]; [|reflexivity].
    generalize (split_fingerprints raw). intros fps. revert st.
    induction fps as [|fp fps IHf]; intros st; [reflexivity | apply IHf].
Qed.

Lemma dict_mem_set_present {V} (d : list (string * V)) (k k' : string) (v : V) :
  dict_mem k d = true -> dict_mem k' (dict_set k v d) = dict_mem k' d.
Proof.
  unfold dict_mem. intros Hk. destruct (decide (k = k')) as [<-|Hne].
  - rewrite dict_get_set_eq. by destruct (dict_get k d).
  - by rewrite dict_get_set_ne.
Qed.

Lemma merge_translation_known language text st fp :
  dict_mem fp (i_translation_map st) = true ->
  (forall k, dict_mem k (i_translation_map (merge_translation language text st fp))
             = dict_mem k (i_translation_map st))
  /\ dict_keys (i_translation_map (merge_translation language text st fp))
     = dict_keys (i_translation_map st)
  /\ i_processed (merge_translation language text st fp) = S (i_processed st)
  /\ i_skipped (merge_translation language text st fp) = i_skipped st
  /\ i_stdout (merge_translation language text st fp) = i_stdout st.
Proof.
  intros Hk. unfold merge_translation. pose proof Hk as Hk'. unfold dict_mem in Hk'.
  destruct (dict_get fp (i_translation_map st)) as [e|] eqn:He; [|done]. simpl.
  repeat split.
  - intros k. by apply dict_mem_set_present.
  - apply dict_keys_set_present. rewrite He. eauto.
Qed.

Lemma merge_translation_unknown language text st fp :
  dict_mem fp (i_translation_map st) = false ->
  merge_translation language text st fp
  = Importer (i_translation_map st) (i_processed st) (S (i_skipped st))
             (i_stdout st ++ [warning_line fp]).
Proof.
  unfold merge_translation, dict_mem.
  by destruct (dict_get fp (i_translation_map st)).
Qed.

(** The map after a merge depends on the map before it only. *)
Lemma merge_translation_map language text st st' fp :
  i_translation_map st = i_translation_map st' ->
  i_translation_map (merge_translation language text st fp)
  = i_translation_map (merge_translation language text st' fp).
Proof.
  intros H. unfold merge_translation. rewrite H.
  by destruct (dict_get fp (i_translation_map st')).
Qed.

Lemma run_merges_map language ms st st' :
  i_translation_map st = i_translation_map st' ->
  i_translation_map (run_merges language ms st)
  = i_translation_map (run_merges language ms st').
Proof.
  unfold run_merges. revert st st'. induction ms as [|m ms IH]; intros st st' H.
  - exact H.
  - simpl. apply IH. by apply merge_translation_map.
Qed.

Lemma run_merges_spec language ms st :
  let known := fun m : string * string => dict_mem (snd m) (i_translation_map st) in
  let unknown := fun m => negb (known m) in
  i_translation_map (run_merges language ms st)
    = i_translation_map (run_merges language (List.filter known ms) st)
  /\ dict_keys (i_translation_map (run_merges language ms st))
     = dict_keys (i_translation_map st)
  /\ i_processed (run_merges language ms st)
     = (i_processed st + length (List.filter known ms))%nat
  /\ i_skipped (run_merges language ms st)
     = (i_skipped st + length (List.filter unknown ms))%nat
  /\ i_stdout (run_merges language ms st)
     = i_stdout st ++ map (fun m => warning_line (snd m)) (List.filter unknown ms).
Proof.
  revert st. induction ms as [|[t fp] ms IH]; intros st; cbv zeta.
  - simpl. rewrite app_nil_r. repeat split; lia.
  - change (run_merges language ((t, fp) :: ms) st)
      with (run_merges language ms (merge_translation language t st fp)).
    specialize (IH (merge_translation language t st fp)). cbv zeta in IH.
    destruct IH as (Hmap & Hkeys & Hproc & Hskip & Hout).
    cbn [List.filter snd].
    destruct (dict_mem fp (i_translation_map st)) eqn:Hfp; cbn [negb].
    + destruct (merge_translation_known language t st fp Hfp)
        as (Hmem & Hk & Hp & Hs & Ho).
      assert (Hfilter : forall ms',
        List.filter (fun m : string * string =>
          dict_mem (snd m) (i_translation_map (merge_translation language t st fp))) ms'
        = List.filter (fun m : string * string =>
          dict_mem (snd m) (i_translation_map st)) ms').
      { intros ms'. apply filter_ext. intros m. apply Hmem. }
      assert (Hfilter' : forall ms',
        List.filter (fun m : string * string => negb
          (dict_mem (snd m) (i_translation_map (merge_translation language t st fp)))) ms'
        = List.filter (fun m : string * string => negb
          (dict_mem (snd m) (i_translation_map st))) ms').
      { intros ms'. apply filter_ext. intros m. by rewrite Hmem. }
      rewrite Hfilter in Hmap, Hproc. rewrite Hfilter' in Hskip, Hout.
      rewrite Hkeys, Hmap, Hproc, Hskip, Hout, Hk, Hp, Hs, Ho.
      repeat split; simpl; lia.
    + rewrite (merge_translation_unknown language t st fp Hfp) in *.
      cbn [i_translation_map i_processed i_skipped i_stdout] in *.
      rewrite Hkeys, Hproc, Hskip, Hout.
      split.
      { rewrite Hmap. by apply run_merges_map. }
      repeat split; simpl; try lia.
      by rewrite <- app_assoc.
Qed.

(** C8. Merging a translation for a fingerprint absent from the map is
    not fatal.  The import returns for every sheet; the map it writes
    has the keys of the map it read, in the same order, and is the map
    the import writes when the occurrences of unknown fingerprints are
    left out of the sheet; each such occurrence prints the warning that
    names the fingerprint, in order, and their number is printed in the
    summary when it is not zero.  So a sheet of one row whose cell holds
    one fingerprint, absent from the map, leaves the map as it was read
    and prints the warning, zero translations processed and one
    fingerprint skipped. *)
Theorem unknown_fingerprint_is_skipped_and_reported
    (rows : list row) (translation_map : tmap) (output_map_file language : string) :
  let known := fun m : string * string => dict_mem (snd m) translation_map in
  let unknown := fun m : string * string => negb (known m) in
  let result := excel_to_translation_map rows translation_map output_map_file language in
  let skipped := length (List.filter unknown (merges rows)) in
  dict_keys (fst result) = dict_keys translation_map
  /\ fst result
     = i_translation_map
         (run_merges language (List.filter known (merges rows))
                     (Importer translation_map 0 0 []))
  /\ snd result
     = map (fun m => Print ("   [!] warning: fingerprint not found in map: " +:+ snd m))
           (List.filter unknown (merges rows))
       ++ [Print ("   [*] processed "
                  +:+ Py.str_of_nat (length (List.filter known (merges rows)))
                  +:+ " translations")]
       ++ (if (0 <? skipped)%nat
           then [Print ("   [!] skipped " +:+ Py.str_of_nat skipped
                        +:+ " invalid fingerprints")]
           else [])
       ++ [Print ("   [*] translation map created: " +:+ output_map_file)]
  /\ (forall cell fingerprint translated_text : string,
        split_fingerprints cell = [ fingerprint ] ->
        dict_mem fingerprint translation_map = false ->
        excel_to_translation_map [ (cell, Some translated_text) ] translation_map
          output_map_file language
        = (translation_map,
           [ Print ("   [!] warning: fingerprint not found in map: " +:+ fingerprint);
             Print "   [*] processed 0 translations";
             Print "   [!] skipped 1 invalid fingerprints";
             Print ("   [*] translation map created: " +:+ output_map_file) ])).
Proof.
  intros known unknown result skipped. unfold result, excel_to_translation_map.
  split; [|split; [|split]].
  - rewrite import_rows_merges.
    destruct (run_merges_spec language (merges rows) (Importer translation_map 0 0 []))
      as (_ & Hkeys & _). exact Hkeys.
  - rewrite import_rows_merges.
    destruct (run_merges_spec language (merges rows) (Importer translation_map 0 0 []))
      as (Hmap & _). exact Hmap.
  - rewrite import_rows_merges.
    destruct (run_merges_spec language (merges rows) (Importer translation_map 0 0 []))
      as (_ & _ & Hproc & Hskip & Hout).
    cbn [i_translation_map i_processed i_skipped i_stdout] in *.
    subst skipped unknown known.
    cbn [fst snd]. rewrite Hproc, Hskip, Hout. simpl.
    unfold warning_line, processed_line, skipped_line.
    by destruct (0 <? _)%nat; rewrite <- ?app_assoc.
  - intros cell fingerprint translated_text Hcell Hunknown.
    cbn [fold_left]. unfold import_row. cbn [fst snd]. rewrite Hcell.
    cbn [fold_left]. unfold merge_translation. cbn [i_translation_map].
    unfold dict_mem in Hunknown.
    destruct (dict_get fingerprint translation_map) as [e|]; [done|].
    reflexivity.
Qed.

(** The sheet has a row for an unknown fingerprint and a row whose cell
    ends with a no-break space and a separator: the first is reported,
    the second is stripped and merged. *)
Lemma unknown_fingerprint_is_skipped_and_reported_witness :
  let town := Context "data/Map001.json" "displayName" None (Some "001") in
  excel_to_translation_map
    [ ("0123456789abcdef", Some "Bonjour");
      ("18d85f68e0bd0c78" +:+ String "194" (String "160" "; "), Some "Ville") ]
    [ ("18d85f68e0bd0c78", Entry "Town" town None) ] "rmmvlt_fr.json" "fr"
  = ([ ("18d85f68e0bd0c78", Entry "Town" town (Some [ ("fr", "Ville") ])) ],
     [ Print "   [!] warning: fingerprint not found in map: 0123456789abcdef";
       Print "   [*] processed 1 translations";
       Print "   [!] skipped 1 invalid fingerprints";
       Print "   [*] translation map created: rmmvlt_fr.json" ]).
Proof.
  cbv zeta.
  destruct (unknown_fingerprint_is_skipped_and_reported
              [ ("0123456789abcdef", Some "Bonjour");
                ("18d85f68e0bd0c78" +:+ String "194" (String "160" "; "), Some "Ville") ]
              [ ("18d85f68e0bd0c78",
                 Entry "Town" (Context "data/Map001.json" "displayName" None (Some "001"))
                       None) ]
              "rmmvlt_fr.json" "fr") as (_ & Hmap & Hout & _).
  cbv zeta in Hmap, Hout.
  apply injective_projections; [rewrite Hmap | rewrite Hout]; vm_compute; reflexivity.
Defined.
(** ** Loaded documents *)

Lemma json_ind' (P : json -> Prop) :
  P JNull -> (forall b, P (JBool b)) -> (forall n, P (JInt n)) ->
  (forall num den, P (JFloat num den)) -> (forall s, P (JStr s)) ->
  (forall l, Forall P l -> P (JList l)) ->
  (forall d, Forall (fun kv => P (snd kv)) d -> P (JDict d)) ->
  forall j, P j.
Proof.
  intros Hnull Hbool Hint Hfloat Hstr Hlist Hdict.
  fix IH 1. intros [| b | n | num den | s | l | d].
  - exact Hnull.
  - apply Hbool.
  - apply Hint.
  - apply Hfloat.
  - apply Hstr.
  - apply Hlist. induction l as [|x l IHl]; constructor; [apply IH | exact IHl].
  - apply Hdict. induction d as [|[k v] d IHd]; constructor; [apply IH | exact IHd].
Qed.

Lemma dict_set_absent {K V} `{EqDecision K} (d : list (K * V)) k v :
  dict_get k d = None -> dict_set k v d = d ++ [(k, v)].
Proof.
  induction d as [|[k' v'] d IH]; simpl; [done|].
  destruct (decide (k' = k)); [done|]. intros Hd. by rewrite IH.
Qed.

Lemma dict_set_same {K V} `{EqDecision K} (d : list (K * V)) k v :
  dict_get k d = Some v -> dict_set k v d = d.
Proof.
  induction d as [|[k' v'] d IH]; simpl; [done|].
  destruct (decide (k' = k)); [by intros [= ->] | intros Hd; by rewrite IH].
Qed.

Lemma dict_of_pairs_acc {K V} `{EqDecision K} (d acc : list (K * V)) :
  NoDup (map fst (acc ++ d)) ->
  fold_left (fun acc kv => dict_set (fst kv) (snd kv) acc) d acc = acc ++ d.
Proof.
  revert acc. induction d as [|[k v] d IH]; intros acc Hnd; simpl.
  - by rewrite app_nil_r.
  - assert (Habs : dict_get k acc = None).
    { apply dict_get_None_keys. unfold dict_keys.
      rewrite map_app in Hnd. simpl in Hnd.
      apply NoDup_app in Hnd as (_ & Hdisj & _).
      intros Hin. apply (Hdisj k Hin). left. }
    rewrite (dict_set_absent _ _ _ Habs), IH, <- app_assoc; [done|].
    by rewrite <- app_assoc.
Qed.

Lemma dict_of_pairs_nodup {K V} `{EqDecision K} (d : list (K * V)) :
  NoDup (map fst d) -> dict_of_pairs d = d.
Proof. intros Hnd. unfold dict_of_pairs. by rewrite dict_of_pairs_acc. Qed.

(** Writing a loaded document and reading it back gives the document. *)
Lemma dump_load_loaded (j : json) : loaded j = true -> dump_load j = j.
Proof.
  induction j as [| | | | | l IH | d IH] using json_ind'; try done.
  - simpl. intros Hl. f_equal.
    induction IH as [|x l Hx _ IHl]; [done|].
    simpl in Hl. apply andb_prop in Hl as [Hx' Hl']. simpl.
    by rewrite Hx, IHl.
  - simpl. intros Hl. apply andb_prop in Hl as [Hv Hnd].
    apply bool_decide_eq_true in Hnd. f_equal.
    assert (Hmap : map (fun kv => (KStr (key_str (fst kv)), dump_load (snd kv))) d = d).
    { clear Hnd. induction IH as [|[k v] d Hx _ IHd]; [done|].
      simpl in Hv. apply andb_prop in Hv as [Hk Hv']. simpl.
      destruct k as [s|n]; [|done]. simpl in Hx. by rewrite Hx, IHd. }
    rewrite Hmap. by apply dict_of_pairs_nodup.
Qed.

(** ** The misc file *)

Lemma item_id_text (fields : list (pykey * json)) (v : json) :
  item_id (JDict (dict_set (KStr "text") v fields)) = item_id (JDict fields).
Proof. simpl. by rewrite dict_get_set_ne. Qed.

Lemma get_method_id (item : json) :
  is_dict item = true -> get_method item "id" JNull = Ok (item_id item).
Proof. by destruct item. Qed.

(** On mappings [patch_first] returns: the elements keep their ids, and
    stay mappings. *)
Lemma patch_first_total (items : list json) (target_id new_text : string) :
  forallb is_dict items = true ->
  exists items',
    patch_first items target_id new_text = Ok items'
    /\ forallb is_dict items' = true
    /\ map item_id items' = map item_id items.
Proof.
  induction items as [|item items IH]; simpl; intros Hd.
  - by exists [].
  - apply andb_prop in Hd as [Hi Hd]. rewrite (get_method_id _ Hi), bind_Ok.
    destruct (eq_str (item_id item) target_id).
    + destruct item as [| | | | | |fields]; try done. simpl.
      eexists. split; [reflexivity|]. simpl. split; [done|].
      f_equal. by rewrite dict_get_set_ne.
    + destruct (IH Hd) as (items' & -> & Hd' & Hids). rewrite bind_Ok.
      exists (item :: items'). simpl. rewrite Hi, Hd', Hids. done.
Qed.

Lemma patch_first_unmatched (items : list json) (target_id new_text : string) :
  forallb is_dict items = true ->
  existsb (has_id target_id) items = false ->
  patch_first items target_id new_text = Ok items.
Proof.
  induction items as [|item items IH]; simpl; intros Hd Hex; [done|].
  apply andb_prop in Hd as [Hi Hd]. apply orb_false_elim in Hex as [Hh Hex].
  rewrite (get_method_id _ Hi), bind_Ok. unfold has_id in Hh. rewrite Hh.
  by rewrite (IH Hd Hex).
Qed.

(** Only the first element with the id is updated. *)
Lemma patch_first_first (pre post : list json) (fields : list (pykey * json))
    (target_id new_text : string) :
  forallb is_dict pre = true ->
  existsb (has_id target_id) pre = false ->
  has_id target_id (JDict fields) = true ->
  patch_first (pre ++ JDict fields :: post) target_id new_text
  = Ok (pre ++ JDict (dict_set (KStr "text") (JStr new_text) fields) :: post).
Proof.
  induction pre as [|item pre IH]; simpl; intros Hd Hex Hh.
  - unfold has_id in Hh. simpl in Hh. by rewrite Hh.
  - apply andb_prop in Hd as [Hi Hd]. apply orb_false_elim in Hex as [Hn Hex].
    rewrite (get_method_id _ Hi), bind_Ok. unfold has_id in Hn. rewrite Hn.
    by rewrite (IH Hd Hex Hh).
Qed.

Lemma misc_document_items (data : json) :
  misc_document data = true -> forallb is_dict (misc_items data) = true.
Proof.
  destruct data as [| | | | | |d]; try done. simpl.
  destruct (dict_get (KStr "misc_strings") d) as [[]|]; done.
Qed.

(** One turn of the loop of [patch_misc_file] on a misc document. *)
Lemma apply_misc_patch_run (data : json) (path new_text : string) :
  misc_document data = true ->
  apply_misc_patch data path new_text =
    if Py.startswith "misc." path
    then items ← patch_first (misc_items data) (Py.drop 5 path) new_text;
         Ok (if bool_decide (misc_items data = []) then data
             else with_misc_items data items)
    else Ok data.
Proof.
  intros Hdoc. unfold apply_misc_patch.
  destruct (Py.startswith "misc." path); [|done].
  generalize (Py.drop 5 path). intros target_id.
  destruct data as [| | | | | |d]; try done. simpl in *.
  unfold dict_mem.
  destruct (dict_get (KStr "misc_strings") d) as [ms|] eqn:Hms; simpl.
  - destruct ms as [| | | | |items|]; try done.
    destruct (patch_first items target_id new_text) as [items'|e] eqn:Hp;
      [|done].
    rewrite !bind_Ok. destruct items as [|item items].
    + simpl in Hp. injection Hp as <-. simpl.
      by rewrite (dict_set_same _ _ _ Hms).
    + done.
  - done.
Qed.

Lemma with_misc_items_same (data : json) :
  misc_document data = true -> misc_items data <> [] ->
  with_misc_items data (misc_items data) = data.
Proof.
  destruct data as [| | | | | |d]; try done. simpl.
  destruct (dict_get (KStr "misc_strings") d) as [[]|] eqn:Hms; try done.
  intros _ _. by rewrite (dict_set_same _ _ _ Hms).
Qed.

Lemma with_misc_items_shape (data : json) (items : list json) :
  misc_document data = true -> forallb is_dict items = true ->
  misc_document (with_misc_items data items) = true
  /\ misc_items (with_misc_items data items) = items.
Proof.
  destruct data as [| | | | | |d]; try done. simpl. intros _ Hd.
  by rewrite dict_get_set_eq.
Qed.

Lemma apply_misc_patch_unmatched (data : json) (path new_text : string) :
  misc_document data = true -> matched data path = false ->
  apply_misc_patch data path new_text = Ok data.
Proof.
  intros Hdoc Hun. rewrite (apply_misc_patch_run _ _ _ Hdoc). unfold matched in Hun.
  destruct (Py.startswith "misc." path); [|done]. simpl in Hun.
  rewrite (patch_first_unmatched _ _ _ (misc_document_items _ Hdoc) Hun), bind_Ok.
  case_bool_decide as Hnil; [done|]. by rewrite with_misc_items_same.
Qed.

(** A turn of the loop returns a misc document with the same ids. *)
Lemma apply_misc_patch_total (data : json) (path new_text : string) :
  misc_document data = true ->
  exists data',
    apply_misc_patch data path new_text = Ok data'
    /\ misc_document data' = true
    /\ map item_id (misc_items data') = map item_id (misc_items data).
Proof.
  intros Hdoc. rewrite (apply_misc_patch_run _ _ _ Hdoc).
  destruct (Py.startswith "misc." path); [|by exists data].
  destruct (patch_first_total _ (Py.drop 5 path) new_text (misc_document_items _ Hdoc))
    as (items' & -> & Hd' & Hids).
  rewrite bind_Ok. case_bool_decide as Hnil; [by exists data|].
  destruct (with_misc_items_shape data items' Hdoc Hd') as [Hshape Hitems].
  eexists. split; [reflexivity|]. split; [done|]. by rewrite Hitems.
Qed.

Lemma existsb_has_id (target_id : string) (items : list json) :
  existsb (has_id target_id) items
  = existsb (fun i => eq_str i target_id) (map item_id items).
Proof. induction items as [|item items IH]; simpl; [done | by rewrite IH]. Qed.

Lemma matched_ids (data data' : json) (path : string) :
  map item_id (misc_items data') = map item_id (misc_items data) ->
  matched data' path = matched data path.
Proof.
  intros Hids. unfold matched. by rewrite !existsb_has_id, Hids.
Qed.

Lemma apply_misc_patches_total (patches : list (string * string)) (data : json) :
  misc_document data = true ->
  exists data',
    apply_misc_patches data patches = Ok data' /\ misc_document data' = true.
Proof.
  revert data. induction patches as [|[path new_text] patches IH]; intros data Hdoc.
  - by exists data.
  - simpl. destruct (apply_misc_patch_total data path new_text Hdoc)
      as (d1 & -> & Hd1 & _).
    rewrite bind_Ok. by apply IH.
Qed.

(** The patches that address no element can be left out. *)
Lemma apply_misc_patches_matched (original : json) (patches : list (string * string))
    (data : json) :
  misc_document data = true ->
  map item_id (misc_items data) = map item_id (misc_items original) ->
  apply_misc_patches data patches
  = apply_misc_patches data
      (List.filter (fun p => matched original (fst p)) patches).
Proof.
  revert data. induction patches as [|[path new_text] patches IH];
    intros data Hdoc Hids; [done|].
  cbn [List.filter fst]. rewrite <- (matched_ids original data path Hids).
  destruct (matched data path) eqn:Hm.
  - cbn [apply_misc_patches].
    destruct (apply_misc_patch_total data path new_text Hdoc)
      as (d1 & -> & Hd1 & Hids1).
    rewrite !bind_Ok. apply IH; [done | congruence].
  - cbn [apply_misc_patches].
    rewrite (apply_misc_patch_unmatched _ _ _ Hdoc Hm), bind_Ok. by apply IH.
Qed.

Lemma apply_misc_patches_app (data : json) (pre post : list (string * string)) :
  apply_misc_patches data (pre ++ post)
  = (data1 ← apply_misc_patches data pre; apply_misc_patches data1 post).
Proof.
  revert data. induction pre as [|[path new_text] pre IH]; intros data; [done|].
  simpl. destruct (apply_misc_patch data path new_text) as [d|e]; [|done].
  rewrite !bind_Ok. apply IH.
Qed.

(** Patches that address no element leave a misc document as it is. *)
Lemma apply_misc_patches_unmatched (data : json) (patches : list (string * string)) :
  misc_document data = true ->
  forallb (fun p => negb (matched data (fst p))) patches = true ->
  apply_misc_patches data patches = Ok data.
Proof.
  intros Hdoc. induction patches as [|[path new_text] patches IH]; [done|].
  cbn [forallb fst apply_misc_patches]. intros [Hp Hrest]%andb_prop.
  apply negb_true_iff in Hp.
  rewrite (apply_misc_patch_unmatched _ _ _ Hdoc Hp), bind_Ok. by apply IH.
Qed.

(** Patches without the prefix leave every document as it is. *)
Lemma apply_misc_patches_no_prefix (data : json) (patches : list (string * string)) :
  forallb (fun p => negb (Py.startswith "misc." (fst p))) patches = true ->
  apply_misc_patches data patches = Ok data.
Proof.
  induction patches as [|[path new_text] patches IH]; [done|].
  cbn [forallb fst apply_misc_patches]. intros [Hp Hrest]%andb_prop.
  apply negb_true_iff in Hp. unfold apply_misc_patch at 1. rewrite Hp, bind_Ok.
  by apply IH.
Qed.

(** The loop over the elements stops at the first that is no mapping. *)
Lemma patch_first_raises (pre post : list json) (item : json)
    (target_id new_text : string) :
  forallb is_dict pre = true ->
  existsb (has_id target_id) pre = false ->
  is_dict item = false ->
  patch_first (pre ++ item :: post) target_id new_text = Raise AttributeError.
Proof.
  induction pre as [|x pre IH]; simpl; intros Hd Hex Hitem.
  - by destruct item.
  - apply andb_prop in Hd as [Hx Hd]. apply orb_false_elim in Hex as [Hn Hex].
    rewrite (get_method_id _ Hx), bind_Ok. unfold has_id in Hn. rewrite Hn.
    by rewrite (IH Hd Hex Hitem).
Qed.

(** C10, refuted: the second element of "misc_strings" is a string.
    [extract_from_misc] returns on the document and records the first
    element; the patch of an id that matches no element then raises
    AttributeError at the string, and the file is not written. *)
Lemma unmatched_patch_raises_at_a_string :
  let data :=
    JDict [ (KStr "misc_strings",
             JList [ JDict [ (KStr "id", JStr "title"); (KStr "text", JStr "Quest") ];
                     JStr "note" ]) ] in
  let w := World {[ "rmmvlt_misc.json" := data ]} [] in
  extract_from_misc (fun _ => "") data = Ok [ (JStr "Quest", "misc.title") ]
  /\ matched data "misc.gone" = false
  /\ patch_misc_file "rmmvlt_misc.json" [ ("misc.gone", "Parti") ] w
     = (Raise AttributeError, w).
Proof. repeat split; vm_compute; reflexivity. Qed.

(** C10, amended: a patch whose path does not start with "misc." leaves
    every document as it is.  On a misc document whose elements are all
    mappings (a mapping whose "misc_strings", when present, is a
    sequence of mappings) [patch_misc_file] returns for every set of
    patches, prints nothing and writes the document back; a patch whose
    id is the id of no element leaves the document as it is, the
    unmatched patches can be left out without changing what is written,
    and when no patch is matched the file is written back as it was
    read; when one patch is matched and the others are not, the file is
    written with the text of the first element with the id updated and
    every other element as it was.  On a document with an element that
    is no mapping (a string, a number, a sequence, null), a patch with
    the prefix whose id is the id of no element before it raises
    AttributeError, and the file is not written. *)
Theorem patch_misc_file_ignores_unmatched
    (w : world) (file_path : string) (data : json) (patches : list (string * string)) :
  files w !! file_path = Some data ->
  (forall path new_text : string,
     Py.startswith "misc." path = false ->
     apply_misc_patch data path new_text = Ok data)
  /\ (misc_document data = true ->
      (exists data' : json,
         apply_misc_patches data patches = Ok data'
         /\ patch_misc_file file_path patches w
            = (Ok tt, World (<[file_path := dump_load data']> (files w)) (stdout w)))
      /\ (forall path new_text : string,
            matched data path = false ->
            apply_misc_patch data path new_text = Ok data)
      /\ apply_misc_patches data patches
         = apply_misc_patches data
             (List.filter (fun p => matched data (fst p)) patches)
      /\ (List.filter (fun p => matched data (fst p)) patches = [] ->
          loaded data = true ->
          patch_misc_file file_path patches w = (Ok tt, w))
      /\ (forall (path new_text : string) (before after : list (string * string))
                 (pre post : list json) (fields : list (pykey * json)),
            patches = before ++ (path, new_text) :: after ->
            forallb (fun p => negb (matched data (fst p))) (before ++ after) = true ->
            Py.startswith "misc." path = true ->
            misc_items data = pre ++ JDict fields :: post ->
            existsb (has_id (Py.drop 5 path)) pre = false ->
            has_id (Py.drop 5 path) (JDict fields) = true ->
            patch_misc_file file_path patches w
            = (Ok tt,
               World (<[file_path :=
                          dump_load
                            (with_misc_items data
                               (pre ++ JDict (dict_set (KStr "text") (JStr new_text) fields)
                                    :: post))]> (files w))
                     (stdout w))))
  /\ (forall (d : list (pykey * json)) (pre post : list json) (item : json)
             (path new_text : string) (before after : list (string * string)),
        data = JDict d ->
        dict_get (KStr "misc_strings") d = Some (JList (pre ++ item :: post)) ->
        forallb is_dict pre = true ->
        is_dict item = false ->
        patches = before ++ (path, new_text) :: after ->
        forallb (fun p => negb (Py.startswith "misc." (fst p))) before = true ->
        Py.startswith "misc." path = true ->
        existsb (has_id (Py.drop 5 path)) pre = false ->
        patch_misc_file file_path patches w = (Raise AttributeError, w)).
Proof.
  intros Hfile. split; [|split].
  { intros path new_text Hstart. unfold apply_misc_patch. by rewrite Hstart. }
  { intros Hdoc.
    pose proof (apply_misc_patches_matched data patches data Hdoc eq_refl) as Hfilter.
    split; [|split; [|split; [exact Hfilter|split]]].
    - destruct (apply_misc_patches_total patches data Hdoc) as (data' & Hrun & _).
      exists data'. split; [exact Hrun|].
      by rewrite patch_misc_file_run, Hfile, Hrun.
    - intros path new_text Hun. by apply apply_misc_patch_unmatched.
    - intros Hnone Hloaded. rewrite Hnone in Hfilter. simpl in Hfilter.
      rewrite patch_misc_file_run, Hfile, Hfilter, (dump_load_loaded _ Hloaded).
      rewrite (insert_id _ _ _ Hfile). by destruct w.
    - intros path new_text before after pre post fields -> Hun Hstart Hitems Hpre Hid.
      rewrite forallb_app in Hun. apply andb_prop in Hun as [Hbefore Hafter].
      assert (Hone : apply_misc_patch data path new_text
                     = Ok (with_misc_items data
                             (pre ++ JDict (dict_set (KStr "text") (JStr new_text) fields)
                                  :: post))).
      { rewrite (apply_misc_patch_run _ _ _ Hdoc), Hstart, Hitems.
        pose proof (misc_document_items _ Hdoc) as Hd. rewrite Hitems in Hd.
        rewrite forallb_app in Hd. apply andb_prop in Hd as [Hdpre _].
        rewrite (patch_first_first _ _ _ _ _ Hdpre Hpre Hid), bind_Ok.
        rewrite bool_decide_eq_false_2; [done|]. by destruct pre. }
      destruct (apply_misc_patch_total data path new_text Hdoc)
        as (data1 & Hrun1 & Hdoc1 & Hids).
      rewrite Hone in Hrun1. injection Hrun1 as Hdata1.
      rewrite patch_misc_file_run, Hfile, apply_misc_patches_app.
      rewrite (apply_misc_patches_unmatched _ _ Hdoc Hbefore), bind_Ok.
      cbn [apply_misc_patches]. rewrite Hone, bind_Ok, Hdata1.
      rewrite (apply_misc_patches_unmatched data1 after Hdoc1); [done|].
      apply forallb_forall. intros p Hp. rewrite forallb_forall in Hafter.
      rewrite (matched_ids data data1 (fst p) Hids). by apply Hafter. }
  intros d pre post item path new_text before after -> Hms Hpre Hitem -> Hbefore
    Hstart Hnone.
  rewrite patch_misc_file_run, Hfile, apply_misc_patches_app.
  rewrite (apply_misc_patches_no_prefix _ _ Hbefore), bind_Ok.
  cbn [apply_misc_patches]. unfold apply_misc_patch. rewrite Hstart.
  cbn [get_method]. rewrite Hms. cbn [from_option id]. rewrite bind_Ok.
  by rewrite (patch_first_raises pre post item _ _ Hpre Hnone Hitem).
Qed.

Lemma patch_misc_file_ignores_unmatched_witness :
  let item1 := [ (KStr "id", JStr "title"); (KStr "text", JStr "Quest") ] in
  let item2 := [ (KStr "id", JStr "bye"); (KStr "text", JStr "Goodbye") ] in
  let item3 := [ (KStr "id", JStr "bye"); (KStr "text", JStr "Farewell") ] in
  let data := JDict [ (KStr "misc_strings",
                       JList [ JDict item1; JDict item2; JDict item3 ]) ] in
  let w := World {[ "rmmvlt_misc.json" := data ]} [] in
  patch_misc_file "rmmvlt_misc.json"
    [ ("misc.gone", "Parti"); ("title", "Quete") ] w = (Ok tt, w)
  /\ patch_misc_file "rmmvlt_misc.json"
       [ ("misc.gone", "Parti"); ("misc.bye", "Au revoir"); ("title", "Quete") ] w
     = (Ok tt,
        World {[ "rmmvlt_misc.json" :=
                   JDict [ (KStr "misc_strings",
                            JList [ JDict item1;
                                    JDict [ (KStr "id", JStr "bye");
                                            (KStr "text", JStr "Au revoir") ];
                                    JDict item3 ]) ] ]} []).
Proof.
  cbv zeta.
  set (data := JDict [ (KStr "misc_strings",
    JList [ JDict [ (KStr "id", JStr "title"); (KStr "text", JStr "Quest") ];
            JDict [ (KStr "id", JStr "bye"); (KStr "text", JStr "Goodbye") ];
            JDict [ (KStr "id", JStr "bye"); (KStr "text", JStr "Farewell") ] ]) ]).
  set (w := World {[ "rmmvlt_misc.json" := data ]} []).
  assert (Hfile : files w !! "rmmvlt_misc.json" = Some data)
    by (vm_compute; reflexivity).
  assert (Hdoc : misc_document data = true) by (vm_compute; reflexivity).
  split.
  - destruct (patch_misc_file_ignores_unmatched w "rmmvlt_misc.json" data
                [ ("misc.gone", "Parti"); ("title", "Quete") ] Hfile)
      as (_ & Hmisc & _).
    destruct (Hmisc Hdoc) as (_ & _ & _ & Hnone & _).
    apply Hnone; vm_compute; reflexivity.
  - destruct (patch_misc_file_ignores_unmatched w "rmmvlt_misc.json" data
                [ ("misc.gone", "Parti"); ("misc.bye", "Au revoir"); ("title", "Quete") ]
                Hfile)
      as (_ & Hmisc & _).
    destruct (Hmisc Hdoc) as (_ & _ & _ & _ & Hfirst).
    rewrite (Hfirst "misc.bye" "Au revoir"
               [ ("misc.gone", "Parti") ] [ ("title", "Quete") ]
               [ JDict [ (KStr "id", JStr "title"); (KStr "text", JStr "Quest") ] ]
               [ JDict [ (KStr "id", JStr "bye"); (KStr "text", JStr "Farewell") ] ]
               [ (KStr "id", JStr "bye"); (KStr "text", JStr "Goodbye") ]);
      vm_compute; reflexivity.
Defined.

(** ** Reading back what was written *)

Lemma getitem_setitem_eq (obj obj' : json) (k : pykey) (v : json) :
  setitem obj k v = Ok obj' -> getitem obj' k = Ok v.
Proof.
  destruct obj as [|b0|z0|num0 den0|s0|l|d], k as [s|n]; simpl; try done.
  - destruct (n <? N.of_nat (length l))%N eqn:Hn; [|done].
    intros [= <-]. simpl. rewrite length_insert, Hn.
    rewrite list_lookup_insert_eq; [done|].
    apply N.ltb_lt in Hn. lia.
  - intros [= <-]. simpl. by rewrite dict_get_set_eq.
  - intros [= <-]. simpl. by rewrite dict_get_set_eq.
Qed.

Lemma getitem_setitem_ne (obj obj' : json) (k k' : pykey) (v : json) :
  setitem obj k v = Ok obj' -> k <> k' -> getitem obj' k' = getitem obj k'.
Proof.
  destruct obj as [|b0|z0|num0 den0|s0|l|d], k as [s|n]; simpl; try done.
  - destruct (n <? N.of_nat (length l))%N eqn:Hn; [|done].
    intros [= <-] Hne. destruct k' as [s'|m]; simpl; [done|].
    rewrite length_insert. destruct (m <? N.of_nat (length l))%N; [|done].
    rewrite list_lookup_insert_ne; [done|].
    intros Heq. apply Hne. f_equal. lia.
  - intros [= <-] Hne. simpl. by rewrite dict_get_set_ne.
  - intros [= <-] Hne. simpl. by rewrite dict_get_set_ne.
Qed.

Lemma getitem_holding_ne (obj child : json) (k k' : pykey) :
  k <> k' -> getitem (holding obj k child) k' = getitem obj k'.
Proof.
  intros Hne. destruct obj as [|b0|z0|num0 den0|s0|l|d], k as [s|n]; simpl; try done.
  - destruct k' as [s'|m]; simpl; [done|].
    rewrite length_insert. destruct (m <? N.of_nat (length l))%N; [|done].
    rewrite list_lookup_insert_ne; [done|].
    intros Heq. apply Hne. f_equal. lia.
  - by rewrite dict_get_set_ne.
  - by rewrite dict_get_set_ne.
Qed.

Lemma getitem_holding_eq (obj child child' : json) (k : pykey) :
  getitem obj k = Ok child -> is_str obj = false ->
  getitem (holding obj k child') k = Ok child'.
Proof.
  destruct obj as [|b0|z0|num0 den0|s0|l|d], k as [s|n]; simpl; try done.
  - destruct (n <? N.of_nat (length l))%N eqn:Hn; [|done].
    intros _ _. rewrite length_insert, Hn.
    rewrite list_lookup_insert_eq; [done|].
    apply N.ltb_lt in Hn. lia.
  - intros _ _. by rewrite dict_get_set_eq.
  - intros _ _. by rewrite dict_get_set_eq.
Qed.

Lemma chars_lookup (s : string) (i : nat) (x : json) :
  chars s !! i = Some x -> is_str x = true.
Proof.
  unfold chars. rewrite list_lookup_fmap.
  destruct (Py.characters s !! i); simpl; [|done]. by intros [= <-].
Qed.

Lemma getitem_str (s : string) (k : pykey) (child : json) :
  getitem (JStr s) k = Ok child -> is_str child = true.
Proof.
  destruct k as [|n]; simpl; [done|].
  destruct (n <? N.of_nat (length (chars s)))%N; [|done].
  destruct (chars s !! N.to_nat n) eqn:Hc; [|done].
  intros [= <-]. by apply chars_lookup in Hc.
Qed.

(** Nothing can be written below a string. *)
Lemma write_path_str (segs : list segment) (v : json) :
  segs <> [] ->
  forall doc, is_str doc = true -> is_ok (write_path doc segs v) = false.
Proof.
  induction segs as [|seg segs IH]; [done|]. intros _ doc Hdoc.
  destruct doc as [| | | |s| |]; try done.
  destruct segs as [|seg' rest].
  - simpl. by destruct (key_of seg).
  - rewrite write_path_cons.
    destruct (getitem (JStr s) (key_of seg)) as [child|e] eqn:Hg; [|done].
    rewrite bind_Ok. apply getitem_str in Hg.
    pose proof (IH ltac:(done) child Hg) as Hw.
    by destruct (write_path child (seg' :: rest) v).
Qed.

(** The value written at a path is read at that path. *)
Lemma read_after_write (segs : list segment) (v : json) :
  segs <> [] ->
  forall doc doc',
    write_path doc segs v = Ok doc' -> read_path doc' segs = Ok v.
Proof.
  induction segs as [|seg segs IH]; [done|]. intros _ doc doc'.
  destruct segs as [|seg' rest].
  - simpl. intros Hset. by rewrite (getitem_setitem_eq _ _ _ _ Hset).
  - rewrite write_path_cons.
    destruct (getitem doc (key_of seg)) as [child|e] eqn:Hg; [|done].
    rewrite bind_Ok.
    destruct (write_path child (seg' :: rest) v) as [child'|e] eqn:Hw; [|done].
    rewrite bind_Ok. intros [= <-].
    assert (Hdoc : is_str doc = false).
    { destruct (is_str doc) eqn:Hs; [|done].
      destruct doc; try done. apply getitem_str in Hg.
      pose proof (write_path_str (seg' :: rest) v ltac:(done) child Hg) as Hf.
      by rewrite Hw in Hf. }
    cbn [read_path]. rewrite (getitem_holding_eq _ _ _ _ Hg Hdoc), bind_Ok.
    by apply (IH ltac:(done) child).
Qed.

(** A path that leaves the written path at some segment reads what it
    read before the write. *)
Lemma read_aside_write (common : list segment) (a b : segment)
    (r1 r2 : list segment) (v : json) :
  key_of a <> key_of b ->
  forall doc doc',
    write_path doc (common ++ a :: r1) v = Ok doc' ->
    read_path doc' (common ++ b :: r2) = read_path doc (common ++ b :: r2).
Proof.
  intros Hne. induction common as [|c common IH]; intros doc doc'.
  - simpl app. destruct r1 as [|a' r1].
    + simpl. intros Hset. by rewrite (getitem_setitem_ne _ _ _ _ _ Hset Hne).
    + rewrite write_path_cons.
      destruct (getitem doc (key_of a)) as [child|e]; [|done]. rewrite bind_Ok.
      destruct (write_path child (a' :: r1) v) as [child'|e]; [|done].
      rewrite bind_Ok. intros [= <-]. cbn [read_path].
      by rewrite (getitem_holding_ne _ _ _ _ Hne).
  - change ((c :: common) ++ a :: r1) with (c :: (common ++ a :: r1)).
    change ((c :: common) ++ b :: r2) with (c :: (common ++ b :: r2)).
    destruct (common ++ a :: r1) as [|s' rest] eqn:Htail.
    { by destruct common. }
    rewrite write_path_cons.
    destruct (getitem doc (key_of c)) as [child|e] eqn:Hg; [|done].
    rewrite bind_Ok.
    destruct (write_path child (s' :: rest) v) as [child'|e] eqn:Hw; [|done].
    rewrite bind_Ok. intros [= <-].
    assert (Hdoc : is_str doc = false).
    { destruct (is_str doc) eqn:Hs; [|done].
      destruct doc; try done. apply getitem_str in Hg.
      pose proof (write_path_str (s' :: rest) v ltac:(done) child Hg) as Hf.
      by rewrite Hw in Hf. }
    cbn [read_path]. rewrite (getitem_holding_eq _ _ _ _ Hg Hdoc), Hg, !bind_Ok.
    by apply IH.
Qed.

(** The patcher is right on the paths it can write: after one turn of
    the loop of [patch_file] the path reads the new text, and every path
    that leaves it at some segment reads what it read before. *)
Lemma apply_patch_round_trip (data data' : json) (path new_text : string) :
  apply_patch data path new_text = Ok data' ->
  read_path data' (segments path) = Ok (JStr new_text)
  /\ forall common a b r1 r2,
       segments path = common ++ a :: r1 ->
       key_of a <> key_of b ->
       read_path data' (common ++ b :: r2) = read_path data (common ++ b :: r2).
Proof.
  intros Hw%apply_patch_Ok_write_path. split.
  - apply (read_after_write (segments path) (JStr new_text)) with (doc := data);
      [|done].
    unfold segments. intros H. apply map_eq_nil in H. by apply split_nonempty in H.
  - intros common a b r1 r2 Hsegs Hne. rewrite Hsegs in Hw.
    by apply (read_aside_write common a b r1 r2 (JStr new_text) Hne data).
Qed.

Lemma write_path_not_str (doc child child' : json) (seg : segment)
    (rest : list segment) (v : json) :
  rest <> [] ->
  getitem doc (key_of seg) = Ok child ->
  write_path child rest v = Ok child' ->
  is_str doc = false.
Proof.
  intros Hrest Hg Hw. destruct (is_str doc) eqn:Hs; [|done].
  destruct doc; try done. apply getitem_str in Hg.
  pose proof (write_path_str rest v Hrest child Hg) as Hf.
  by rewrite Hw in Hf.
Qed.

Lemma segments_nonempty (path : string) : segments path <> [].
Proof.
  unfold segments. intros H. apply map_eq_nil in H. by apply split_nonempty in H.
Qed.

Lemma key_of_inj (a b : segment) : a <> b -> key_of a <> key_of b.
Proof. destruct a, b; simpl; congruence. Qed.

(** Two paths: one continues the other, or is a strict beginning of it,
    or they part at some segment. *)
Lemma paths_compare (q p : list segment) :
  q `prefix_of` p
  \/ (exists n, (n < length q)%nat /\ p = take n q)
  \/ exists common a b r1 r2,
       q = common ++ a :: r1 /\ p = common ++ b :: r2 /\ a <> b.
Proof.
  revert p. induction q as [|a q IH]; intros p.
  - left. by exists p.
  - destruct p as [|b p].
    + right. left. exists 0%nat. split; [simpl; lia | done].
    + destruct (decide (a = b)) as [<-|Hne].
      * destruct (IH p) as [[k ->]|[(n & Hn & ->)|(c & x & y & r1 & r2 & -> & -> & Hxy)]].
        -- left. by exists k.
        -- right. left. exists (S n). split; [simpl; lia | done].
        -- right. right. by exists (a :: c), x, y, r1, r2.
      * right. right. by exists [], a, b, q, p.
Qed.

(** A write keeps the length of every sequence it goes through. *)
Lemma write_path_keeps_lengths (segs : list segment) (v : json) :
  forall (doc doc' : json) (n : nat) (l : list json),
    write_path doc segs v = Ok doc' ->
    (n < length segs)%nat ->
    read_path doc (take n segs) = Ok (JList l) ->
    exists l', read_path doc' (take n segs) = Ok (JList l') /\ length l' = length l.
Proof.
  induction segs as [|seg segs IH]; intros doc doc' n l Hw Hn; [simpl in Hn; lia|].
  destruct n as [|n].
  - simpl. intros [= ->]. destruct segs as [|seg' rest].
    + simpl in Hw. destruct (key_of seg) as [name|i]; [done|]. simpl in Hw.
      destruct (i <? N.of_nat (length l))%N; [|done]. injection Hw as <-.
      eexists. split; [done|]. by rewrite length_insert.
    + rewrite write_path_cons in Hw.
      destruct (getitem (JList l) (key_of seg)) as [child|e]; [|done].
      rewrite bind_Ok in Hw.
      destruct (write_path child (seg' :: rest) v) as [child'|e]; [|done].
      rewrite bind_Ok in Hw. injection Hw as <-.
      destruct (key_of seg) as [name|i]; simpl.
      * by exists l.
      * eexists. split; [done|]. by rewrite length_insert.
  - destruct segs as [|seg' rest]; [simpl in Hn; lia|].
    rewrite write_path_cons in Hw.
    change (take (S n) (seg :: seg' :: rest)) with (seg :: take n (seg' :: rest)).
    cbn [read_path].
    destruct (getitem doc (key_of seg)) as [child|e] eqn:Hg; [|done].
    rewrite bind_Ok in Hw. rewrite bind_Ok.
    destruct (write_path child (seg' :: rest) v) as [child'|e] eqn:Hrec; [|done].
    rewrite bind_Ok in Hw. injection Hw as <-. intros Hread.
    pose proof (write_path_not_str doc child child' seg (seg' :: rest) v
                  ltac:(done) Hg Hrec) as Hdoc.
    rewrite (getitem_holding_eq _ _ _ _ Hg Hdoc), bind_Ok.
    apply (IH child child' n l Hrec); [simpl in *; lia | done].
Qed.

(** A write lets no sequence grow: a path that does not go through the
    written path and read a sequence reads a sequence of that length. *)
Lemma write_path_no_growth (segs p : list segment) (v : json) (doc doc' : json)
    (l : list json) :
  write_path doc segs v = Ok doc' ->
  read_path doc p = Ok (JList l) ->
  ~ segs `prefix_of` p ->
  exists l', read_path doc' p = Ok (JList l') /\ length l' = length l.
Proof.
  intros Hw Hread Hnot.
  destruct (paths_compare segs p)
    as [Hpre|[(n & Hn & ->)|(common & a & b & r1 & r2 & -> & -> & Hab)]].
  - done.
  - by apply (write_path_keeps_lengths segs v doc).
  - exists l. split; [|done].
    by rewrite (read_aside_write common a b r1 r2 v (key_of_inj _ _ Hab) doc doc' Hw).
Qed.

(** C5, refuted: the key "currencyUnit" does not exist in the document,
    yet patching it raises nothing: the key is added and the file is
    saved. *)
Lemma absent_last_key_is_added :
  let data := JDict [ (KStr "gameTitle", JStr "Quest") ] in
  let w := World {[ "data/System.json" := data ]} [] in
  read_path data (segments "currencyUnit") = Raise KeyError /\
  patch_file "data/System.json" [ ("currencyUnit", "Or") ] w
  = (Ok tt,
     World {[ "data/System.json" :=
                JDict [ (KStr "gameTitle", JStr "Quest");
                        (KStr "currencyUnit", JStr "Or") ] ]} []).
Proof. split; vm_compute; reflexivity. Qed.

(** C5, amended: [patch_file] raises and leaves the files as they were,
    the patches applied before in the same file included, exactly when
    the path is not writable in the document: a segment is made of
    digits that are not all decimal (a superscript two), or a segment
    before the last does not resolve (a missing key, an index out of
    range, a key applied to a sequence, any subscript of a number,
    boolean or null), or the walk ends at a sequence and the last
    segment is an index out of range or a key, or the walk ends at a
    value that is neither a sequence nor a mapping.  A writable path is
    written: the patched document reads the new text at the path, so a
    last segment that is a key absent from a mapping has been added to
    it rather than reported; every sequence that is not at or below the
    path has the length it had; and when the patches after it apply
    too, the file is saved with all of them. *)
Theorem patch_file_raises_on_unwritable_path
    (w : world) (file_path : string) (data data1 : json)
    (pre post : list (string * string)) (path new_text : string) :
  files w !! file_path = Some data ->
  apply_patches data pre = Ok data1 ->
  (writable data1 path = false ->
     exists e : exn,
       patch_file file_path (pre ++ (path, new_text) :: post) w = (Raise e, w))
  /\ (writable data1 path = true ->
      exists data2 : json,
        apply_patch data1 path new_text = Ok data2
        /\ read_path data2 (segments path) = Ok (JStr new_text)
        /\ (forall (p : list segment) (l : list json),
              read_path data1 p = Ok (JList l) ->
              ~ segments path `prefix_of` p ->
              exists l' : list json,
                read_path data2 p = Ok (JList l') /\ length l' = length l)
        /\ (forall data3 : json,
              apply_patches data2 post = Ok data3 ->
              patch_file file_path (pre ++ (path, new_text) :: post) w
              = (Ok tt,
                 World (<[file_path := dump_load data3]> (files w)) (stdout w)))).
Proof.
  intros Hfile Hpre. rewrite <- !(is_ok_apply_patch data1 path new_text).
  split; intros Hw.
  - rewrite patch_file_run, Hfile, apply_patches_app, Hpre, bind_Ok. simpl.
    destruct (apply_patch data1 path new_text) as [d|e]; [done|]. by exists e.
  - destruct (apply_patch data1 path new_text) as [data2|e] eqn:Hrun; [|done].
    exists data2. split; [done|].
    pose proof (apply_patch_Ok_write_path _ _ _ _ Hrun) as Hwrite.
    split; [|split].
    + by apply (read_after_write (segments path) (JStr new_text)
                  (segments_nonempty path) data1).
    + intros p l Hread Hnot.
      by apply (write_path_no_growth (segments path) p (JStr new_text) data1).
    + intros data3 Hpost.
      rewrite patch_file_run, Hfile, apply_patches_app, Hpre, bind_Ok. simpl.
      by rewrite Hrun, bind_Ok, Hpost.
Qed.

Lemma patch_file_raises_on_unwritable_path_witness :
  let items := JList [ JNull; JDict [ (KStr "name", JStr "Potion") ] ] in
  let w := World {[ "data/Items.json" := items ]} [] in
  (exists e : exn,
     patch_file "data/Items.json"
       [ ("1.name", "Trank"); ("2.name", "Schwert"); ("1.description", "Heilt") ] w
     = (Raise e, w))
  /\ patch_file "data/Items.json"
       [ ("1.name", "Trank"); ("1.description", "Heilt"); ("0", "leer") ] w
     = (Ok tt,
        World {[ "data/Items.json" :=
                   JList [ JStr "leer";
                           JDict [ (KStr "name", JStr "Trank");
                                   (KStr "description", JStr "Heilt") ] ] ]} []).
Proof.
  cbv zeta. split.
  - refine (proj1 (patch_file_raises_on_unwritable_path
      (World {[ "data/Items.json" :=
                  JList [ JNull; JDict [ (KStr "name", JStr "Potion") ] ] ]} [])
      "data/Items.json"
      (JList [ JNull; JDict [ (KStr "name", JStr "Potion") ] ])
      (JList [ JNull; JDict [ (KStr "name", JStr "Trank") ] ])
      [ ("1.name", "Trank") ] [ ("1.description", "Heilt") ]
      "2.name" "Schwert" _ _) _).
    + vm_compute. reflexivity.
    + vm_compute. reflexivity.
    + vm_compute. reflexivity.
  - set (w := World {[ "data/Items.json" :=
                  JList [ JNull; JDict [ (KStr "name", JStr "Potion") ] ] ]} []).
    assert (Hfile : files w !! "data/Items.json"
                    = Some (JList [ JNull; JDict [ (KStr "name", JStr "Potion") ] ]))
      by (vm_compute; reflexivity).
    assert (Hpre : apply_patches
                     (JList [ JNull; JDict [ (KStr "name", JStr "Potion") ] ])
                     [ ("1.name", "Trank") ]
                   = Ok (JList [ JNull; JDict [ (KStr "name", JStr "Trank") ] ]))
      by (vm_compute; reflexivity).
    assert (Hw : writable (JList [ JNull; JDict [ (KStr "name", JStr "Trank") ] ])
                   "1.description" = true)
      by (vm_compute; reflexivity).
    destruct (proj2 (patch_file_raises_on_unwritable_path w "data/Items.json" _ _
                       [ ("1.name", "Trank") ] [ ("0", "leer") ]
                       "1.description" "Heilt" Hfile Hpre) Hw)
      as (data2 & Hrun & _ & _ & Hsave).
    assert (Hdata2 : data2 = JList [ JNull;
                       JDict [ (KStr "name", JStr "Trank");
                               (KStr "description", JStr "Heilt") ] ]).
    { assert (H : apply_patch (JList [ JNull; JDict [ (KStr "name", JStr "Trank") ] ])
                    "1.description" "Heilt"
                  = Ok (JList [ JNull;
                       JDict [ (KStr "name", JStr "Trank");
                               (KStr "description", JStr "Heilt") ] ]))
        by (vm_compute; reflexivity).
      congruence. }
    change [ ("1.name", "Trank"); ("1.description", "Heilt"); ("0", "leer") ]
      with ([ ("1.name", "Trank") ] ++ [ ("1.description", "Heilt"); ("0", "leer") ]).
    rewrite (Hsave (JList [ JStr "leer";
                            JDict [ (KStr "name", JStr "Trank");
                                    (KStr "description", JStr "Heilt") ] ])).
    + vm_compute. reflexivity.
    + rewrite Hdata2. vm_compute. reflexivity.
Defined.

(** ** Patching twice, and what a patch leaves alone *)

Lemma setitem_idem (obj obj' : json) (k : pykey) (v : json) :
  setitem obj k v = Ok obj' -> setitem obj' k v = Ok obj'.
Proof.
  destruct obj as [|b0|z0|num0 den0|s0|l|d], k as [s|n]; simpl; try done.
  - destruct (n <? N.of_nat (length l))%N eqn:Hn; [|done].
    intros [= <-]. simpl. by rewrite length_insert, Hn, list_insert_insert_eq.
  - intros [= <-]. simpl. by rewrite dict_set_idem.
  - intros [= <-]. simpl. by rewrite dict_set_idem.
Qed.

Lemma holding_idem (obj child : json) (k : pykey) :
  holding (holding obj k child) k child = holding obj k child.
Proof.
  destruct obj as [|b0|z0|num0 den0|s0|l|d], k as [s|n]; simpl; try done.
  - by rewrite list_insert_insert_eq.
  - by rewrite dict_set_idem.
  - by rewrite dict_set_idem.
Qed.

Lemma write_path_idem (segs : list segment) (v : json) :
  segs <> [] ->
  forall doc doc',
    write_path doc segs v = Ok doc' -> write_path doc' segs v = Ok doc'.
Proof.
  induction segs as [|seg segs IH]; [done|]. intros _ doc doc'.
  destruct segs as [|seg' rest].
  - simpl. apply setitem_idem.
  - rewrite !write_path_cons.
    destruct (getitem doc (key_of seg)) as [child|e] eqn:Hg; [|done].
    rewrite bind_Ok.
    destruct (write_path child (seg' :: rest) v) as [child'|e] eqn:Hw; [|done].
    rewrite bind_Ok. intros [= <-].
    pose proof (write_path_not_str doc child child' seg (seg' :: rest) v
                  ltac:(done) Hg Hw) as Hdoc.
    rewrite (getitem_holding_eq _ _ _ _ Hg Hdoc), bind_Ok.
    rewrite (IH ltac:(done) child child' Hw), bind_Ok.
    by rewrite holding_idem.
Qed.

(** X1. A patch that has been applied can be applied again: the second
    application returns the document the first one returned. *)
Theorem apply_patch_idempotent (data data' : json) (path new_text : string) :
  apply_patch data path new_text = Ok data' ->
  apply_patch data' path new_text = Ok data'.
Proof.
  intros Hrun. pose proof (apply_patch_well_formed _ _ _ _ Hrun) as Hwf.
  rewrite (apply_patch_write_path data _ _ Hwf) in Hrun.
  rewrite (apply_patch_write_path data' _ _ Hwf).
  by apply (write_path_idem _ _ (segments_nonempty path) data).
Qed.

Lemma apply_patch_idempotent_witness :
  let items := JList [ JNull; JDict [ (KStr "name", JStr "Potion") ] ] in
  let patched := JList [ JNull; JDict [ (KStr "name", JStr "Trank") ] ] in
  apply_patch items "1.name" "Trank" = Ok patched
  /\ apply_patch patched "1.name" "Trank" = Ok patched.
Proof.
  cbv zeta.
  assert (H : apply_patch (JList [ JNull; JDict [ (KStr "name", JStr "Potion") ] ])
                "1.name" "Trank"
              = Ok (JList [ JNull; JDict [ (KStr "name", JStr "Trank") ] ]))
    by (vm_compute; reflexivity).
  split; [exact H | exact (apply_patch_idempotent _ _ _ _ H)].
Defined.

(** X2. After one turn of the loop of [patch_file] that returns, the
    patched path reads the new text, and every path that leaves the
    patched path at some segment reads what it read before the patch
    (the same value or the same exception). *)
Theorem patch_changes_its_path_only (data data' : json) (path new_text : string) :
  apply_patch data path new_text = Ok data' ->
  read_path data' (segments path) = Ok (JStr new_text)
  /\ forall (common : list segment) (a b : segment) (r1 r2 : list segment),
       segments path = common ++ a :: r1 ->
       key_of a <> key_of b ->
       read_path data' (common ++ b :: r2) = read_path data (common ++ b :: r2).
Proof. apply apply_patch_round_trip. Qed.

Lemma patch_changes_its_path_only_witness :
  let items :=
    JList [ JNull;
            JDict [ (KStr "name", JStr "Potion"); (KStr "description", JStr "Heals") ] ] in
  exists data',
    apply_patch items "1.name" "Trank" = Ok data'
    /\ read_path data' [ Index 1; Field "name" ] = Ok (JStr "Trank")
    /\ read_path data' [ Index 1; Field "description" ] = Ok (JStr "Heals").
Proof.
  cbv zeta. eexists.
  assert (H : apply_patch
      (JList [ JNull;
               JDict [ (KStr "name", JStr "Potion");
                       (KStr "description", JStr "Heals") ] ])
      "1.name" "Trank"
    = Ok (JList [ JNull;
                  JDict [ (KStr "name", JStr "Trank");
                          (KStr "description", JStr "Heals") ] ]))
    by (vm_compute; reflexivity).
  split; [exact H|].
  destruct (patch_changes_its_path_only _ _ _ _ H) as [Hread Haside].
  split; [exact Hread|].
  change [ Index 1; Field "description" ]
    with ([ Index 1 ] ++ Field "description" :: []).
  rewrite (Haside [ Index 1 ] (Field "name") (Field "description") [] []);
    [vm_compute; reflexivity | vm_compute; reflexivity | discriminate].
Defined.

(** X3. The path [process_map_files] records for the display name of a
    numbered map cannot be patched: for every map id made of digits and
    every document that is a mapping with string keys, as [json.load]
    returns a map file, the patch raises, KeyError when [int] reads the
    digits and ValueError when it does not (a superscript); for every
    map id made of ASCII digits the patch raises KeyError. *)
Theorem display_name_patch_always_raises
    (d : list (pykey * json)) (map_id new_text : string) :
  Py.isdigit map_id = true ->
  Forall (fun kv => exists s, fst kv = KStr s) d ->
  apply_patch (JDict d) (map_id +:+ ".displayName") new_text
  = Raise (match Py.int map_id with Some _ => KeyError | None => ValueError end)
  /\ (Py.isascii map_id = true ->
      apply_patch (JDict d) (map_id +:+ ".displayName") new_text = Raise KeyError).
Proof.
  intros Hdigit Hkeys.
  pose proof (display_name_path_raises d map_id new_text Hdigit Hkeys) as Hraise.
  split; [exact Hraise|]. intros Hascii. rewrite Hraise.
  by destruct (int_ascii_digits _ Hascii Hdigit) as [n ->].
Qed.

Lemma display_name_patch_always_raises_witness :
  apply_patch (JDict [ (KStr "displayName", JStr "Town"); (KStr "events", JList []) ])
    ("042" +:+ ".displayName") "Ville" = Raise KeyError.
Proof.
  refine (proj2 (display_name_patch_always_raises _ "042" "Ville" _ _) _).
  - vm_compute. reflexivity.
  - repeat constructor; eexists; reflexivity.
  - vm_compute. reflexivity.
Defined.

(** ** What the fingerprint separates *)

Lemma app_assoc_str (a b c : string) : (a +:+ b) +:+ c = a +:+ (b +:+ c).
Proof.
  induction a as [|x a IH]; [done|]. rewrite !app_cons. by rewrite IH.
Qed.

(** X4. Each component is told apart in the hashed string when the four
    others are the same: the strings hashed for two texts, two files or
    two paths are equal only if the texts, files or paths are, and those
    hashed for two event ids or two map ids only if their printed forms
    are. *)
Theorem hashed_string_separates_each_component
    (text file_path context_path : string) (event_id map_id : option string) :
  (forall text', fingerprint_string text file_path context_path event_id map_id
                 = fingerprint_string text' file_path context_path event_id map_id ->
                 text = text')
  /\ (forall file_path', fingerprint_string text file_path context_path event_id map_id
                 = fingerprint_string text file_path' context_path event_id map_id ->
                 file_path = file_path')
  /\ (forall context_path', fingerprint_string text file_path context_path event_id map_id
                 = fingerprint_string text file_path context_path' event_id map_id ->
                 context_path = context_path')
  /\ (forall event_id', fingerprint_string text file_path context_path event_id map_id
                 = fingerprint_string text file_path context_path event_id' map_id ->
                 Py.str_of_optional event_id = Py.str_of_optional event_id')
  /\ (forall map_id', fingerprint_string text file_path context_path event_id map_id
                 = fingerprint_string text file_path context_path event_id map_id' ->
                 Py.str_of_optional map_id = Py.str_of_optional map_id').
Proof.
  repeat split.
  - intros text'. rewrite !fingerprint_string_unfold. apply app_inj_r.
  - intros file_path'. rewrite !fingerprint_string_unfold. intros H.
    do 2 apply app_inj_l in H. by apply app_inj_r in H.
  - intros context_path'. rewrite !fingerprint_string_unfold. intros H.
    do 4 apply app_inj_l in H. by apply app_inj_r in H.
  - intros event_id'. apply fingerprint_string_event_inj.
  - intros map_id'. apply fingerprint_string_map_inj.
Qed.

Lemma hashed_string_separates_each_component_witness :
  fingerprint_string "Hello" "data/Map001.json" "events.1.pages.0.list.0.parameters.0"
    (Some "1") (Some "001")
  = fingerprint_string "Hello" "data/Map001.json" "events.1.pages.0.list.0.parameters.0"
    (Some "1") (Some "001")
  /\ "data/Map001.json" = "data/Map001.json".
Proof.
  split; [reflexivity|].
  destruct (hashed_string_separates_each_component "Hello" "data/Map001.json"
    "events.1.pages.0.list.0.parameters.0" (Some "1") (Some "001"))
    as (_ & Hfile & _).
  apply Hfile. reflexivity.
Defined.

(** X5. The separator does not separate: a text that ends where a file
    name begins can give up its end to the file name.  For all strings
    the text [a||b] in file [c] and the text [a] in file [b||c] have the
    same fingerprint, and so for the other neighbouring components. *)
Theorem separator_inside_a_component_collides
    (a b c context_path : string) (event_id map_id : option string)
    (self : processor) :
  generate_fingerprint (a +:+ "||" +:+ b) c context_path event_id map_id self
  = generate_fingerprint a (b +:+ "||" +:+ c) context_path event_id map_id self
  /\ generate_fingerprint a (b +:+ "||" +:+ c) context_path event_id map_id self
     = generate_fingerprint a b (c +:+ "||" +:+ context_path) event_id map_id self.
Proof.
  assert (H1 : fingerprint_string (a +:+ "||" +:+ b) c context_path event_id map_id
             = fingerprint_string a (b +:+ "||" +:+ c) context_path event_id map_id).
  { rewrite !fingerprint_string_unfold. by rewrite !app_assoc_str. }
  assert (H2 : fingerprint_string a (b +:+ "||" +:+ c) context_path event_id map_id
             = fingerprint_string a b (c +:+ "||" +:+ context_path) event_id map_id).
  { rewrite !fingerprint_string_unfold. by rewrite !app_assoc_str. }
  unfold generate_fingerprint. by rewrite H1, H2.
Qed.

(** ** The patches grouped by file *)

Lemma dict_set_nodup {K V} `{EqDecision K} (d : list (K * V)) k v :
  NoDup (dict_keys d) -> NoDup (dict_keys (dict_set k v d)).
Proof.
  intros Hnd. destruct (dict_get k d) as [x|] eqn:Hk.
  - rewrite dict_keys_set_present; [done | by rewrite Hk].
  - rewrite (dict_keys_set_absent _ _ _ Hk). apply NoDup_app. split; [done|].
    split; [|apply NoDup_singleton].
    intros k' Hin Hk'. apply list_elem_of_singleton in Hk' as ->.
    by apply dict_get_None_keys in Hk.
Qed.

Lemma dict_get_elem {K V} `{EqDecision K} (d : list (K * V)) k v :
  NoDup (dict_keys d) -> (k, v) ∈ d -> dict_get k d = Some v.
Proof.
  unfold dict_keys. induction d as [|[k' v'] d IH]; simpl; intros Hnd Hin.
  - by apply elem_of_nil in Hin.
  - apply NoDup_cons in Hnd as [Hk' Hnd].
    apply elem_of_cons in Hin as [[= -> ->]|Hin].
    + by rewrite decide_True.
    + rewrite decide_False; [by apply IH|].
      intros ->. apply Hk'. apply list_elem_of_fmap. by exists (k, v).
Qed.

Lemma dict_set_Forall {K V} `{EqDecision K} (P : V -> Prop) (d : list (K * V)) k v :
  P v -> Forall (fun kv => P (snd kv)) d ->
  Forall (fun kv => P (snd kv)) (dict_set k v d).
Proof.
  intros Hv Hd. apply Forall_forall. intros [k' v'] Hin.
  apply dict_set_elem in Hin as [[-> ->]|Hin]; [done|].
  rewrite Forall_forall in Hd. by apply (Hd (k', v')).
Qed.

Lemma dict_get_Forall {K V} `{EqDecision K} (P : V -> Prop) (d : list (K * V)) k v :
  Forall (fun kv => P (snd kv)) d -> dict_get k d = Some v -> P v.
Proof.
  intros Hd Hk. apply dict_get_Some_elem in Hk.
  rewrite Forall_forall in Hd. by apply (Hd (k, v)).
Qed.

Lemma group_entry_once language file_patches item :
  grouped_once file_patches -> grouped_once (group_entry language file_patches item).
Proof.
  intros [Hfiles Hpaths]. unfold group_entry.
  destruct (dict_get language (default [] (e_translations (snd item)))) as [t|];
    [|done].
  set (f := c_file (e_context (snd item))).
  set (p := c_path (e_context (snd item))).
  set (fp0 := if dict_mem f file_patches then file_patches
              else dict_set f [] file_patches).
  assert (H0 : grouped_once fp0).
  { unfold fp0. destruct (dict_mem f file_patches); [done|]. split.
    - by apply dict_set_nodup.
    - apply (dict_set_Forall (fun ps => NoDup (dict_keys ps))); [constructor | done]. }
  destruct H0 as [Hf0 Hp0]. split.
  - by apply dict_set_nodup.
  - apply (dict_set_Forall (fun ps => NoDup (dict_keys ps))); [|done].
    apply dict_set_nodup. destruct (dict_get f fp0) as [ps|] eqn:Hps; simpl.
    + apply (dict_get_Forall (fun ps => NoDup (dict_keys ps)) _ _ _ Hp0 Hps).
    + constructor.
Qed.

(** X6. In the patches [patch_all_files] groups, every file occurs once
    and, within a file, every path occurs once: a patch run reads and
    writes a file at most once and assigns a path at most once. *)
Theorem each_file_is_grouped_once (self : patcher) :
  NoDup (dict_keys (group_patches self))
  /\ Forall (fun group => NoDup (dict_keys (snd group))) (group_patches self).
Proof.
  unfold group_patches.
  change (grouped_once (fold_left (group_entry (language self))
                                  (p_translation_map self) [])).
  assert (H : grouped_once []) by (split; constructor).
  revert H. generalize (@nil (string * list (string * string))).
  induction (p_translation_map self) as [|item tm IH]; intros acc Hacc; [done|].
  simpl. apply IH. by apply group_entry_once.
Qed.

Lemma last_of_snoc {A} (l : list A) (x : A) : last_of (l ++ [x]) = Some x.
Proof. unfold last_of. rewrite map_app. simpl. apply last_last. Qed.

Lemma group_patches_snoc language tm item :
  group_patches (Patcher language (tm ++ [item]))
  = group_entry language (group_patches (Patcher language tm)) item.
Proof. unfold group_patches. simpl. by rewrite fold_left_app. Qed.

(** The patch of a path of a file after one more entry is grouped. *)
Lemma group_entry_lookup language file_patches item file_path context_path :
  dict_get context_path
    (default [] (dict_get file_path (group_entry language file_patches item)))
  = match translation_of language (snd item) with
    | Some t =>
        if bool_decide (c_file (e_context (snd item)) = file_path)
           && bool_decide (c_path (e_context (snd item)) = context_path)
        then Some t
        else dict_get context_path (default [] (dict_get file_path file_patches))
    | None => dict_get context_path (default [] (dict_get file_path file_patches))
    end.
Proof.
  unfold group_entry, translation_of.
  destruct (dict_get language (default [] (e_translations (snd item)))) as [t|];
    [|done].
  set (f := c_file (e_context (snd item))).
  set (p := c_path (e_context (snd item))).
  set (fp0 := if dict_mem f file_patches then file_patches
              else dict_set f [] file_patches).
  assert (H0 : forall f', default [] (dict_get f' fp0)
                          = default [] (dict_get f' file_patches)).
  { intros f'. unfold fp0, dict_mem.
    destruct (dict_get f file_patches) as [ps|] eqn:Hf; [done|].
    destruct (decide (f = f')) as [<-|Hne].
    - by rewrite dict_get_set_eq, Hf.
    - by rewrite dict_get_set_ne. }
  case_bool_decide as Hfile; simpl.
  - subst file_path. rewrite dict_get_set_eq. simpl.
    case_bool_decide as Hpath.
    + subst context_path. by rewrite dict_get_set_eq.
    + rewrite dict_get_set_ne by done. by rewrite H0.
  - rewrite dict_get_set_ne by done. by rewrite H0.
Qed.

(** X7. When several entries of the translation map are recorded for the
    same path of the same file, the patch applied at that path is the
    translation of the last of them in the order of the map; a path no
    entry with a translation is recorded for has no patch. *)
Theorem last_entry_for_a_path_wins
    (language : string) (tm : tmap) (file_path context_path : string) :
  dict_get context_path
    (default [] (dict_get file_path (group_patches (Patcher language tm))))
  = last_of (translations_at language file_path context_path tm).
Proof.
  induction tm as [|item tm IH] using rev_ind; [done|].
  rewrite group_patches_snoc, group_entry_lookup, IH.
  unfold translations_at. rewrite omap_app. simpl.
  destruct (translation_of language (snd item)) as [t|].
  - destruct (bool_decide (c_file (e_context (snd item)) = file_path)
              && bool_decide (c_path (e_context (snd item)) = context_path)).
    + simpl. by rewrite last_of_snoc.
    + simpl. by rewrite app_nil_r.
  - destruct (bool_decide (c_file (e_context (snd item)) = file_path)
              && bool_decide (c_path (e_context (snd item)) = context_path));
      simpl; by rewrite app_nil_r.
Qed.

Lemma group_patches_none language tm :
  Forall (fun item => translation_of language (snd item) = None) tm ->
  group_patches (Patcher language tm) = [].
Proof.
  unfold group_patches. simpl. intros H.
  induction H as [|item tm Hitem _ IH]; [done|].
  simpl. unfold group_entry at 2. unfold translation_of in Hitem. by rewrite Hitem.
Qed.

(** X8. A patch run for a language no entry has a translation for reads
    and writes no file: [main] prints its first line and the lines of
    success, whatever the files are. *)
Theorem patch_without_translations_touches_nothing
    (tm : tmap) (language : string) (w : world) :
  Forall (fun item => translation_of language (snd item) = None) tm ->
  main_patch tm language w
  = (Ok tt,
     World (files w)
       (stdout w ++
          [ Print ("[>] patching project with language: " +:+ language);
            Print (String "010" "[@] patching complete!");
            Print "[@] operation success";
            Print "" ])).
Proof.
  intros H. unfold main_patch, try_except, patch_all_files.
  rewrite (group_patches_none _ _ H).
  unfold print_success, print, modify, mbind, exec_bind, mret, exec_ret. simpl.
  by rewrite <- !app_assoc.
Qed.

Lemma patch_without_translations_touches_nothing_witness :
  let tm :=
    [ ("a301f9519cc955a2",
       Entry "Harold" (Context "data/Actors.json" "1.name" None None)
             (Some [ ("fr", "Harald") ]));
      ("1a14249056ea0d0f",
       Entry "Potion" (Context "data/Items.json" "1.name" None None) None) ] in
  let w := World {[ "data/Actors.json" :=
                      JList [ JNull; JDict [ (KStr "name", JStr "Harold") ] ] ]} [] in
  files (snd (main_patch tm "de" w)) = files w.
Proof.
  cbv zeta.
  rewrite patch_without_translations_touches_nothing; [reflexivity|].
  repeat constructor.
Defined.

(** ** What an import changes *)

Lemma merge_translation_merge_map language text st fp :
  i_translation_map (merge_translation language text st fp)
  = merge_map language text (i_translation_map st) fp.
Proof.
  unfold merge_translation, merge_map.
  by destruct (dict_get fp (i_translation_map st)).
Qed.

Lemma run_merges_snoc language ms m st :
  run_merges language (ms ++ [m]) st
  = merge_translation language (fst m) (run_merges language ms st) (snd m).
Proof. unfold run_merges. by rewrite fold_left_app. Qed.

Lemma run_merges_merge_map language ms st :
  i_translation_map (run_merges language ms st)
  = fold_left (fun tm m => merge_map language (fst m) tm (snd m)) ms
              (i_translation_map st).
Proof.
  revert st. induction ms as [|m ms IH]; intros st; [done|].
  change (run_merges language (m :: ms) st)
    with (run_merges language ms (merge_translation language (fst m) st (snd m))).
  by rewrite IH, merge_translation_merge_map.
Qed.

Lemma import_map rows tm output_map_file language :
  fst (excel_to_translation_map rows tm output_map_file language)
  = fold_left (fun tm m => merge_map language (fst m) tm (snd m)) (merges rows) tm.
Proof.
  unfold excel_to_translation_map. cbn [fst].
  by rewrite import_rows_merges, run_merges_merge_map.
Qed.

Lemma same_but_language_refl language e : same_but_language language e e.
Proof. by repeat split. Qed.

Lemma same_but_language_set language text e :
  same_but_language language e (set_translation language text e).
Proof.
  repeat split. intros other Hne. unfold translation_of, set_translation. simpl.
  by rewrite dict_get_set_ne.
Qed.

Lemma same_but_language_trans language e1 e2 e3 :
  same_but_language language e1 e2 -> same_but_language language e2 e3 ->
  same_but_language language e1 e3.
Proof.
  intros (Ho & Hc & Ht) (Ho' & Hc' & Ht'). repeat split; try congruence.
  intros other Hne. rewrite Ht', Ht; done.
Qed.

(** The entry of a key after one merge. *)
Lemma merge_map_lookup language text tm fp k :
  dict_get k (merge_map language text tm fp)
  = if bool_decide (fp = k)
    then set_translation language text <$> dict_get k tm
    else dict_get k tm.
Proof.
  unfold merge_map. case_bool_decide as Hk.
  - subst k. destruct (dict_get fp tm) as [e|] eqn:He; simpl.
    + by rewrite dict_get_set_eq.
    + by rewrite He.
  - destruct (dict_get fp tm) as [e|]; [|done]. by rewrite dict_get_set_ne.
Qed.

Lemma merge_map_keys language text tm fp :
  dict_keys (merge_map language text tm fp) = dict_keys tm.
Proof.
  unfold merge_map. destruct (dict_get fp tm) as [e|] eqn:He; [|done].
  apply dict_keys_set_present. rewrite He. eauto.
Qed.

(** X9. An import changes nothing but the translations of its language:
    every entry of the map it writes is the entry of the same key in the
    map it read, with the same original text, the same context and the
    same translation for every other language, and the keys are the
    same, in the same order. *)
Theorem import_changes_one_language_only
    (rows : list row) (tm : tmap) (output_map_file language : string) :
  let tm' := fst (excel_to_translation_map rows tm output_map_file language) in
  dict_keys tm' = dict_keys tm
  /\ forall (k : string) (e' : entry),
       dict_get k tm' = Some e' ->
       exists e : entry,
         dict_get k tm = Some e /\ same_but_language language e e'.
Proof.
  cbv zeta. rewrite import_map. generalize (merges rows). intros ms.
  induction ms as [|m ms IH] using rev_ind.
  - split; [done|]. intros k e' He. exists e'. split; [done|].
    apply same_but_language_refl.
  - rewrite fold_left_app. simpl. destruct IH as [Hkeys IH]. split.
    + by rewrite merge_map_keys.
    + intros k e'. rewrite merge_map_lookup.
      case_bool_decide as Hk.
      * destruct (dict_get k _) as [e1|] eqn:He1; [|done]. simpl. intros [= <-].
        destruct (IH k e1 He1) as (e & He & Hsame). exists e. split; [done|].
        eapply same_but_language_trans; [exact Hsame|].
        apply same_but_language_set.
      * apply IH.
Qed.

Lemma import_changes_one_language_only_witness :
  let tm :=
    [ ("a301f9519cc955a2",
       Entry "Harold" (Context "data/Actors.json" "1.name" None None)
             (Some [ ("de", "Harald") ])) ] in
  let tm' := fst (excel_to_translation_map
                    [ ("a301f9519cc955a2", Some "Aroldo") ] tm "rmmvlt.json" "it") in
  exists e' : entry,
    dict_get "a301f9519cc955a2" tm' = Some e'
    /\ translation_of "de" e' = Some "Harald"
    /\ translation_of "it" e' = Some "Aroldo"
    /\ e_original e' = "Harold".
Proof.
  cbv zeta. eexists.
  assert (H : dict_get "a301f9519cc955a2"
      (fst (excel_to_translation_map [ ("a301f9519cc955a2", Some "Aroldo") ]
              [ ("a301f9519cc955a2",
                 Entry "Harold" (Context "data/Actors.json" "1.name" None None)
                       (Some [ ("de", "Harald") ])) ] "rmmvlt.json" "it"))
    = Some (Entry "Harold" (Context "data/Actors.json" "1.name" None None)
                  (Some [ ("de", "Harald"); ("it", "Aroldo") ])))
    by (vm_compute; reflexivity).
  split; [exact H|].
  destruct (import_changes_one_language_only
              [ ("a301f9519cc955a2", Some "Aroldo") ]
              [ ("a301f9519cc955a2",
                 Entry "Harold" (Context "data/Actors.json" "1.name" None None)
                       (Some [ ("de", "Harald") ])) ] "rmmvlt.json" "it")
    as [_ Hentry].
  destruct (Hentry _ _ H) as (e & He & Ho & Hc & Ht).
  vm_compute in He. injection He as <-.
  split; [|split].
  - rewrite Ht; [reflexivity | discriminate].
  - reflexivity.
  - exact Ho.
Defined.

Lemma texts_for_snoc fp ms m :
  texts_for fp (ms ++ [m])
  = texts_for fp ms ++ (if bool_decide (snd m = fp) then [fst m] else []).
Proof.
  unfold texts_for. rewrite List.filter_app, map_app. simpl.
  by destruct (bool_decide (snd m = fp)).
Qed.

(** X10. The last cell wins.  After an import, the translation of a
    known fingerprint for the imported language is the text of the last
    filled cell of the sheet whose row names the fingerprint; a
    fingerprint no filled row names keeps the translation it had. *)
Theorem last_cell_for_a_fingerprint_wins
    (rows : list row) (tm : tmap) (output_map_file language fingerprint : string)
    (e : entry) :
  dict_get fingerprint tm = Some e ->
  exists e' : entry,
    dict_get fingerprint
      (fst (excel_to_translation_map rows tm output_map_file language)) = Some e'
    /\ translation_of language e'
       = match last_of (texts_for fingerprint (merges rows)) with
         | Some t => Some t
         | None => translation_of language e
         end.
Proof.
  intros He. rewrite import_map. generalize (merges rows). intros ms.
  induction ms as [|m ms IH] using rev_ind.
  - exists e. by split.
  - destruct IH as (e1 & He1 & Ht1). rewrite fold_left_app. simpl.
    rewrite merge_map_lookup, texts_for_snoc, He1.
    case_bool_decide as Hk.
    + simpl. eexists. split; [reflexivity|]. rewrite last_of_snoc.
      unfold translation_of, set_translation. simpl. by rewrite dict_get_set_eq.
    + exists e1. split; [done|]. by rewrite app_nil_r.
Qed.

Lemma last_cell_for_a_fingerprint_wins_witness :
  let tm :=
    [ ("a301f9519cc955a2",
       Entry "Harold" (Context "data/Actors.json" "1.name" None None) None) ] in
  let rows :=
    [ ("a301f9519cc955a2", Some "Harald");
      ("ffffffffffffffff; a301f9519cc955a2", Some "Harry");
      ("a301f9519cc955a2", None) ] in
  exists e' : entry,
    dict_get "a301f9519cc955a2"
      (fst (excel_to_translation_map rows tm "rmmvlt.json" "de")) = Some e'
    /\ translation_of "de" e' = Some "Harry".
Proof.
  cbv zeta.
  destruct (last_cell_for_a_fingerprint_wins
              [ ("a301f9519cc955a2", Some "Harald");
                ("ffffffffffffffff; a301f9519cc955a2", Some "Harry");
                ("a301f9519cc955a2", None) ]
              [ ("a301f9519cc955a2",
                 Entry "Harold" (Context "data/Actors.json" "1.name" None None)
                       None) ]
              "rmmvlt.json" "de" "a301f9519cc955a2"
              (Entry "Harold" (Context "data/Actors.json" "1.name" None None) None)
              eq_refl) as (e' & He' & Ht).
  exists e'. split; [exact He'|]. rewrite Ht. vm_compute. reflexivity.
Defined.

(** ** Importing a sheet again *)

Lemma dict_set_set {K V} `{EqDecision K} (d : list (K * V)) k v1 v2 :
  dict_set k v2 (dict_set k v1 d) = dict_set k v2 d.
Proof.
  induction d as [|[k' v'] d IH]; simpl.
  - by rewrite decide_True.
  - destruct (decide (k' = k)) as [->|Hne]; simpl.
    + by rewrite decide_True.
    + rewrite decide_False by done. by rewrite IH.
Qed.

Lemma dict_set_comm {K V} `{EqDecision K} (d : list (K * V)) k1 k2 v1 v2 :
  k1 <> k2 -> is_Some (dict_get k1 d) -> is_Some (dict_get k2 d) ->
  dict_set k1 v1 (dict_set k2 v2 d) = dict_set k2 v2 (dict_set k1 v1 d).
Proof.
  intros Hne. induction d as [|[k' v'] d IH]; simpl.
  - by intros [? ?].
  - destruct (decide (k' = k1)) as [H1|H1], (decide (k' = k2)) as [H2|H2]; simpl.
    + congruence.
    + intros _ _. by rewrite decide_True, decide_False.
    + intros _ _. by rewrite decide_False, decide_True.
    + intros H1' H2'. rewrite !decide_False by done. by rewrite IH.
Qed.

Lemma set_translation_set language t1 t2 e :
  set_translation language t2 (set_translation language t1 e)
  = set_translation language t2 e.
Proof. unfold set_translation. simpl. by rewrite dict_set_set. Qed.

Lemma merge_map_same language t1 t2 tm fp :
  merge_map language t2 (merge_map language t1 tm fp) fp = merge_map language t2 tm fp.
Proof.
  unfold merge_map. destruct (dict_get fp tm) as [e|] eqn:He.
  - by rewrite dict_get_set_eq, dict_set_set, set_translation_set.
  - by rewrite He.
Qed.

Lemma merge_map_comm language t1 t2 tm fp1 fp2 :
  fp1 <> fp2 ->
  merge_map language t2 (merge_map language t1 tm fp1) fp2
  = merge_map language t1 (merge_map language t2 tm fp2) fp1.
Proof.
  intros Hne. unfold merge_map.
  destruct (dict_get fp1 tm) as [e1|] eqn:H1, (dict_get fp2 tm) as [e2|] eqn:H2.
  - rewrite !dict_get_set_ne by done. rewrite H1, H2.
    apply dict_set_comm; [done | rewrite H2; eauto | rewrite H1; eauto].
  - rewrite ?dict_get_set_ne by done. by rewrite ?H2, ?H1.
  - rewrite ?dict_get_set_ne by done. by rewrite ?H2, ?H1.
  - by rewrite ?H2, ?H1.
Qed.

(** A merge is forgotten when the sheet names its fingerprint again. *)
Lemma run_absorbs_merge language ms :
  forall tm t fp,
    fp ∈ map snd ms ->
    fold_left (fun tm m => merge_map language (fst m) tm (snd m)) ms
              (merge_map language t tm fp)
    = fold_left (fun tm m => merge_map language (fst m) tm (snd m)) ms tm.
Proof.
  induction ms as [|m ms IH]; intros tm t fp Hin.
  - by apply elem_of_nil in Hin.
  - simpl. destruct (decide (snd m = fp)) as [->|Hne].
    + by rewrite merge_map_same.
    + simpl in Hin. apply elem_of_cons in Hin as [Heq|Hin]; [congruence|].
      rewrite merge_map_comm by done. by apply IH.
Qed.

(** X11. Importing the same sheet a second time changes nothing: the
    map written by the second import, read from the map the first one
    wrote, is the map the first one wrote. *)
Theorem import_twice_is_import_once
    (rows : list row) (tm : tmap) (out1 out2 language : string) :
  fst (excel_to_translation_map rows
         (fst (excel_to_translation_map rows tm out1 language)) out2 language)
  = fst (excel_to_translation_map rows tm out1 language).
Proof.
  rewrite !import_map. generalize (merges rows). intros ms.
  set (run := fold_left (fun tm m => merge_map language (fst m) tm (snd m))).
  assert (H : forall ms1, (forall m, m ∈ ms1 -> m ∈ ms) ->
                          run ms (run ms1 tm) = run ms tm).
  { induction ms1 as [|m ms1 IH] using rev_ind; intros Hsub; [done|].
    unfold run at 2. rewrite fold_left_app. simpl. fold run.
    unfold run at 1. rewrite run_absorbs_merge.
    - fold run. apply IH. intros m' Hm'. apply Hsub.
      apply elem_of_app. by left.
    - apply list_elem_of_fmap. exists m. split; [done|].
      apply Hsub. apply elem_of_app. right. by left. }
  by apply H.
Qed.

(** ** Printed indices are read as indices *)

Lemma int_acc_string_of_uint (d : Decimal.uint) (acc : N) :
  Py.int_acc acc (map N_of_ascii (list_ascii_of_string (NilEmpty.string_of_uint d)))
  = Some (uint_value acc d).
Proof.
  revert acc. induction d; intros acc;
    cbn [NilEmpty.string_of_uint list_ascii_of_string map Py.int_acc uint_value];
    try done;
    match goal with
    | |- context [Py.decimal_value ?c] =>
        let v := eval vm_compute in (Py.decimal_value c) in
        change (Py.decimal_value c) with v
    end;
    cbv iota beta; rewrite IHd; do 2 f_equal; lia.
Qed.

Lemma all_digits_string_of_uint (d : Decimal.uint) :
  Py.all_digits (NilEmpty.string_of_uint d) = true.
Proof. induction d; simpl; done. Qed.

Lemma uint_value_pos (d : Decimal.uint) (p : positive) :
  uint_value (Npos p) d = Npos (Pos.of_uint_acc d p).
Proof.
  revert p. induction d; intros p; simpl; try done;
    match goal with
    | |- uint_value ?a _ = _ =>
        let q := fresh in
        evar (q : positive);
        replace a with (Npos q); [subst q; rewrite IHd; reflexivity | subst q; lia]
    end.
Qed.

Lemma uint_value_of_uint (d : Decimal.uint) : uint_value 0 d = N.of_uint d.
Proof.
  unfold N.of_uint. induction d; simpl; try done;
    match goal with
    | |- uint_value ?a _ = _ =>
        let v := eval vm_compute in a in change a with v
    end; apply uint_value_pos.
Qed.

Lemma to_uint_not_nil (n : N) : N.to_uint n <> Decimal.Nil.
Proof.
  destruct n as [|p]; [done|]. apply DecimalPos.Unsigned.to_uint_nonnil.
Qed.

Lemma str_of_N_digits (n : N) :
  Py.str_of_N n = NilEmpty.string_of_uint (N.to_uint n)
  /\ Py.str_of_N n <> "".
Proof.
  unfold Py.str_of_N, NilZero.string_of_uint.
  pose proof (to_uint_not_nil n) as Hn.
  destruct (N.to_uint n); try done; split; done.
Qed.

Lemma all_digits_str_of_N (n : N) : Py.all_digits (Py.str_of_N n) = true.
Proof.
  destruct (str_of_N_digits n) as [-> _]. apply all_digits_string_of_uint.
Qed.

Lemma int_str_of_N (n : N) : Py.int (Py.str_of_N n) = Some n.
Proof.
  destruct (str_of_N_digits n) as [Hs Hne].
  rewrite (int_all_digits _ Hne (all_digits_str_of_N n)).
  rewrite Hs, int_acc_string_of_uint, uint_value_of_uint.
  by rewrite DecimalN.Unsigned.of_to.
Qed.

Lemma isdigit_str_of_N (n : N) : Py.isdigit (Py.str_of_N n) = true.
Proof.
  destruct (str_of_N_digits n) as [_ Hne].
  apply (all_digits_isdigit _ Hne), all_digits_str_of_N.
Qed.

Lemma subscript_of_str_of_N (n : N) : subscript_of (Py.str_of_N n) = Ok (KInt n).
Proof. unfold subscript_of. by rewrite isdigit_str_of_N, int_str_of_N. Qed.

Lemma parse_decimal_str_of_N (n : N) : parse_decimal (Py.str_of_N n) = Some n.
Proof.
  pose proof (subscript_of_kind (Py.str_of_N n)) as H.
  rewrite subscript_of_str_of_N in H. unfold key_of_kind, kind_of in H.
  destruct (parse_decimal (Py.str_of_N n)); [congruence|].
  by destruct (Py.isdigit (Py.str_of_N n)).
Qed.

Lemma classify_str_of_N (n : N) : classify (Py.str_of_N n) = Index n.
Proof. unfold classify. by rewrite parse_decimal_str_of_N. Qed.

Lemma well_formed_str_of_N (n : N) : well_formed (Py.str_of_N n) = true.
Proof. unfold well_formed, kind_of. by rewrite parse_decimal_str_of_N. Qed.

(** A name is a field of the classification, and well formed. *)
Lemma kind_of_Name (name : string) :
  kind_of name = Name name -> classify name = Field name /\ well_formed name = true.
Proof.
  unfold well_formed, classify. intros Hk. rewrite Hk. split; [|done].
  unfold kind_of in Hk. by destruct (parse_decimal name).
Qed.

(** The segments of a path that begins with a printed index. *)
Lemma segments_printed_index (n : N) (rest : string) :
  segments (Py.str_of_N n +:+ String "." rest) = Index n :: segments rest.
Proof.
  unfold segments.
  rewrite (split_digits_prefix _ _ (all_digits_str_of_N _)). simpl.
  by rewrite classify_str_of_N.
Qed.

Lemma well_formed_index (n : N) (rest : string) :
  forallb well_formed (Py.split "." (Py.str_of_N n +:+ String "." rest))
  = forallb well_formed (Py.split "." rest).
Proof.
  rewrite (split_digits_prefix _ _ (all_digits_str_of_N _)). simpl.
  by rewrite well_formed_str_of_N.
Qed.

(** The path of a field of the record at an index. *)
Lemma segments_index_field (idx : nat) (name : string) :
  plain_name name ->
  segments (Py.str_of_nat idx +:+ "." +:+ name)
  = [ Index (N.of_nat idx); Field name ].
Proof.
  intros [Hsplit Hclass]. unfold Py.str_of_nat.
  change ("." +:+ name) with (String "." name).
  rewrite segments_printed_index. unfold segments. rewrite Hsplit. simpl.
  by rewrite (proj1 (kind_of_Name _ Hclass)).
Qed.

Lemma well_formed_index_field (idx : nat) (name : string) :
  plain_name name ->
  forallb well_formed (Py.split "." (Py.str_of_nat idx +:+ "." +:+ name)) = true.
Proof.
  intros [Hsplit Hclass]. unfold Py.str_of_nat.
  change ("." +:+ name) with (String "." name).
  rewrite well_formed_index, Hsplit. simpl.
  by rewrite (proj2 (kind_of_Name _ Hclass)).
Qed.

Lemma enumerate_from {A} (xs : list A) (start idx : nat) (x : A) :
  (idx, x) ∈ combine (seq start (length xs)) xs ->
  (start <= idx)%nat /\ xs !! (idx - start)%nat = Some x.
Proof.
  revert start. induction xs as [|y xs IH]; intros start; simpl.
  - intros Hin. by apply elem_of_nil in Hin.
  - intros [[= <- <-]|Hin]%elem_of_cons.
    + rewrite Nat.sub_diag. by split.
    + destruct (IH _ Hin) as [Hle Hl]. split; [lia|].
      replace (idx - start)%nat with (S (idx - S start)) by lia. done.
Qed.

Lemma enumerate_lookup {A} (xs : list A) (idx : nat) (x : A) :
  (idx, x) ∈ enumerate xs -> xs !! idx = Some x.
Proof.
  intros Hin. apply enumerate_from in Hin as [_ Hl]. by rewrite Nat.sub_0_r in Hl.
Qed.

Lemma collect_elem {A} (xs : list A) (f : A -> result pairs) (rs : pairs)
    (p : json * string) :
  collect xs f = Ok rs -> p ∈ rs ->
  exists x r, x ∈ xs /\ f x = Ok r /\ p ∈ r.
Proof.
  revert rs. induction xs as [|x xs IH]; intros rs; simpl.
  - intros [= <-] Hin. by apply elem_of_nil in Hin.
  - destruct (f x) as [r|e] eqn:Hf; [|done]. rewrite bind_Ok.
    destruct (collect xs f) as [rs'|e]; [|done]. rewrite bind_Ok.
    intros [= <-] [Hin|Hin]%elem_of_app.
    + exists x, r. split; [left | done].
    + destruct (IH rs' eq_refl Hin) as (x' & r' & Hx' & Hf' & Hp).
      exists x', r'. split; [by right | done].
Qed.

(** A record found under an index by [enumerate] is the element of a
    sequence. *)
Lemma iter_record (data : json) (xs : list json) (idx : nat) (d : list (pykey * json)) :
  iter data = Ok xs -> xs !! idx = Some (JDict d) ->
  getitem data (KInt (N.of_nat idx)) = Ok (JDict d).
Proof.
  destruct data as [|b0|z0|num0 den0|s0|l|fields]; simpl; try done.
  - intros [= <-] Hl. unfold chars in Hl. rewrite list_lookup_fmap in Hl.
    by destruct (Py.characters s0 !! idx).
  - intros [= <-] Hl. rewrite Nat2N.id, Hl.
    apply lookup_lt_Some in Hl.
    assert (Hlt : (N.of_nat idx <? N.of_nat (length l))%N = true)
      by (apply N.ltb_lt; lia).
    by rewrite Hlt.
  - intros [= <-] Hl. unfold dict_keys in Hl. rewrite !list_lookup_fmap in Hl.
    destruct (fields !! idx) as [[[|] ?]|]; done.
Qed.

(** What [field_pair] appends. *)
Lemma field_pair_elem (idx : nat) (item : json) (name : string) (r : pairs)
    (p : json * string) :
  field_pair idx item name = Ok r -> p ∈ r ->
  exists d v,
    item = JDict d /\ dict_get (KStr name) d = Some v
    /\ p = (v, Py.str_of_nat idx +:+ "." +:+ name).
Proof.
  unfold field_pair. destruct (contains name item) as [[|]|e]; simpl; try done.
  - destruct item as [|b0|z0|num0 den0|s0|l|d]; simpl; try done.
    destruct (dict_get (KStr name) d) as [v|] eqn:Hv; [|done]. simpl.
    intros [= <-] Hin%list_elem_of_singleton. by exists d, v.
  - intros [= <-] Hin. by apply elem_of_nil in Hin.
Qed.

Lemma guarded_field_elem idx item name r p :
  guarded_field idx item name = Ok r -> p ∈ r ->
  exists d v,
    item = JDict d /\ dict_get (KStr name) d = Some v
    /\ p = (v, Py.str_of_nat idx +:+ "." +:+ name).
Proof.
  unfold guarded_field. destruct (truthy item); [apply field_pair_elem|].
  intros [= <-] Hin. by apply elem_of_nil in Hin.
Qed.

Lemma guarded_fields_elem idx item names r p :
  guarded_fields idx item names = Ok r -> p ∈ r ->
  exists name d v,
    name ∈ names /\ item = JDict d /\ dict_get (KStr name) d = Some v
    /\ p = (v, Py.str_of_nat idx +:+ "." +:+ name).
Proof.
  unfold guarded_fields. destruct (truthy item).
  - intros Hc Hin. destruct (collect_elem _ _ _ _ Hc Hin) as (name & r' & Hn & Hf & Hp).
    destruct (field_pair_elem _ _ _ _ _ Hf Hp) as (d & v & ? & ? & ?).
    by exists name, d, v.
  - intros [= <-] Hin. by apply elem_of_nil in Hin.
Qed.

Lemma field_of_record_patch (data : json) (v : json) (path new_text : string) :
  field_of_record data (v, path) ->
  read_path data (segments path) = Ok v
  /\ exists data',
       apply_patch data path new_text = Ok data'
       /\ read_path data' (segments path) = Ok (JStr new_text).
Proof.
  intros (idx & name & d & Hname & Hg & Hv & Hp). simpl in Hv, Hp. subst path.
  assert (Hread : read_path data (segments (Py.str_of_nat idx +:+ "." +:+ name))
                  = Ok v).
  { rewrite (segments_index_field _ _ Hname). simpl. rewrite Hg, bind_Ok.
    simpl. by rewrite Hv. }
  split; [exact Hread|].
  assert (Hw : writable data (Py.str_of_nat idx +:+ "." +:+ name) = true).
  { unfold writable.
    rewrite (well_formed_index_field _ _ Hname), (segments_index_field _ _ Hname).
    simpl. by rewrite Hg. }
  rewrite <- is_ok_apply_patch with (new_text := new_text) in Hw.
  destruct (apply_patch data (Py.str_of_nat idx +:+ "." +:+ name) new_text)
    as [data'|e] eqn:Hpatch; [|done].
  exists data'. split; [done|]. by apply apply_patch_round_trip in Hpatch as [? _].
Qed.

Lemma loop_over_records (body : nat * json -> result pairs) (data : json)
    (results : pairs) (p : json * string) :
  appends_fields body ->
  (xs ← iter data; collect (enumerate xs) body) = Ok results ->
  p ∈ results -> field_of_record data p.
Proof.
  intros Hbody Hrun Hin.
  destruct (iter data) as [xs|e] eqn:Hiter; [|done]. rewrite bind_Ok in Hrun.
  destruct (collect_elem _ _ _ _ Hrun Hin) as ([idx item] & r & Hx & Hf & Hp).
  destruct (Hbody _ _ _ _ Hf Hp) as (name & d & v & Hname & -> & Hv & ->).
  apply enumerate_lookup in Hx.
  exists idx, name, d. split; [done|]. split; [|done].
  by apply (iter_record _ xs).
Qed.

Ltac plain := split; vm_compute; reflexivity.

Lemma appends_one (name : string) :
  plain_name name ->
  appends_fields (fun '(idx, item) => guarded_field idx item name).
Proof.
  intros Hname idx item r p Hr Hp.
  destruct (guarded_field_elem _ _ _ _ _ Hr Hp) as (d & v & ? & ? & ?).
  by exists name, d, v.
Qed.

Lemma appends_two (n1 n2 : string) :
  plain_name n1 -> plain_name n2 ->
  appends_fields (fun '(idx, item) =>
    r1 ← guarded_field idx item n1;
    r2 ← guarded_field idx item n2;
    Ok (r1 ++ r2)).
Proof.
  intros H1 H2 idx item r p Hr Hp.
  destruct (guarded_field idx item n1) as [r1|e] eqn:Hr1; [|done].
  rewrite bind_Ok in Hr.
  destruct (guarded_field idx item n2) as [r2|e] eqn:Hr2; [|done].
  rewrite bind_Ok in Hr. injection Hr as <-.
  apply elem_of_app in Hp as [Hp|Hp].
  - destruct (guarded_field_elem _ _ _ _ _ Hr1 Hp) as (d & v & ? & ? & ?).
    by exists n1, d, v.
  - destruct (guarded_field_elem _ _ _ _ _ Hr2 Hp) as (d & v & ? & ? & ?).
    by exists n2, d, v.
Qed.

Lemma appends_all (names : list string) :
  Forall plain_name names ->
  appends_fields (fun '(idx, item) => guarded_fields idx item names).
Proof.
  intros Hnames idx item r p Hr Hp.
  destruct (guarded_fields_elem _ _ _ _ _ Hr Hp) as (name & d & v & Hn & ? & ? & ?).
  exists name, d, v. split; [|done].
  rewrite Forall_forall in Hnames. by apply Hnames.
Qed.

Lemma record_extractors_fields (extractor : json -> result pairs) (data : json)
    (results : pairs) (p : json * string) :
  extractor ∈ record_extractors ->
  extractor data = Ok results -> p ∈ results -> field_of_record data p.
Proof.
  unfold record_extractors. intros Hin.
  repeat (apply elem_of_cons in Hin as [->|Hin]);
    [..|by apply elem_of_nil in Hin];
    apply loop_over_records.
  - apply appends_two; plain.
  - apply appends_two; plain.
  - apply appends_one; plain.
  - apply appends_all. repeat constructor; vm_compute; reflexivity.
  - apply appends_all. repeat constructor; vm_compute; reflexivity.
  - apply appends_all. repeat constructor; vm_compute; reflexivity.
  - apply appends_all. repeat constructor; vm_compute; reflexivity.
  - apply appends_one; plain.
  - apply appends_one; plain.
Qed.

(** X12. Every pair the extractors of the record files return (items,
    actors, classes, skills, states, weapons, armors, enemies, troops)
    can be patched back: the context path reads the extracted value in
    the document, and for every new text the patch of that path returns
    a document in which the path reads the new text. *)
Theorem record_strings_can_be_patched
    (extractor : json -> result pairs) (data : json) (results : pairs)
    (v : json) (path new_text : string) :
  extractor ∈ record_extractors ->
  extractor data = Ok results ->
  (v, path) ∈ results ->
  read_path data (segments path) = Ok v
  /\ exists data' : json,
       apply_patch data path new_text = Ok data'
       /\ read_path data' (segments path) = Ok (JStr new_text).
Proof.
  intros Hex Hrun Hin. apply field_of_record_patch.
  by apply (record_extractors_fields extractor data results).
Qed.

Lemma record_strings_can_be_patched_witness :
  let data :=
    JList [ JNull;
            JDict [ (KStr "id", JInt 1); (KStr "name", JStr "Fire");
                    (KStr "description", JStr "Burns"); (KStr "message1", JStr "") ] ] in
  extract_from_skills data
  = Ok [ (JStr "Fire", "1.name"); (JStr "Burns", "1.description");
         (JStr "", "1.message1") ]
  /\ exists data' : json,
       apply_patch data "1.description" "Brennt" = Ok data'
       /\ read_path data' (segments "1.description") = Ok (JStr "Brennt").
Proof.
  cbv zeta.
  assert (Hrun : extract_from_skills
      (JList [ JNull;
               JDict [ (KStr "id", JInt 1); (KStr "name", JStr "Fire");
                       (KStr "description", JStr "Burns");
                       (KStr "message1", JStr "") ] ])
    = Ok [ (JStr "Fire", "1.name"); (JStr "Burns", "1.description");
           (JStr "", "1.message1") ]) by (vm_compute; reflexivity).
  split; [exact Hrun|].
  refine (proj2 (record_strings_can_be_patched extract_from_skills _ _
                   (JStr "Burns") "1.description" "Brennt" _ Hrun _)).
  - unfold record_extractors. do 3 right. left.
  - right. left.
Defined.

(** ** The strings of System.json *)

Lemma patch_of_writable (data : json) (path new_text : string) :
  writable data path = true ->
  exists data' : json,
    apply_patch data path new_text = Ok data'
    /\ read_path data' (segments path) = Ok (JStr new_text).
Proof.
  intros Hw. rewrite <- is_ok_apply_patch with (new_text := new_text) in Hw.
  destruct (apply_patch data path new_text) as [data'|e] eqn:Hpatch; [|done].
  exists data'. split; [done|]. by apply apply_patch_round_trip in Hpatch as [? _].
Qed.

Lemma split_all_digits (s : string) :
  Py.all_digits s = true -> Py.split "." s = [ s ].
Proof.
  induction s as [|c s IH]; [done|]. simpl. intros [Hc Hs]%andb_prop.
  by rewrite (digit_is_not_dot c Hc), (IH Hs).
Qed.

Lemma getitem_list (l : list json) (idx : nat) (v : json) :
  l !! idx = Some v -> getitem (JList l) (KInt (N.of_nat idx)) = Ok v.
Proof.
  intros Hl. simpl. rewrite Nat2N.id, Hl. apply lookup_lt_Some in Hl.
  assert (Hlt : (N.of_nat idx <? N.of_nat (length l))%N = true)
    by (apply N.ltb_lt; lia).
  by rewrite Hlt.
Qed.

Lemma assignable_list (l : list json) (idx : nat) (v : json) :
  l !! idx = Some v -> assignable (JList l) (Index (N.of_nat idx)) = true.
Proof. intros Hl%lookup_lt_Some. simpl. apply N.ltb_lt. lia. Qed.

Lemma truthy_terms_elem (prefix : string) (terms : json) (r : pairs)
    (p : json * string) :
  truthy_terms prefix terms = Ok r -> p ∈ r ->
  exists (l : list json) (idx : nat),
    terms = JList l /\ l !! idx = Some (fst p)
    /\ snd p = prefix +:+ Py.str_of_nat idx.
Proof.
  unfold truthy_terms. destruct terms as [|b0|z0|num0 den0|s0|l|d]; simpl;
    try (intros [= <-] Hin; by apply elem_of_nil in Hin).
  intros Hc Hin.
  destruct (collect_elem _ _ _ _ Hc Hin) as ([idx term] & r' & Hx & Hf & Hp).
  apply enumerate_lookup in Hx. destruct (truthy term).
  - injection Hf as <-. apply list_elem_of_singleton in Hp as ->.
    by exists l, idx.
  - injection Hf as <-. by apply elem_of_nil in Hp.
Qed.

Lemma truthy_messages_elem (messages : json) (r : pairs) (p : json * string) :
  truthy_messages messages = Ok r -> p ∈ r ->
  exists (d : list (pykey * json)) (k : pykey),
    messages = JDict d /\ (k, fst p) ∈ d
    /\ snd p = "terms.messages." +:+ key_str k.
Proof.
  unfold truthy_messages. destruct messages as [|b0|z0|num0 den0|s0|l|d];
    try (intros [= <-] Hin; by apply elem_of_nil in Hin).
  intros Hc Hin.
  destruct (collect_elem _ _ _ _ Hc Hin) as ([k message] & r' & Hx & Hf & Hp).
  destruct (truthy message).
  - injection Hf as <-. apply list_elem_of_singleton in Hp as ->.
    by exists d, k.
  - injection Hf as <-. by apply elem_of_nil in Hp.
Qed.

Lemma top_level_elem (data : json) (name : string) (r : pairs) (p : json * string) :
  top_level data name = Ok r -> p ∈ r ->
  exists d, data = JDict d /\ dict_get (KStr name) d = Some (fst p) /\ snd p = name.
Proof.
  unfold top_level. destruct (contains name data) as [[|]|e]; simpl; try done.
  - destruct data as [|b0|z0|num0 den0|s0|l|d]; simpl; try done.
    destruct (dict_get (KStr name) d) as [v|] eqn:Hv; [|done]. simpl.
    intros [= <-] Hin%list_elem_of_singleton. subst p. by exists d.
  - intros [= <-] Hin. by apply elem_of_nil in Hin.
Qed.

(** The value a default was not needed for is the value of the key. *)
Lemma get_method_list (obj : json) (name : string) (l : list json) (idx : nat)
    (v : json) :
  get_method obj name (JList []) = Ok (JList l) -> l !! idx = Some v ->
  getitem obj (KStr name) = Ok (JList l).
Proof.
  destruct obj as [|b0|z0|num0 den0|s0|l0|d]; simpl; try done.
  destruct (dict_get (KStr name) d) as [x|]; simpl.
  - by intros [= ->].
  - intros [= <-]. done.
Qed.

Lemma get_method_dict (obj : json) (name : string) (d : list (pykey * json))
    (kv : pykey * json) :
  get_method obj name (JDict []) = Ok (JDict d) -> kv ∈ d ->
  getitem obj (KStr name) = Ok (JDict d).
Proof.
  destruct obj as [|b0|z0|num0 den0|s0|l0|d0]; simpl; try done.
  destruct (dict_get (KStr name) d0) as [x|]; simpl.
  - by intros [= ->].
  - intros [= <-] Hin. by apply elem_of_nil in Hin.
Qed.

Lemma split_plain_prefix (s t : string) :
  Py.split "." s = [ s ] ->
  Py.split "." (s +:+ String "." t) = s :: Py.split "." t.
Proof.
  induction s as [|c s IH]; [done|]. rewrite app_cons. simpl.
  destruct (Ascii.eqb c "."); [done|]. intros H.
  assert (Hs : Py.split "." s = [ s ]).
  { destruct (Py.split "." s) as [|p ps] eqn:E; [by apply split_nonempty in E|].
    by injection H as -> ->. }
  by rewrite (IH Hs).
Qed.

Lemma segments_three (a b c : string) :
  Py.split "." a = [ a ] -> Py.split "." b = [ b ] -> Py.split "." c = [ c ] ->
  segments (a +:+ String "." (b +:+ String "." c))
  = [ classify a; classify b; classify c ].
Proof.
  intros Ha Hb Hc. unfold segments.
  by rewrite (split_plain_prefix _ _ Ha), (split_plain_prefix _ _ Hb), Hc.
Qed.

Lemma well_formed_three (a b c : string) :
  Py.split "." a = [ a ] -> Py.split "." b = [ b ] -> Py.split "." c = [ c ] ->
  forallb well_formed (Py.split "." (a +:+ String "." (b +:+ String "." c)))
  = well_formed a && (well_formed b && well_formed c).
Proof.
  intros Ha Hb Hc.
  rewrite (split_plain_prefix _ _ Ha), (split_plain_prefix _ _ Hb), Hc. simpl.
  by rewrite andb_true_r.
Qed.

(** A value of System.json the extractor can return: a term of one of
    the three lists, a message, the game title or the currency unit. *)
Lemma extract_from_system_elem (data : json) (results : pairs) (p : json * string) :
  extract_from_system data = Ok results -> p ∈ results ->
  (exists (name : string) (terms : json) (l : list json) (idx : nat),
     name ∈ [ "basic"; "commands"; "params" ]
     /\ getitem data (KStr "terms") = Ok terms
     /\ getitem terms (KStr name) = Ok (JList l)
     /\ l !! idx = Some (fst p)
     /\ snd p = "terms" +:+ String "." (name +:+ String "." (Py.str_of_nat idx)))
  \/ (exists (terms : json) (d : list (pykey * json)) (k : pykey),
       getitem data (KStr "terms") = Ok terms
       /\ getitem terms (KStr "messages") = Ok (JDict d)
       /\ (k, fst p) ∈ d
       /\ snd p = "terms" +:+ String "." ("messages" +:+ String "." (key_str k)))
  \/ (exists (name : string) (d : list (pykey * json)),
       name ∈ [ "gameTitle"; "currencyUnit" ]
       /\ data = JDict d /\ dict_get (KStr name) d = Some (fst p)
       /\ snd p = name).
Proof.
  unfold extract_from_system.
  destruct (get_method data "terms" (JDict [])) as [terms|e] eqn:Hterms; [|done].
  rewrite bind_Ok.
  destruct (is_dict terms) eqn:Hdict.
  - destruct terms as [|b0|z0|num0 den0|s0|l0|td]; try done.
    destruct (get_method (JDict td) "basic" (JList [])) as [basic|e] eqn:Hb; [|done].
    rewrite bind_Ok.
    destruct (truthy_terms "terms.basic." basic) as [r1|e] eqn:H1; [|done].
    rewrite bind_Ok.
    destruct (get_method (JDict td) "commands" (JList [])) as [commands|e] eqn:Hc;
      [|done].
    rewrite bind_Ok.
    destruct (truthy_terms "terms.commands." commands) as [r2|e] eqn:H2; [|done].
    rewrite bind_Ok.
    destruct (get_method (JDict td) "params" (JList [])) as [params|e] eqn:Hp; [|done].
    rewrite bind_Ok.
    destruct (truthy_terms "terms.params." params) as [r3|e] eqn:H3; [|done].
    rewrite bind_Ok.
    destruct (get_method (JDict td) "messages" (JDict [])) as [messages|e] eqn:Hm;
      [|done].
    rewrite bind_Ok.
    destruct (truthy_messages messages) as [r4|e] eqn:H4; [|done].
    rewrite !bind_Ok.
    destruct (top_level data "gameTitle") as [r5|e] eqn:H5; [|done]. rewrite bind_Ok.
    destruct (top_level data "currencyUnit") as [r6|e] eqn:H6; [|done].
    rewrite bind_Ok. intros [= <-] Hin.
    assert (Hterms' : forall kv, kv ∈ td ->
              getitem data (KStr "terms") = Ok (JDict td)).
    { intros kv Hkv. by apply (get_method_dict _ _ _ kv). }
    assert (Hfrom : forall name other l idx v,
              get_method (JDict td) name other = Ok (JList l) ->
              l !! idx = Some v ->
              (exists kv, kv ∈ td) \/ JList l = other).
    { intros name other l idx v. simpl.
      destruct (dict_get (KStr name) td) as [x|] eqn:Hx; simpl.
      - intros _ _. left. exists (KStr name, x). by apply dict_get_Some_elem.
      - intros [= <-]. by right. }
    repeat (apply elem_of_app in Hin as [Hin|Hin]).
    + destruct (truthy_terms_elem _ _ _ _ H1 Hin) as (l & idx & -> & Hl & Hpath).
      left. exists "basic", (JDict td), l, idx.
      destruct (Hfrom _ _ _ _ _ Hb Hl) as [[kv Hkv]|Heq]; [|by injection Heq as ->].
      split; [set_solver|]. split; [by apply (Hterms' kv)|].
      split; [by apply (get_method_list _ _ _ idx (fst p))|]. done.
    + destruct (truthy_terms_elem _ _ _ _ H2 Hin) as (l & idx & -> & Hl & Hpath).
      left. exists "commands", (JDict td), l, idx.
      destruct (Hfrom _ _ _ _ _ Hc Hl) as [[kv Hkv]|Heq]; [|by injection Heq as ->].
      split; [set_solver|]. split; [by apply (Hterms' kv)|].
      split; [by apply (get_method_list _ _ _ idx (fst p))|]. done.
    + destruct (truthy_terms_elem _ _ _ _ H3 Hin) as (l & idx & -> & Hl & Hpath).
      left. exists "params", (JDict td), l, idx.
      destruct (Hfrom _ _ _ _ _ Hp Hl) as [[kv Hkv]|Heq]; [|by injection Heq as ->].
      split; [set_solver|]. split; [by apply (Hterms' kv)|].
      split; [by apply (get_method_list _ _ _ idx (fst p))|]. done.
    + destruct (truthy_messages_elem _ _ _ H4 Hin) as (d & k & -> & Hk & Hpath).
      right. left. exists (JDict td), d, k.
      assert (Hgm : getitem (JDict td) (KStr "messages") = Ok (JDict d))
        by (by apply (get_method_dict _ _ _ (k, fst p))).
      split; [|done].
      simpl in Hgm. destruct (dict_get (KStr "messages") td) as [x|] eqn:Hx; [|done].
      apply (Hterms' (KStr "messages", x)). by apply dict_get_Some_elem.
    + destruct (top_level_elem _ _ _ _ H5 Hin) as (d & -> & Hv & Hpath).
      right. right. exists "gameTitle", d. split; [set_solver | done].
    + destruct (top_level_elem _ _ _ _ H6 Hin) as (d & -> & Hv & Hpath).
      right. right. exists "currencyUnit", d. split; [set_solver | done].
  - rewrite bind_Ok.
    destruct (top_level data "gameTitle") as [r5|e] eqn:H5; [|done]. rewrite bind_Ok.
    destruct (top_level data "currencyUnit") as [r6|e] eqn:H6; [|done].
    rewrite bind_Ok. intros [= <-] Hin. simpl in Hin.
    apply elem_of_app in Hin as [Hin|Hin].
    + destruct (top_level_elem _ _ _ _ H5 Hin) as (d & -> & Hv & Hpath).
      right. right. exists "gameTitle", d. split; [set_solver | done].
    + destruct (top_level_elem _ _ _ _ H6 Hin) as (d & -> & Hv & Hpath).
      right. right. exists "currencyUnit", d. split; [set_solver | done].
Qed.

Lemma loaded_dict (d : list (pykey * json)) :
  loaded (JDict d) = true ->
  NoDup (dict_keys d)
  /\ forall k v, (k, v) ∈ d -> (exists s, k = KStr s) /\ loaded v = true.
Proof.
  simpl. intros [Hall Hnd]%andb_prop. apply bool_decide_eq_true in Hnd.
  split; [done|]. intros k v Hin.
  rewrite forallb_forall in Hall. apply list_elem_of_In in Hin.
  specialize (Hall _ Hin). simpl in Hall. destruct k as [s|n]; [|done]. eauto.
Qed.

Lemma loaded_getitem (obj child : json) (k : pykey) :
  loaded obj = true -> getitem obj k = Ok child -> loaded child = true.
Proof.
  destruct obj as [|b0|z0|num0 den0|s0|l|d]; simpl; try done.
  - destruct k as [|n]; [done|].
    destruct (n <? N.of_nat (length (chars s0)))%N; [|done].
    destruct (chars s0 !! N.to_nat n) as [x|] eqn:Hx; [|done].
    intros _ [= <-]. apply chars_lookup in Hx. by destruct x.
  - destruct k as [|n]; [done|].
    destruct (n <? N.of_nat (length l))%N; [|done].
    destruct (l !! N.to_nat n) as [x|] eqn:Hx; [|done].
    intros Hall [= <-]. rewrite forallb_forall in Hall. apply Hall.
    apply list_elem_of_In. by apply list_elem_of_lookup_2 in Hx.
  - intros Hl. destruct (dict_get k d) as [x|] eqn:Hx; [|done]. intros [= <-].
    apply dict_get_Some_elem in Hx.
    by destruct (loaded_dict d Hl) as [_ H]; destruct (H _ _ Hx).
Qed.

(** X13. The strings of System.json are patched where they were read.
    For System.json as [json.load] returns it, every pair the extractor
    returns (a term of the lists basic, commands and params, a message,
    the game title, the currency unit) has a context path that reads
    the extracted value and that can be patched, the path then reading
    the new text; for a message this holds when its key is one plain
    segment, that is, has no dot and is a name: it is empty or has a
    character that is no digit. *)
Theorem system_strings_can_be_patched
    (data : json) (results : pairs) (v : json) (path new_text : string) :
  loaded data = true ->
  extract_from_system data = Ok results ->
  (v, path) ∈ results ->
  (forall key : string, path = "terms.messages." +:+ key -> plain_name key) ->
  read_path data (segments path) = Ok v
  /\ exists data' : json,
       apply_patch data path new_text = Ok data'
       /\ read_path data' (segments path) = Ok (JStr new_text).
Proof.
  intros Hloaded Hrun Hin Hkey.
  assert (H : read_path data (segments path) = Ok v /\ writable data path = true);
    [|destruct H as [Hr Hw]; split; [done | by apply patch_of_writable]].
  destruct (extract_from_system_elem _ _ _ Hrun Hin)
    as [(name & terms & l & idx & Hname & Hterms & Hlist & Hl & Hpath)
       |[(terms & d & k & Hterms & Hmsg & Hk & Hpath)
        |(name & d & Hname & -> & Hv & Hpath)]]; simpl in *; subst path.
  - assert (Hsegs : segments ("terms" +:+ String "." (name +:+ String "."
                                (Py.str_of_nat idx)))
                    = [ Field "terms"; Field name; Index (N.of_nat idx) ]).
    { rewrite segments_three.
      - unfold Py.str_of_nat. rewrite classify_str_of_N.
        repeat (apply elem_of_cons in Hname as [->|Hname]);
          [..|by apply elem_of_nil in Hname]; reflexivity.
      - reflexivity.
      - repeat (apply elem_of_cons in Hname as [->|Hname]);
          [..|by apply elem_of_nil in Hname]; reflexivity.
      - apply split_all_digits, all_digits_str_of_N. }
    assert (Hwf : forallb well_formed
                    (Py.split "." ("terms" +:+ String "." (name +:+ String "."
                                                             (Py.str_of_nat idx))))
                  = true).
    { rewrite well_formed_three.
      - unfold Py.str_of_nat. rewrite well_formed_str_of_N.
        repeat (apply elem_of_cons in Hname as [->|Hname]);
          [..|by apply elem_of_nil in Hname]; reflexivity.
      - reflexivity.
      - repeat (apply elem_of_cons in Hname as [->|Hname]);
          [..|by apply elem_of_nil in Hname]; reflexivity.
      - apply split_all_digits, all_digits_str_of_N. }
    unfold writable. rewrite Hwf, Hsegs. simpl.
    rewrite Hterms, !bind_Ok, Hlist, !bind_Ok, (getitem_list _ _ _ Hl).
    split; [done|]. apply (assignable_list _ _ _ Hl).
  - pose proof (loaded_getitem _ _ _ Hloaded Hterms) as Hlt.
    pose proof (loaded_getitem _ _ _ Hlt Hmsg) as Hld.
    destruct (loaded_dict d Hld) as [Hnd Hkeys].
    destruct (Hkeys _ _ Hk) as [[s ->] _]. simpl in *.
    destruct (Hkey s eq_refl) as [Hsplit Hclass].
    assert (Hsegs : segments ("terms" +:+ String "." ("messages" +:+ String "." s))
                    = [ Field "terms"; Field "messages"; Field s ]).
    { rewrite segments_three; [|done..].
      by rewrite (proj1 (kind_of_Name _ Hclass)). }
    assert (Hwf : forallb well_formed
                    (Py.split "." ("terms" +:+ String "." ("messages" +:+ String "." s)))
                  = true).
    { rewrite well_formed_three; [|done..].
      by rewrite (proj2 (kind_of_Name _ Hclass)). }
    unfold writable. rewrite Hwf, Hsegs. simpl.
    rewrite Hterms, !bind_Ok, Hmsg, !bind_Ok. simpl.
    rewrite Hsplit. simpl. rewrite (proj1 (kind_of_Name _ Hclass)). simpl.
    by rewrite (dict_get_elem _ _ _ Hnd Hk).
  - assert (Hsegs : segments name = [ Field name ]).
    { repeat (apply elem_of_cons in Hname as [->|Hname]);
        [..|by apply elem_of_nil in Hname]; reflexivity. }
    assert (Hwf : forallb well_formed (Py.split "." name) = true).
    { repeat (apply elem_of_cons in Hname as [->|Hname]);
        [..|by apply elem_of_nil in Hname]; reflexivity. }
    unfold writable. rewrite Hwf, Hsegs. simpl. by rewrite Hv.
Qed.

Lemma system_strings_can_be_patched_witness :
  let data :=
    JDict [ (KStr "gameTitle", JStr "Quest");
            (KStr "terms",
             JDict [ (KStr "basic", JList [ JStr "Level"; JStr "" ; JStr "HP" ]);
                     (KStr "messages", JDict [ (KStr "alwaysDash", JStr "Always Dash") ]) ]) ] in
  extract_from_system data
  = Ok [ (JStr "Level", "terms.basic.0"); (JStr "HP", "terms.basic.2");
         (JStr "Always Dash", "terms.messages.alwaysDash");
         (JStr "Quest", "gameTitle") ]
  /\ exists data' : json,
       apply_patch data "terms.messages.alwaysDash" "Immer rennen" = Ok data'
       /\ read_path data' (segments "terms.messages.alwaysDash")
          = Ok (JStr "Immer rennen").
Proof.
  cbv zeta.
  set (data := JDict [ (KStr "gameTitle", JStr "Quest");
            (KStr "terms",
             JDict [ (KStr "basic", JList [ JStr "Level"; JStr "" ; JStr "HP" ]);
                     (KStr "messages",
                      JDict [ (KStr "alwaysDash", JStr "Always Dash") ]) ]) ]).
  assert (Hrun : extract_from_system data
    = Ok [ (JStr "Level", "terms.basic.0"); (JStr "HP", "terms.basic.2");
           (JStr "Always Dash", "terms.messages.alwaysDash");
           (JStr "Quest", "gameTitle") ]) by (vm_compute; reflexivity).
  split; [exact Hrun|].
  refine (proj2 (system_strings_can_be_patched data _ (JStr "Always Dash")
                   "terms.messages.alwaysDash" "Immer rennen" _ Hrun _ _)).
  - vm_compute. reflexivity.
  - do 2 right. left.
  - intros key Hkey.
    apply (app_inj_l "terms.messages." "alwaysDash" key) in Hkey. subst key.
    split; vm_compute; reflexivity.
Defined.

(** ** Paths of event commands *)

Lemma segments_cons (a t : string) :
  Py.split "." a = [ a ] ->
  segments (a +:+ String "." t) = classify a :: segments t.
Proof. intros Ha. unfold segments. by rewrite (split_plain_prefix _ _ Ha). Qed.

Lemma segments_index (n : nat) (t : string) :
  segments (Py.str_of_nat n +:+ String "." t) = Index (N.of_nat n) :: segments t.
Proof.
  rewrite segments_cons.
  - unfold Py.str_of_nat. by rewrite classify_str_of_N.
  - apply split_all_digits, all_digits_str_of_N.
Qed.

Lemma segments_last_index (n : nat) :
  segments (Py.str_of_nat n) = [ Index (N.of_nat n) ].
Proof.
  unfold segments. rewrite split_all_digits by apply all_digits_str_of_N.
  simpl. unfold Py.str_of_nat. by rewrite classify_str_of_N.
Qed.

Lemma segments_common_name (idx : nat) :
  segments (Py.str_of_nat idx +:+ ".name") = [ Index (N.of_nat idx); Field "name" ].
Proof. by rewrite (segments_index idx "name"). Qed.

Lemma segments_command (list_idx : nat) (rest : string) :
  segments ("list" +:+ String "." (Py.str_of_nat list_idx +:+ String "."
              ("parameters" +:+ String "." ("0" +:+ rest))))
  = Field "list" :: Index (N.of_nat list_idx) :: Field "parameters"
      :: segments ("0" +:+ rest).
Proof.
  rewrite (segments_cons "list") by done.
  by rewrite segments_index, (segments_cons "parameters").
Qed.

Lemma segments_common_line (idx list_idx : nat) :
  segments (Py.str_of_nat idx +:+ ".list." +:+ Py.str_of_nat list_idx
            +:+ ".parameters.0")
  = [ Index (N.of_nat idx); Field "list"; Index (N.of_nat list_idx);
      Field "parameters"; Index 0 ].
Proof.
  change (segments (Py.str_of_nat idx +:+ String "."
            ("list" +:+ String "." (Py.str_of_nat list_idx +:+ String "."
               ("parameters" +:+ String "." ("0" +:+ "")))))
          = [ Index (N.of_nat idx); Field "list"; Index (N.of_nat list_idx);
              Field "parameters"; Index 0 ]).
  by rewrite segments_index, segments_command.
Qed.

Lemma segments_common_choice (idx list_idx choice_idx : nat) :
  segments ((Py.str_of_nat idx +:+ ".list." +:+ Py.str_of_nat list_idx
             +:+ ".parameters.0") +:+ "." +:+ Py.str_of_nat choice_idx)
  = [ Index (N.of_nat idx); Field "list"; Index (N.of_nat list_idx);
      Field "parameters"; Index 0; Index (N.of_nat choice_idx) ].
Proof.
  rewrite !app_assoc_str.
  change (segments (Py.str_of_nat idx +:+ String "."
            ("list" +:+ String "." (Py.str_of_nat list_idx +:+ String "."
               ("parameters" +:+ String "."
                  ("0" +:+ String "." (Py.str_of_nat choice_idx))))))
          = [ Index (N.of_nat idx); Field "list"; Index (N.of_nat list_idx);
              Field "parameters"; Index 0; Index (N.of_nat choice_idx) ]).
  rewrite segments_index, segments_command, (segments_cons "0") by done.
  by rewrite segments_last_index.
Qed.

Lemma segments_map_line (event_idx page_idx list_idx : nat) :
  segments ("events." +:+ Py.str_of_nat event_idx +:+ ".pages."
            +:+ Py.str_of_nat page_idx +:+ ".list."
            +:+ Py.str_of_nat list_idx +:+ ".parameters.0")
  = [ Field "events"; Index (N.of_nat event_idx);
      Field "pages"; Index (N.of_nat page_idx);
      Field "list"; Index (N.of_nat list_idx);
      Field "parameters"; Index 0 ].
Proof.
  change (segments ("events" +:+ String "." (Py.str_of_nat event_idx +:+ String "."
            ("pages" +:+ String "." (Py.str_of_nat page_idx +:+ String "."
               ("list" +:+ String "." (Py.str_of_nat list_idx +:+ String "."
                  ("parameters" +:+ String "." ("0" +:+ "")))))))) = 
          [ Field "events"; Index (N.of_nat event_idx);
            Field "pages"; Index (N.of_nat page_idx);
            Field "list"; Index (N.of_nat list_idx);
            Field "parameters"; Index 0 ]).
  rewrite (segments_cons "events"), segments_index by done.
  rewrite (segments_cons "pages"), segments_index by done.
  by rewrite segments_command.
Qed.

Lemma segments_map_choice (event_idx page_idx list_idx choice_idx : nat) :
  segments (("events." +:+ Py.str_of_nat event_idx +:+ ".pages."
             +:+ Py.str_of_nat page_idx +:+ ".list."
             +:+ Py.str_of_nat list_idx +:+ ".parameters.0")
            +:+ "." +:+ Py.str_of_nat choice_idx)
  = [ Field "events"; Index (N.of_nat event_idx);
      Field "pages"; Index (N.of_nat page_idx);
      Field "list"; Index (N.of_nat list_idx);
      Field "parameters"; Index 0; Index (N.of_nat choice_idx) ].
Proof.
  rewrite !app_assoc_str.
  change (segments ("events" +:+ String "." (Py.str_of_nat event_idx +:+ String "."
            ("pages" +:+ String "." (Py.str_of_nat page_idx +:+ String "."
               ("list" +:+ String "." (Py.str_of_nat list_idx +:+ String "."
                  ("parameters" +:+ String "."
                     ("0" +:+ String "." (Py.str_of_nat choice_idx))))))))) = 
          [ Field "events"; Index (N.of_nat event_idx);
            Field "pages"; Index (N.of_nat page_idx);
            Field "list"; Index (N.of_nat list_idx);
            Field "parameters"; Index 0; Index (N.of_nat choice_idx) ]).
  rewrite (segments_cons "events"), segments_index by done.
  rewrite (segments_cons "pages"), segments_index by done.
  rewrite segments_command, (segments_cons "0") by done.
  by rewrite segments_last_index.
Qed.

(** ** Reaching a value *)

Lemma reaches_cons (doc child v : json) (seg : segment) (segs : list segment) :
  getitem doc (key_of seg) = Ok child -> segs <> [] ->
  proper_segment seg = true ->
  reaches child segs v -> reaches doc (seg :: segs) v.
Proof.
  intros Hget Hne Hseg (Hread & Hlast & Hproper). destruct segs as [|s segs]; [done|].
  split; [|split].
  - simpl. rewrite Hget. exact Hread.
  - change (removelast (seg :: s :: segs)) with (seg :: removelast (s :: segs)).
    change (List.last (seg :: s :: segs) (Field ""))
      with (List.last (s :: segs) (Field "")).
    simpl read_path at 1. rewrite Hget. exact Hlast.
  - cbn [forallb]. by rewrite Hseg.
Qed.

Lemma reaches_one (doc v : json) (seg : segment) :
  getitem doc (key_of seg) = Ok v -> assignable doc seg = true ->
  proper_segment seg = true ->
  reaches doc [ seg ] v.
Proof.
  intros Hget Hassign Hseg. split; [|split]; simpl; [by rewrite Hget | done |].
  by rewrite Hseg.
Qed.

(** No component of a path is a numeral when no segment is. *)
Lemma well_formed_segments (path : string) :
  forallb well_formed (Py.split "." path) = forallb proper_segment (segments path).
Proof.
  unfold segments. induction (Py.split "." path) as [|comp comps IH]; [done|].
  cbn [forallb map]. rewrite IH. f_equal.
  unfold proper_segment, classify, well_formed, kind_of.
  destruct (parse_decimal comp) eqn:Hp; [done|]. by rewrite Hp.
Qed.

Lemma reaches_patch (data v : json) (path new_text : string) :
  reaches data (segments path) v ->
  read_path data (segments path) = Ok v
  /\ exists data' : json,
       apply_patch data path new_text = Ok data'
       /\ read_path data' (segments path) = Ok (JStr new_text).
Proof.
  intros (Hread & Hlast & Hproper). split; [done|]. apply patch_of_writable.
  unfold writable. by rewrite well_formed_segments, Hproper.
Qed.

Lemma getitem_str_key (obj v : json) (name : string) :
  getitem obj (KStr name) = Ok v ->
  exists d, obj = JDict d /\ dict_get (KStr name) d = Some v.
Proof.
  destruct obj as [|b0|z0|num0 den0|s0|l|d]; simpl; try done.
  destruct (dict_get (KStr name) d) as [x|] eqn:Hx; [|done].
  intros [= <-]. eauto.
Qed.

Lemma getitem_assignable (l : list json) (n : N) (v : json) :
  getitem (JList l) (KInt n) = Ok v -> assignable (JList l) (Index n) = true.
Proof. simpl. by destruct (n <? N.of_nat (length l))%N. Qed.

Lemma getitem_first (l : list json) (v : json) :
  getitem (JList l) (KInt 0) = Ok v -> exists rest, l = v :: rest.
Proof.
  simpl. destruct (0 <? N.of_nat (length l))%N; [|done].
  destruct l as [|x rest]; simpl; [done|]. intros [= <-]. eauto.
Qed.

Lemma commands_shaped_getitem (obj child : json) (k : pykey) :
  commands_shaped obj = true -> getitem obj k = Ok child ->
  commands_shaped child = true.
Proof.
  destruct obj as [|b0|z0|num0 den0|s0|l|d]; simpl; try done.
  - destruct k as [|n]; [done|].
    destruct (n <? N.of_nat (length (chars s0)))%N; [|done].
    destruct (chars s0 !! N.to_nat n) as [x|] eqn:Hx; [|done].
    intros _ [= <-]. apply chars_lookup in Hx. by destruct x.
  - destruct k as [|n]; [done|].
    destruct (n <? N.of_nat (length l))%N; [|done].
    destruct (l !! N.to_nat n) as [x|] eqn:Hx; [|done].
    intros Hall [= <-]. rewrite forallb_forall in Hall. apply Hall.
    apply list_elem_of_In. by apply list_elem_of_lookup_2 in Hx.
  - intros [_ Hall]%andb_prop.
    destruct (dict_get k d) as [x|] eqn:Hx; [|done]. intros [= <-].
    apply dict_get_Some_elem in Hx. rewrite forallb_forall in Hall.
    apply list_elem_of_In in Hx. exact (Hall _ Hx).
Qed.

(** The parameters of a shaped command are a list. *)
Lemma shaped_parameters (item parameters : json) :
  commands_shaped item = true ->
  getitem item (KStr "parameters") = Ok parameters ->
  exists ps, parameters = JList ps.
Proof.
  intros Hshape Hget. apply getitem_str_key in Hget as (d & -> & Hd).
  simpl in Hshape. apply andb_prop in Hshape as [Hshape _].
  unfold command_shaped in Hshape. rewrite Hd in Hshape.
  destruct parameters; try done. eauto.
Qed.

(** The line of a text command is reached from the command. *)
Lemma line_reaches (item parameters v : json) :
  commands_shaped item = true ->
  getitem item (KStr "parameters") = Ok parameters ->
  getitem parameters (KInt 0) = Ok v ->
  reaches item [ Field "parameters"; Index 0 ] v.
Proof.
  intros Hshape Hp Hv.
  destruct (shaped_parameters _ _ Hshape Hp) as [ps ->].
  apply (reaches_cons _ (JList ps)); [done..|].
  apply reaches_one; [done| |done]. by apply getitem_assignable in Hv.
Qed.

(** A choice of a choice command is reached from the command. *)
Lemma choice_reaches (item code parameters first v : json) (choices : list json)
    (choice_idx : nat) :
  commands_shaped item = true ->
  getitem item (KStr "code") = Ok code -> eq_int code 102 = true ->
  getitem item (KStr "parameters") = Ok parameters ->
  getitem parameters (KInt 0) = Ok first ->
  iter first = Ok choices ->
  choices !! choice_idx = Some v ->
  reaches item [ Field "parameters"; Index 0; Index (N.of_nat choice_idx) ] v.
Proof.
  intros Hshape Hcode H102 Hp Hfirst Hiter Hv.
  destruct (shaped_parameters _ _ Hshape Hp) as [ps ->].
  destruct (getitem_first _ _ Hfirst) as [rest ->].
  assert (Hlist : is_list first = true).
  { apply getitem_str_key in Hp as (d & -> & Hd).
    apply getitem_str_key in Hcode as (d' & [= <-] & Hc).
    simpl in Hshape. apply andb_prop in Hshape as [Hshape _].
    unfold command_shaped in Hshape. by rewrite Hd, Hc, H102 in Hshape. }
  destruct first as [|b0|z0|num0 den0|s0|l|d0]; try done.
  injection Hiter as ->.
  apply (reaches_cons _ (JList (JList choices :: rest))); [done..|].
  apply (reaches_cons _ (JList choices)); [done..|].
  apply reaches_one; [by apply getitem_list | by apply (assignable_list _ _ v) | done].
Qed.

Lemma enumerate_map_elem {A B} (f : nat * A -> B) (xs : list A) (y : B) :
  y ∈ map f (enumerate xs) ->
  exists idx x, xs !! idx = Some x /\ y = f (idx, x).
Proof.
  intros Hin. apply list_elem_of_In, in_map_iff in Hin as ([idx x] & <- & Hin).
  apply list_elem_of_In, enumerate_lookup in Hin. eauto.
Qed.

(** What a command appends is reached from the command. *)
Lemma command_pairs_elem (idx list_idx : nat) (item : json) (r : pairs)
    (p : json * string) :
  commands_shaped item = true ->
  command_pairs idx (list_idx, item) = Ok r -> p ∈ r ->
  exists segs,
    segs <> []
    /\ segments (snd p)
       = Index (N.of_nat idx) :: Field "list" :: Index (N.of_nat list_idx) :: segs
    /\ reaches item segs (fst p).
Proof.
  intros Hshape. unfold command_pairs.
  destruct (getitem item (KStr "code")) as [code|] eqn:Hcode; [|done].
  rewrite !bind_Ok. destruct (eq_int code 401) eqn:H401.
  - destruct (getitem item (KStr "parameters")) as [ps|] eqn:Hps; [|done].
    rewrite bind_Ok.
    destruct (getitem ps (KInt 0)) as [first|] eqn:Hfirst; [|done].
    rewrite bind_Ok. intros [= <-] ->%list_elem_of_singleton.
    exists [ Field "parameters"; Index 0%N ]. split; [done|].
    split; [apply segments_common_line | by apply (line_reaches _ ps)].
  - destruct (eq_int code 102) eqn:H102; [|by intros [= <-] Hin; apply elem_of_nil in Hin].
    destruct (getitem item (KStr "parameters")) as [ps|] eqn:Hps; [|done].
    rewrite bind_Ok.
    destruct (getitem ps (KInt 0)) as [first|] eqn:Hfirst; [|done].
    rewrite bind_Ok.
    destruct (iter first) as [choices|] eqn:Hiter; [|done].
    rewrite bind_Ok. intros [= <-] Hin.
    apply enumerate_map_elem in Hin as (choice_idx & choice & Hchoice & ->).
    exists [ Field "parameters"; Index 0%N; Index (N.of_nat choice_idx) ].
    split; [done|].
    split; [apply segments_common_choice|].
    by apply (choice_reaches _ code ps first _ choices).
Qed.

Lemma event_name_elem (idx : nat) (event : json) (r : pairs) (p : json * string) :
  event_name idx event = Ok r -> p ∈ r ->
  exists d, event = JDict d /\ dict_get (KStr "name") d = Some (fst p)
            /\ snd p = Py.str_of_nat idx +:+ ".name".
Proof.
  unfold event_name.
  destruct (contains "name" event) as [[|]|] eqn:Hc; simpl;
    [|by intros [= <-] Hin; apply elem_of_nil in Hin|done].
  destruct (getitem event (KStr "name")) as [name|] eqn:Hname; simpl; [|done].
  destruct (truthy name); [|by intros [= <-] Hin; apply elem_of_nil in Hin].
  intros [= <-] ->%list_elem_of_singleton.
  apply getitem_str_key in Hname as (d & -> & Hd). eauto.
Qed.

(** What the extractor of the common events returns is reached in the
    document. *)
Lemma common_event_pairs_reach
    (data : json) (results : pairs) (v : json) (path : string) :
  commands_shaped data = true ->
  extract_from_common_events data = Ok results ->
  (v, path) ∈ results ->
  reaches data (segments path) v.
Proof.
  intros Hshape Hrun Hin.
  unfold extract_from_common_events in Hrun.
  destruct (iter data) as [xs|] eqn:Hiter; [|done]. rewrite bind_Ok in Hrun.
  destruct (collect_elem _ _ _ _ Hrun Hin) as ([idx event] & r & Hx & Hr & Hp).
  apply enumerate_lookup in Hx. clear Hrun Hin.
  assert (Hevent : forall d, event = JDict d ->
                             getitem data (KInt (N.of_nat idx)) = Ok event).
  { intros d ->. by apply (iter_record _ xs). }
  assert (Hbody :
    exists r1 r2,
      event_name idx event = Ok r1 /\ event_commands idx event = Ok r2
      /\ ((v, path) ∈ r1 \/ (v, path) ∈ r2)).
  { unfold event_pairs in Hr.
    destruct event as [|b0|z0|num0 den0|s0|l|d];
      [injection Hr as <-; by apply elem_of_nil in Hp|..];
      (destruct (event_name idx _) as [r1|]; [|done]);
      (destruct (event_commands idx _) as [r2|]; [|done]);
      injection Hr as <-; exists r1, r2; (split; [done|]); (split; [done|]);
      by apply elem_of_app in Hp. }
  destruct Hbody as (r1 & r2 & Hname & Hcommands & [Hp1|Hp2]).
  - destruct (event_name_elem _ _ _ _ Hname Hp1) as (d & -> & Hd & Hpath).
    simpl in Hd, Hpath. subst path. rewrite segments_common_name.
    apply (reaches_cons _ (JDict d)); [by apply (Hevent d) | done | done |].
    apply reaches_one; [simpl; by rewrite Hd | done | done].
  - unfold event_commands in Hcommands.
    destruct (contains "list" event) as [[|]|]; simpl in Hcommands;
      [|injection Hcommands as <-; by apply elem_of_nil in Hp2|done].
    destruct (getitem event (KStr "list")) as [commands|] eqn:Hlist; [|done].
    rewrite bind_Ok in Hcommands.
    destruct (iter commands) as [items|] eqn:Hitems; [|done].
    rewrite bind_Ok in Hcommands. rename Hcommands into Hcollect.
    destruct (getitem_str_key _ _ _ Hlist) as (d & -> & _).
    pose proof (Hevent d eq_refl) as Hget.
    destruct (collect_elem _ _ _ _ Hcollect Hp2)
      as ([list_idx item] & r3 & Hx2 & Hr2 & Hp3).
    apply enumerate_lookup in Hx2.
    assert (Hitem : exists d', item = JDict d').
    { unfold command_pairs in Hr2.
      destruct (getitem item (KStr "code")) as [code|] eqn:Hcode; [|done].
      apply getitem_str_key in Hcode as (d' & -> & _). eauto. }
    destruct Hitem as [d' ->].
    pose proof (iter_record _ _ _ _ Hitems Hx2) as Hget2.
    pose proof (commands_shaped_getitem _ _ _ Hshape Hget) as Hs1.
    pose proof (commands_shaped_getitem _ _ _ Hs1 Hlist) as Hs2.
    pose proof (commands_shaped_getitem _ _ _ Hs2 Hget2) as Hs3.
    destruct (command_pairs_elem _ _ _ _ _ Hs3 Hr2 Hp3) as (segs & Hne & Hsegs & Hreach).
    simpl in Hsegs, Hreach. rewrite Hsegs.
    apply (reaches_cons _ (JDict d)); [done..|].
    apply (reaches_cons _ commands); [done..|].
    by apply (reaches_cons _ (JDict d')).
Qed.

(** X14. The strings of CommonEvents.json are patched where they were
    read.  When the commands of the document have their parameters in a
    list, and the choice commands their choices in a list, every pair
    the extractor returns (the name of an event, the line of a text
    command, a choice) has a context path that reads the extracted
    value, and the patch of that path returns a document in which the
    path reads the new text. *)
Theorem common_event_strings_can_be_patched
    (data : json) (results : pairs) (v : json) (path new_text : string) :
  commands_shaped data = true ->
  extract_from_common_events data = Ok results ->
  (v, path) ∈ results ->
  read_path data (segments path) = Ok v
  /\ exists data' : json,
       apply_patch data path new_text = Ok data'
       /\ read_path data' (segments path) = Ok (JStr new_text).
Proof.
  intros Hshape Hrun Hin. apply reaches_patch.
  by apply (common_event_pairs_reach data results).
Qed.

Lemma common_event_strings_can_be_patched_witness :
  let data :=
    JList [ JNull;
            JDict [ (KStr "id", JInt 1); (KStr "name", JStr "Intro");
                    (KStr "list",
                     JList [ JDict [ (KStr "code", JInt 401);
                                     (KStr "parameters", JList [ JStr "Welcome!" ]) ];
                             JDict [ (KStr "code", JInt 102);
                                     (KStr "parameters",
                                      JList [ JList [ JStr "Yes"; JStr "No" ];
                                              JInt 1 ]) ];
                             JDict [ (KStr "code", JInt 0);
                                     (KStr "parameters", JList []) ] ]) ] ] in
  extract_from_common_events data
  = Ok [ (JStr "Intro", "1.name");
         (JStr "Welcome!", "1.list.0.parameters.0");
         (JStr "Yes", "1.list.1.parameters.0.0");
         (JStr "No", "1.list.1.parameters.0.1") ]
  /\ read_path data (segments "1.list.1.parameters.0.1") = Ok (JStr "No")
  /\ exists data' : json,
       apply_patch data "1.list.1.parameters.0.1" "Non" = Ok data'
       /\ read_path data' (segments "1.list.1.parameters.0.1") = Ok (JStr "Non").
Proof.
  cbv zeta.
  set (data := JList _).
  assert (Hrun : extract_from_common_events data
    = Ok [ (JStr "Intro", "1.name");
           (JStr "Welcome!", "1.list.0.parameters.0");
           (JStr "Yes", "1.list.1.parameters.0.0");
           (JStr "No", "1.list.1.parameters.0.1") ]) by (vm_compute; reflexivity).
  assert (Hshape : commands_shaped data = true) by (vm_compute; reflexivity).
  split; [exact Hrun|].
  refine (common_event_strings_can_be_patched data _ (JStr "No")
            "1.list.1.parameters.0.1" "Non" Hshape Hrun _).
  do 3 right. left.
Defined.

(** ** The strings of the map files *)

Lemma preserves_lift_bind {A B} (I : processor -> Prop)
    (r : result A) (f : A -> Exec processor B) :
  (forall a, r = Ok a -> preserves I (f a)) -> preserves I (lift r ≫= f).
Proof.
  intros Hf s Hs. unfold mbind, exec_bind, lift. simpl.
  destruct r as [a|e]; simpl; [by apply Hf | done].
Qed.

Lemma preserves_for_each_elem {A} (I : processor -> Prop)
    (xs : list A) (body : A -> Exec processor unit) :
  (forall x, x ∈ xs -> preserves I (body x)) -> preserves I (for_each xs body).
Proof.
  induction xs as [|x xs IH]; intros Hbody; simpl.
  - apply preserves_ret.
  - apply preserves_bind; [apply Hbody; by left|].
    intros _. apply IH. intros y Hy. apply Hbody. by right.
Qed.

Lemma preserves_record_patchable (listing : list (string * json))
    (text file_path context_path : string) (event_id map_id : option string) :
  (event_id <> None ->
   exists name data,
     (name, data) ∈ listing /\ file_path = "data/" +:+ name
     /\ patchable data text context_path) ->
  preserves (event_entries_patchable listing)
    (process_string text file_path context_path event_id map_id).
Proof.
  intros Hnew s Hs.
  destruct (process_string_run text file_path context_path event_id map_id s)
    as (fp & _ & ->).
  intros k e Hin. simpl in Hin.
  apply dict_set_elem in Hin as [[-> ->]|Hin]; [|exact (Hs _ _ Hin)].
  simpl. exact Hnew.
Qed.

Lemma as_text_Ok (v : json) (text : string) : as_text v = Ok text -> v = JStr text.
Proof. destruct v; simpl; try done. by intros [= ->]. Qed.

Lemma bind_iter_Ok (r : result json) (xs : list json) :
  (r ≫= iter) = Ok xs -> exists obj, r = Ok obj /\ iter obj = Ok xs.
Proof. destruct r as [obj|e]; [|done]. rewrite bind_Ok. eauto. Qed.

(** The commands of a page record what is reached from the document. *)
Lemma preserves_process_map_item (listing : list (string * json))
    (name : string) (data item : json) (event_idx page_idx list_idx : nat) :
  (name, data) ∈ listing ->
  (forall d, item = JDict d ->
     commands_shaped item = true
     /\ forall segs v, segs <> [] -> reaches item segs v ->
          reaches data (Field "events" :: Index (N.of_nat event_idx)
                        :: Field "pages" :: Index (N.of_nat page_idx)
                        :: Field "list" :: Index (N.of_nat list_idx) :: segs) v) ->
  preserves (event_entries_patchable listing)
    (process_map_item ("data/" +:+ name) (Py.drop 3 (stem name))
       event_idx page_idx (list_idx, item)).
Proof.
  intros Hfile Hitem. unfold process_map_item.
  apply preserves_lift_bind. intros code Hcode.
  destruct (getitem_str_key _ _ _ Hcode) as (d & Hd & _).
  destruct (Hitem d Hd) as [Hshape Hup]. clear Hd.
  destruct (eq_int code 401).
  - apply preserves_lift_bind. intros ps Hps.
    apply preserves_lift_bind. intros first Hfirst.
    apply preserves_lift_bind. intros text ->%as_text_Ok.
    apply preserves_record_patchable. intros _. exists name, data.
    split; [done|]. split; [done|].
    unfold patchable. rewrite segments_map_line.
    apply Hup; [done|]. by apply (line_reaches _ ps).
  - apply preserves_lift_bind. intros code' Hcode'.
    destruct (eq_int code' 102) eqn:H102; [|apply preserves_ret].
    apply preserves_lift_bind. intros ps Hps.
    apply preserves_lift_bind. intros first Hfirst.
    apply preserves_lift_bind. intros choices Hchoices.
    apply preserves_for_each_elem. intros [choice_idx choice] Hin.
    apply enumerate_lookup in Hin.
    apply preserves_lift_bind. intros text ->%as_text_Ok.
    apply preserves_record_patchable. intros _. exists name, data.
    split; [done|]. split; [done|].
    unfold patchable. rewrite segments_map_choice.
    apply Hup; [done|]. by apply (choice_reaches _ code' ps first _ choices).
Qed.

Lemma preserves_process_map_event (listing : list (string * json))
    (name : string) (data all_events event : json) (events : list json)
    (event_idx : nat) :
  (name, data) ∈ listing ->
  commands_shaped data = true ->
  getitem data (KStr "events") = Ok all_events ->
  iter all_events = Ok events ->
  events !! event_idx = Some event ->
  preserves (event_entries_patchable listing)
    (process_map_event ("data/" +:+ name) (Py.drop 3 (stem name))
       (event_idx, event)).
Proof.
  intros Hfile Hshape Hevents Hiter Hevent.
  assert (Hbody : preserves (event_entries_patchable listing)
    (pages ← lift (getitem event (KStr "pages") ≫= iter);
     for_each (enumerate pages) (fun '(page_idx, page) =>
       items ← lift (getitem page (KStr "list") ≫= iter);
       for_each (enumerate items)
         (process_map_item ("data/" +:+ name) (Py.drop 3 (stem name))
            event_idx page_idx)))).
  { apply preserves_lift_bind. intros pages (all_pages & Hpages & Hp)%bind_iter_Ok.
    destruct (getitem_str_key _ _ _ Hpages) as (d1 & -> & _).
    pose proof (iter_record _ _ _ _ Hiter Hevent) as Hget1.
    apply preserves_for_each_elem. intros [page_idx page] Hpage%enumerate_lookup.
    apply preserves_lift_bind. intros items (commands & Hlist & Hi)%bind_iter_Ok.
    destruct (getitem_str_key _ _ _ Hlist) as (d2 & -> & _).
    pose proof (iter_record _ _ _ _ Hp Hpage) as Hget2.
    apply preserves_for_each_elem. intros [list_idx item] Hitem%enumerate_lookup.
    apply (preserves_process_map_item _ _ data); [done|]. intros d3 ->.
    pose proof (iter_record _ _ _ _ Hi Hitem) as Hget3.
    pose proof (commands_shaped_getitem _ _ _ Hshape Hevents) as Hs1.
    pose proof (commands_shaped_getitem _ _ _ Hs1 Hget1) as Hs2.
    pose proof (commands_shaped_getitem _ _ _ Hs2 Hpages) as Hs3.
    pose proof (commands_shaped_getitem _ _ _ Hs3 Hget2) as Hs4.
    pose proof (commands_shaped_getitem _ _ _ Hs4 Hlist) as Hs5.
    pose proof (commands_shaped_getitem _ _ _ Hs5 Hget3) as Hs6.
    split; [done|]. intros segs v Hne Hreach.
    apply (reaches_cons _ all_events); [done..|].
    apply (reaches_cons _ (JDict d1)); [done..|].
    apply (reaches_cons _ all_pages); [done..|].
    apply (reaches_cons _ (JDict d2)); [done..|].
    apply (reaches_cons _ commands); [done..|].
    by apply (reaches_cons _ (JDict d3)). }
  unfold process_map_event. destruct event; [apply preserves_ret|exact Hbody..].
Qed.

Lemma preserves_patchable_map_file (listing : list (string * json))
    (name : string) (data : json) :
  (name, data) ∈ listing ->
  commands_shaped data = true ->
  preserves (event_entries_patchable listing) (process_map_file name data).
Proof.
  intros Hfile Hshape. unfold process_map_file.
  apply preserves_bind; [apply preserves_lift|]. intros xs.
  apply preserves_bind.
  - apply preserves_for_each. intros x.
    destruct (eq_str x "displayName"); [|apply preserves_ret].
    apply preserves_bind; [apply preserves_lift|]. intros text.
    by apply preserves_record_patchable.
  - intros _. apply preserves_bind; [apply preserves_lift|]. intros has_events.
    destruct (negb has_events); [apply preserves_ret|].
    apply preserves_lift_bind. intros events (all_events & Hevents & Hiter)%bind_iter_Ok.
    apply preserves_for_each_elem. intros [event_idx event] Hevent%enumerate_lookup.
    by apply (preserves_process_map_event _ _ data all_events _ events).
Qed.

(** X15. The dialogue of the maps is patched where it was read.  When
    the commands of the map files have their parameters in a list, and
    the choice commands their choices in a list, every entry that
    [process_map_files] has recorded with an event id (a line of a text
    command or a choice; the run may have ended in an exception) names
    a map file of the project in which its context path reads the
    original text, and the patch of that path returns a document in
    which the path reads the translation. *)
Theorem map_dialogue_can_be_patched
    (listing : list (string * json)) (k : string) (e : entry) (new_text : string) :
  (forall name data, (name, data) ∈ listing -> commands_shaped data = true) ->
  (k, e) ∈ translation_map (snd (process_map_files listing new_processor)) ->
  c_event_id (e_context e) <> None ->
  exists name data,
    (name, data) ∈ listing
    /\ c_file (e_context e) = "data/" +:+ name
    /\ read_path data (segments (c_path (e_context e))) = Ok (JStr (e_original e))
    /\ exists data' : json,
         apply_patch data (c_path (e_context e)) new_text = Ok data'
         /\ read_path data' (segments (c_path (e_context e))) = Ok (JStr new_text).
Proof.
  intros Hshape Hin Hevent.
  assert (Hinv : event_entries_patchable listing
                   (snd (process_map_files listing new_processor))).
  { unfold process_map_files.
    apply preserves_for_each_elem.
    - intros [name data] Hfile. apply list_elem_of_In, filter_In in Hfile as [Hfile _].
      apply list_elem_of_In in Hfile.
      apply preserves_patchable_map_file; [done|]. by apply (Hshape name).
    - intros k' e' Hin'. by apply elem_of_nil in Hin'. }
  destruct (Hinv k e Hin Hevent) as (name & data & Hfile & Hpath & Hpatch).
  exists name, data. split; [done|]. split; [done|].
  by apply reaches_patch.
Qed.

Lemma map_dialogue_can_be_patched_witness :
  let listing :=
    [ ("Map001.json",
       JDict [ (KStr "displayName", JStr "Town");
               (KStr "events",
                JList [ JNull;
                        JDict [ (KStr "id", JInt 1);
                                (KStr "pages",
                                 JList [ JDict [ (KStr "list",
                                   JList [ JDict [ (KStr "code", JInt 401);
                                                   (KStr "parameters",
                                                    JList [ JStr "Hello" ]) ] ]) ] ]) ] ]) ]) ] in
  let path := "events.1.pages.0.list.0.parameters.0" in
  exists name data,
    (name, data) ∈ listing
    /\ "data/Map001.json" = "data/" +:+ name
    /\ read_path data (segments path) = Ok (JStr "Hello")
    /\ exists data' : json,
         apply_patch data path "Bonjour" = Ok data'
         /\ read_path data' (segments path) = Ok (JStr "Bonjour").
Proof.
  cbv zeta.
  set (listing := [ ("Map001.json", _) ]).
  set (e := Entry "Hello"
              (Context "data/Map001.json" "events.1.pages.0.list.0.parameters.0"
                 (Some "1") (Some "001")) None).
  assert (Hmap : translation_map (snd (process_map_files listing new_processor))
                 = [ ("18d85f68e0bd0c78",
                      Entry "Town"
                        (Context "data/Map001.json" "001.displayName" None (Some "001"))
                        None);
                     ("ab145aed2279820d", e) ]) by (vm_compute; reflexivity).
  assert (Hshape : forall name data,
            (name, data) ∈ listing -> commands_shaped data = true).
  { intros name data [= -> ->]%list_elem_of_singleton. vm_compute. reflexivity. }
  assert (Hin : ("ab145aed2279820d", e)
                ∈ translation_map (snd (process_map_files listing new_processor))).
  { rewrite Hmap. right. left. }
  assert (Hevent : c_event_id (e_context e) <> None) by done.
  exact (map_dialogue_can_be_patched listing "ab145aed2279820d" e "Bonjour"
           Hshape Hin Hevent).
Defined.

(** ** Misc strings: extraction and patch *)

Lemma misc_pair_dict (repr : json -> string) (fields : list (pykey * json)) :
  misc_pair repr (JDict fields) = Ok (misc_pairs_of repr (JDict fields)).
Proof.
  unfold misc_pair. simpl. unfold dict_mem.
  destruct (dict_get (KStr "text") fields) as [text|]; simpl; [|done].
  by destruct (dict_get (KStr "id") fields) as [id|].
Qed.

Lemma collect_misc_pairs (repr : json -> string) (items : list json) :
  forallb is_dict items = true ->
  collect items (misc_pair repr) = Ok (flat_map (misc_pairs_of repr) items).
Proof.
  induction items as [|item items IH]; [done|]. simpl.
  intros [Hitem Hitems]%andb_prop.
  destruct item as [| | | | | |fields]; try done.
  by rewrite misc_pair_dict, bind_Ok, (IH Hitems), bind_Ok.
Qed.

(** On a misc document the extractor returns, with the pairs of its
    elements in order. *)
Lemma extract_from_misc_run (repr : json -> string) (data : json) :
  misc_document data = true ->
  extract_from_misc repr data = Ok (flat_map (misc_pairs_of repr) (misc_items data)).
Proof.
  intros Hdoc. pose proof (misc_document_items _ Hdoc) as Hitems.
  destruct data as [| | | | | |d]; try done.
  unfold extract_from_misc. simpl in *.
  destruct (dict_get (KStr "misc_strings") d) as [[| | | | |items|]|]; try done.
  simpl. by apply collect_misc_pairs.
Qed.

Lemma existsb_first {A} (f : A -> bool) (l : list A) :
  existsb f l = true ->
  exists pre x post, l = pre ++ x :: post /\ existsb f pre = false /\ f x = true.
Proof.
  induction l as [|a l IH]; [done|]. simpl.
  destruct (f a) eqn:Ha.
  - intros _. by exists [], a, l.
  - intros (pre & x & post & -> & Hpre & Hx)%IH.
    exists (a :: pre), x, post. simpl. by rewrite Ha.
Qed.

Lemma has_id_fields (id : string) (item : json) :
  is_dict item = true -> has_id id item = true ->
  exists fields, item = JDict fields /\ dict_get (KStr "id") fields = Some (JStr id).
Proof.
  destruct item as [| | | | | |fields]; try done. intros _.
  unfold has_id, item_id.
  destruct (dict_get (KStr "id") fields) as [[]|] eqn:Hid; try done.
  simpl. intros ->%bool_decide_eq_true. eauto.
Qed.

Lemma misc_pairs_same_path (repr : json -> string) (fields : list (pykey * json))
    (id : string) (v : json) (path : string) :
  dict_get (KStr "id") fields = Some (JStr id) ->
  (v, path) ∈ misc_pairs_of repr (JDict fields) -> path = "misc." +:+ id.
Proof.
  intros Hid. simpl. rewrite Hid.
  destruct (dict_get (KStr "text") fields); [|by intros ?%elem_of_nil].
  by intros [= -> ->]%list_elem_of_singleton.
Qed.

(** X16. A patched misc string is what the next extraction finds.  In a
    misc document where an element has the string [id] as its id, the
    patch of the path misc.id returns a document from which the
    extractor returns the new text under that path, and under every
    other path what it returned before the patch. *)
Theorem misc_patch_is_extracted_again
    (repr : json -> string) (data : json) (id new_text : string) :
  misc_document data = true ->
  existsb (has_id id) (misc_items data) = true ->
  exists (data' : json) (results results' : pairs),
    extract_from_misc repr data = Ok results
    /\ apply_misc_patch data ("misc." +:+ id) new_text = Ok data'
    /\ extract_from_misc repr data' = Ok results'
    /\ (JStr new_text, "misc." +:+ id) ∈ results'
    /\ forall (v : json) (path : string),
         path <> "misc." +:+ id ->
         (v, path) ∈ results' <-> (v, path) ∈ results.
Proof.
  intros Hdoc Hex.
  pose proof (misc_document_items _ Hdoc) as Hitems.
  destruct (existsb_first _ _ Hex) as (pre & item & post & Hsplit & Hpre & Hitem).
  rewrite Hsplit in Hitems. rewrite forallb_app in Hitems.
  apply andb_prop in Hitems as [Hdpre Hdrest]. simpl in Hdrest.
  apply andb_prop in Hdrest as [Hditem Hdpost].
  destruct (has_id_fields _ _ Hditem Hitem) as (fields & -> & Hid).
  set (fields' := dict_set (KStr "text") (JStr new_text) fields).
  set (items' := pre ++ JDict fields' :: post).
  assert (Hd' : forallb is_dict items' = true).
  { unfold items'. rewrite forallb_app. simpl. by rewrite Hdpre, Hdpost. }
  destruct (with_misc_items_shape data items' Hdoc Hd') as [Hdoc' Hitems'].
  exists (with_misc_items data items'), (flat_map (misc_pairs_of repr) (misc_items data)),
    (flat_map (misc_pairs_of repr) items').
  split; [by apply extract_from_misc_run|].
  split.
  { rewrite (apply_misc_patch_run _ _ _ Hdoc).
    change (Py.startswith "misc." ("misc." +:+ id)) with true.
    change (Py.drop 5 ("misc." +:+ id)) with id. cbv iota.
    rewrite Hsplit, (patch_first_first _ _ _ _ _ Hdpre Hpre Hitem), bind_Ok.
    case_bool_decide as Hnil; [by destruct pre|done]. }
  split; [by rewrite (extract_from_misc_run _ _ Hdoc'), Hitems'|].
  assert (Hid' : dict_get (KStr "id") fields' = Some (JStr id)).
  { unfold fields'. by rewrite dict_get_set_ne. }
  assert (Htext' : dict_get (KStr "text") fields' = Some (JStr new_text)).
  { unfold fields'. by rewrite dict_get_set_eq. }
  split.
  - unfold items'. rewrite flat_map_app. apply elem_of_app. right.
    simpl. rewrite Htext', Hid'. simpl. by left.
  - intros v path Hpath. rewrite Hsplit. unfold items'.
    rewrite !flat_map_app, !elem_of_app.
    change (flat_map (misc_pairs_of repr) (JDict fields' :: post))
      with (misc_pairs_of repr (JDict fields') ++ flat_map (misc_pairs_of repr) post).
    change (flat_map (misc_pairs_of repr) (JDict fields :: post))
      with (misc_pairs_of repr (JDict fields) ++ flat_map (misc_pairs_of repr) post).
    rewrite !elem_of_app.
    split; (intros [H|[H|H]]; [by left| |by right; right]).
    + by apply (misc_pairs_same_path _ _ id) in H.
    + by apply (misc_pairs_same_path _ _ id) in H.
Qed.

Lemma misc_patch_is_extracted_again_witness :
  let data :=
    JDict [ (KStr "misc_strings",
             JList [ JDict [ (KStr "id", JStr "title"); (KStr "text", JStr "Quest") ];
                     JDict [ (KStr "id", JInt 7); (KStr "text", JStr "Save") ] ]) ] in
  exists (data' : json) (results results' : pairs),
    extract_from_misc (fun _ => "") data = Ok results
    /\ apply_misc_patch data ("misc." +:+ "title") "Suche" = Ok data'
    /\ extract_from_misc (fun _ => "") data' = Ok results'
    /\ (JStr "Suche", "misc." +:+ "title") ∈ results'
    /\ forall (v : json) (path : string),
         path <> "misc." +:+ "title" ->
         (v, path) ∈ results' <-> (v, path) ∈ results.
Proof.
  cbv zeta.
  apply (misc_patch_is_extracted_again (fun _ => "")); vm_compute; reflexivity.
Defined.

Lemma has_id_not_str (id : string) (item : json) :
  is_str (item_id item) = false -> has_id id item = false.
Proof. unfold has_id. by destruct (item_id item). Qed.

(** X17. An id that is not a string is extracted but never patched.  In
    a misc document whose ids are numbers (none is a string), an
    element with a text is returned by the extractor under the path
    made of its id, and every patch set leaves the document as it
    is: the comparison of the id with the text of the path is false. *)
Theorem misc_number_ids_are_never_patched
    (repr : json -> string) (data : json) (fields : list (pykey * json))
    (text : json) (n : Z) (patches : list (string * string)) :
  misc_document data = true ->
  Forall (fun item => is_str (item_id item) = false) (misc_items data) ->
  JDict fields ∈ misc_items data ->
  dict_get (KStr "text") fields = Some text ->
  dict_get (KStr "id") fields = Some (JInt n) ->
  (exists results : pairs,
     extract_from_misc repr data = Ok results
     /\ (text, "misc." +:+ str_of_Z n) ∈ results)
  /\ apply_misc_patches data patches = Ok data.
Proof.
  intros Hdoc Hids Hin Htext Hid. split.
  - eexists. split; [by apply extract_from_misc_run|].
    apply list_elem_of_In, in_flat_map. exists (JDict fields).
    split; [by apply list_elem_of_In|]. simpl. rewrite Htext, Hid. by left.
  - assert (Hun : forall path, matched data path = false).
    { intros path. unfold matched. apply andb_false_intro2.
      revert Hids. generalize (misc_items data). clear.
      induction 1 as [|item items Hitem _ IH]; [done|]. simpl.
      by rewrite (has_id_not_str _ _ Hitem). }
    induction patches as [|[path new_text] patches IH]; [done|]. simpl.
    by rewrite (apply_misc_patch_unmatched _ _ _ Hdoc (Hun path)), bind_Ok.
Qed.

Lemma misc_number_ids_are_never_patched_witness :
  let data :=
    JDict [ (KStr "misc_strings",
             JList [ JDict [ (KStr "id", JInt 7); (KStr "text", JStr "Save") ] ]) ] in
  (exists results : pairs,
     extract_from_misc (fun _ => "") data = Ok results
     /\ (JStr "Save", "misc." +:+ str_of_Z 7) ∈ results)
  /\ apply_misc_patches data [ ("misc.7", "Speichern") ] = Ok data.
Proof.
  cbv zeta.
  apply (misc_number_ids_are_never_patched (fun _ => "") _
           [ (KStr "id", JInt 7); (KStr "text", JStr "Save") ]).
  - vm_compute. reflexivity.
  - repeat constructor.
  - by left.
  - reflexivity.
  - reflexivity.
Defined.

(** ** The extraction as a whole *)

Lemma recording_keyed : recording keyed_by_fingerprint.
Proof. intros text file_path context_path event_id map_id. apply preserves_process_string. Qed.

Lemma recording_untranslated : recording untranslated.
Proof.
  intros text file_path context_path event_id map_id s Hs.
  destruct (process_string_run text file_path context_path event_id map_id s)
    as (fp & _ & ->).
  intros k e Hin. simpl in Hin.
  apply dict_set_elem in Hin as [[-> ->]|Hin]; [done|exact (Hs _ _ Hin)].
Qed.

Lemma recording_and (I J : processor -> Prop) :
  recording I -> recording J -> recording (fun self => I self /\ J self).
Proof.
  intros HI HJ text file_path context_path event_id map_id s [Hi Hj].
  split; [by apply HI | by apply HJ].
Qed.

Lemma preserves_process_pairs (I : processor -> Prop) (file_path : string)
    (results : pairs) :
  recording I -> preserves I (process_pairs file_path results).
Proof.
  intros Hrec. unfold process_pairs.
  apply preserves_for_each. intros [text context_path].
  apply preserves_bind; [apply preserves_lift|]. intros text'. apply Hrec.
Qed.

Lemma preserves_process_custom_file (I : processor -> Prop) (d : disk)
    (file_name : string) (path_extractors : list (json -> result pairs)) :
  recording I -> preserves I (process_custom_file d file_name path_extractors).
Proof.
  intros Hrec. unfold process_custom_file.
  destruct (List.find _ _) as [file_path|]; [|apply preserves_lift].
  apply preserves_bind; [apply preserves_lift|]. intros data.
  apply preserves_for_each. intros extractor.
  apply preserves_bind; [apply preserves_lift|]. intros results.
  by apply preserves_process_pairs.
Qed.

Lemma preserves_map_files (I : processor -> Prop) (maps : list (string * json)) :
  recording I -> preserves I (process_map_files maps).
Proof.
  intros Hrec. unfold recording in Hrec.
  unfold process_map_files. apply preserves_for_each. intros [name data].
  unfold process_map_file, process_map_event, process_map_item.
  repeat first [apply preserves_ret | apply preserves_lift | apply Hrec | preserves_step].
Qed.

Lemma safe_on_world (I : processor -> Prop) (m : Exec world unit) :
  (forall w, fst (m w) = Ok tt) -> safe I (on_world m).
Proof. intros Hm r Hr. unfold on_world. simpl. by rewrite Hm. Qed.

Lemma print_returns (s : string) (w : world) : fst (print s w) = Ok tt.
Proof. reflexivity. Qed.

Lemma print_exn_returns (s : string) (e : exn) (w : world) :
  fst (print_exn s e w) = Ok tt.
Proof. reflexivity. Qed.

Lemma print_success_returns (message : string) (w : world) :
  fst (print_success message w) = Ok tt.
Proof. reflexivity. Qed.

Lemma careful_on_processor (I : processor -> Prop) (m : Exec processor unit) :
  preserves I m -> careful I (on_processor m).
Proof. intros Hm r Hr. unfold on_processor. simpl. split; [by apply Hm | done]. Qed.

Lemma safe_careful (I : processor -> Prop) (m : Exec run unit) :
  safe I m -> careful I m.
Proof. intros Hm r Hr. by destruct (Hm r Hr) as (_ & ? & ?). Qed.

Lemma careful_seq (I : processor -> Prop) (m1 m2 : Exec run unit) :
  careful I m1 -> careful I m2 -> careful I (m1 ;; m2).
Proof.
  intros H1 H2 r Hr. unfold mbind, exec_bind.
  destruct (H1 r Hr) as [Hi Hs]. destruct (m1 r) as [[[]|e] r1]; simpl in *.
  - destruct (H2 r1 Hi) as [Hi2 Hs2]. split; [done | congruence].
  - done.
Qed.

Lemma safe_seq (I : processor -> Prop) (m1 m2 : Exec run unit) :
  safe I m1 -> safe I m2 -> safe I (m1 ;; m2).
Proof.
  intros H1 H2 r Hr. unfold mbind, exec_bind.
  destruct (H1 r Hr) as (Hok & Hi & Hs). destruct (m1 r) as [[[]|e] r1]; simpl in *.
  - destruct (H2 r1 Hi) as (Hok2 & Hi2 & Hs2). split; [done|]. split; [done | congruence].
  - done.
Qed.

(** A handled block returns when its handlers do. *)
Lemma safe_try_except (I : processor -> Prop) (body : Exec run unit)
    (handler : exn -> Exec run unit) :
  careful I body -> (forall e, safe I (handler e)) ->
  safe I (try_except body handler).
Proof.
  intros Hbody Hhandler r Hr. unfold try_except.
  destruct (Hbody r Hr) as [Hi Hs]. destruct (body r) as [[[]|e] r1]; simpl in *.
  - done.
  - destruct (Hhandler e r1 Hi) as (Hok & Hi2 & Hs2).
    split; [done|]. split; [done | congruence].
Qed.

Lemma safe_for_each {A} (I : processor -> Prop) (xs : list A)
    (body : A -> Exec run unit) :
  (forall x, safe I (body x)) -> safe I (for_each xs body).
Proof.
  intros Hbody. induction xs as [|x xs IH]; simpl.
  - intros r Hr. by repeat split.
  - by apply safe_seq.
Qed.

Lemma safe_for_each_elem {A} (I : processor -> Prop) (xs : list A)
    (body : A -> Exec run unit) :
  (forall x, x ∈ xs -> safe I (body x)) -> safe I (for_each xs body).
Proof.
  induction xs as [|x xs IH]; intros Hbody; simpl.
  - intros r Hr. by repeat split.
  - apply safe_seq; [apply Hbody; by left|]. apply IH. intros y Hy. apply Hbody. by right.
Qed.

(** A data file cannot end the loop over the data files. *)
Lemma safe_extract_data_file (I : processor -> Prop) (d : disk)
    (file : string * list (json -> result pairs)) :
  preserves I (process_custom_file d (fst file) (snd file)) ->
  safe I (extract_data_file d file).
Proof.
  intros Hfile. destruct file as [filename extractors]. unfold extract_data_file.
  apply safe_try_except.
  - apply careful_seq.
    + apply safe_careful, safe_on_world, print_returns.
    + by apply careful_on_processor.
  - intros e. destruct e; apply safe_on_world;
      first [apply print_returns | apply print_exn_returns].
Qed.

Lemma bind_run {S A B} (m : Exec S A) (f : A -> Exec S B) (s : S) :
  (m ≫= f) s
  = match m s with
    | (Ok a, s') => f a s'
    | (Raise e, s') => (Raise e, s')
    end.
Proof. reflexivity. Qed.

Lemma seq_safe (I : processor -> Prop) (m1 m2 : Exec run unit) (r : run) :
  safe I m1 -> I (processor_of r) ->
  exists r1, (m1 ;; m2) r = m2 r1 /\ I (processor_of r1) /\ saved r1 = saved r.
Proof.
  intros H1 Hr. destruct (H1 r Hr) as (Hok & Hi & Hs).
  exists (snd (m1 r)). rewrite bind_run.
  destruct (m1 r) as [[[]|e] r1]; simpl in *; [done|done].
Qed.

(** The extraction up to the maps: the processor is new, two lines are
    printed, and the maps are processed. *)
Lemma extract_strings_maps (repr : json -> string) (maps : list (string * json))
    (d : disk) (output_file : string) (r : run) :
  exists rest : Exec run unit,
    extract_strings repr maps d output_file r
    = (on_processor (process_map_files maps) ;; rest)
        (Run new_processor
           (World (files (world_of r))
              (stdout (world_of r)
               ++ [ Print "[>] initializing";
                    Print (String "010" "[>] processing maps") ]))
           (saved r))
    /\ rest
       = (on_world (print (String "010" "[>] processing datafiles")) ;;
          for_each data_files (extract_data_file d) ;;
          try_except
            (on_world (print (String "010" "[>] processing rmmvlt_misc.json...")) ;;
             on_processor
               (process_custom_file d "rmmvlt_misc.json" [ extract_from_misc repr ]) ;;
             on_world (print "   [*] processed misc strings"))
            (fun e =>
               match e with
               | FileNotFoundError =>
                   on_world
                     (print "   [~] no rmmvlt_misc.json found, skipping misc strings...")
               | _ => on_world (print_exn "   [!] error processing rmmvlt_misc.json: " e)
               end) ;;
          on_world (print (String "010" ("[>] creating strings file: " +:+ output_file))) ;;
          save_translation_map output_file ;;
          on_world (print_success "extraction complete")).
Proof.
  eexists. split; [|reflexivity].
  unfold extract_strings. rewrite bind_run.
  change (on_world (print "[>] initializing") r)
    with (Ok tt, Run (processor_of r)
                   (World (files (world_of r))
                      (stdout (world_of r) ++ [ Print "[>] initializing" ]))
                   (saved r)).
  cbv iota. rewrite bind_run.
  unfold modify at 1. cbv iota beta. rewrite bind_run.
  cbn [world_of saved processor_of].
  change (on_world (print (String "010" "[>] processing maps")) ?x)
    with (Ok tt, Run (processor_of x)
                   (World (files (world_of x))
                      (stdout (world_of x) ++ [ Print (String "010" "[>] processing maps") ]))
                   (saved x)).
  cbv iota. cbn [world_of saved processor_of files stdout].
  by rewrite <- app_assoc.
Qed.

(** X18. A map file that cannot be processed ends the extraction: the
    exception [process_map_files] raises leaves [extract_strings] after
    its first two lines; no data file is read and no strings file is
    written. *)
Theorem map_file_error_ends_extraction
    (repr : json -> string) (maps : list (string * json)) (d : disk)
    (output_file : string) (r : run) (e : exn) (self : processor) :
  process_map_files maps new_processor = (Raise e, self) ->
  extract_strings repr maps d output_file r
  = (Raise e,
     Run self
       (World (files (world_of r))
          (stdout (world_of r)
           ++ [ Print "[>] initializing";
                Print (String "010" "[>] processing maps") ]))
       (saved r)).
Proof.
  intros Hmaps.
  destruct (extract_strings_maps repr maps d output_file r) as (rest & -> & _).
  rewrite bind_run. unfold on_processor. cbn [processor_of world_of saved].
  by rewrite Hmaps.
Qed.

(** When the maps are processed without an exception the extraction
    returns and writes the map of the processor, with every property of
    the processor that its steps keep. *)
Lemma extract_strings_returns (I : processor -> Prop)
    (repr : json -> string) (maps : list (string * json)) (d : disk)
    (output_file : string) (r : run) :
  I new_processor ->
  preserves I (process_map_files maps) ->
  (forall file, file ∈ data_files ->
     preserves I (process_custom_file d (fst file) (snd file))) ->
  preserves I (process_custom_file d "rmmvlt_misc.json" [ extract_from_misc repr ]) ->
  fst (process_map_files maps new_processor) = Ok tt ->
  exists (self : processor) (w : world),
    extract_strings repr maps d output_file r
    = (Ok tt, Run self w (saved r ++ [ (output_file, translation_map self) ]))
    /\ I self.
Proof.
  intros Hnew Hmap_files Hdata_files Hmisc_file Hmaps.
  destruct (extract_strings_maps repr maps d output_file r) as (rest & -> & ->).
  rewrite bind_run. unfold on_processor at 1. cbn [processor_of world_of saved].
  rewrite Hmaps. cbv iota.
  pose proof (Hmap_files new_processor Hnew) as H1.
  set (r1 := Run _ _ _).
  assert (Hr1 : I (processor_of r1)) by exact H1.
  assert (Hs1 : saved r1 = saved r) by done.
  clearbody r1.
  assert (Hprint : forall s, safe I (on_world (print s))).
  { intros s. apply safe_on_world, print_returns. }
  assert (Hhandled : forall e s1 s2,
            safe I match e with
                   | FileNotFoundError => on_world (print s1)
                   | _ => on_world (print_exn s2 e)
                   end).
  { intros e s1 s2. destruct e; apply safe_on_world;
      first [apply print_returns | apply print_exn_returns]. }
  set (misc :=
    try_except
      (on_world (print (String "010" "[>] processing rmmvlt_misc.json...")) ;;
       on_processor
         (process_custom_file d "rmmvlt_misc.json" [ extract_from_misc repr ]) ;;
       on_world (print "   [*] processed misc strings"))
      (fun e =>
         match e with
         | FileNotFoundError =>
             on_world
               (print "   [~] no rmmvlt_misc.json found, skipping misc strings...")
         | _ => on_world (print_exn "   [!] error processing rmmvlt_misc.json: " e)
         end)).
  set (save := save_translation_map output_file ;;
               on_world (print_success "extraction complete")).
  set (announce :=
    on_world (print (String "010" ("[>] creating strings file: " +:+ output_file)))).
  assert (Hmisc : safe I misc).
  { apply safe_try_except; [|intros e; apply Hhandled].
    apply careful_seq; [apply safe_careful, Hprint|].
    apply careful_seq; [by apply careful_on_processor|].
    apply safe_careful, Hprint. }
  destruct (seq_safe I (on_world (print (String "010" "[>] processing datafiles")))
              (for_each data_files (extract_data_file d) ;; misc ;; announce ;; save)
              r1 (Hprint _) Hr1) as (r2 & -> & Hr2 & Hs2).
  destruct (seq_safe I (for_each data_files (extract_data_file d))
              (misc ;; announce ;; save) r2
              (safe_for_each_elem I _ _
                 (fun file Hfile => safe_extract_data_file I d file
                                      (Hdata_files file Hfile)))
              Hr2) as (r3 & -> & Hr3 & Hs3).
  destruct (seq_safe I misc (announce ;; save) r3 Hmisc Hr3) as (r4 & -> & Hr4 & Hs4).
  destruct (seq_safe I announce save r4 (Hprint _) Hr4) as (r5 & -> & Hr5 & Hs5).
  exists (processor_of r5), (snd (print_success "extraction complete" (world_of r5))).
  split; [|done].
  unfold save. rewrite bind_run. unfold save_translation_map, modify. cbv iota beta.
  unfold on_world. cbn [processor_of world_of saved].
  rewrite print_success_returns. congruence.
Qed.

(** X19. The data files cannot end the extraction.  When the maps are
    processed without an exception, [extract_strings] returns and
    writes the strings file, whatever the data files are (absent,
    unreadable or of another shape: the exception is printed and the
    next file is read); the map written is the map of the processor, it
    is keyed by fingerprint and no entry has translations. *)
Theorem data_files_cannot_end_extraction
    (repr : json -> string) (maps : list (string * json)) (d : disk)
    (output_file : string) (r : run) :
  fst (process_map_files maps new_processor) = Ok tt ->
  exists (self : processor) (w : world),
    extract_strings repr maps d output_file r
    = (Ok tt, Run self w (saved r ++ [ (output_file, translation_map self) ]))
    /\ keyed_by_fingerprint self
    /\ untranslated self.
Proof.
  intros Hmaps.
  set (I := fun self => keyed_by_fingerprint self /\ untranslated self).
  assert (Hrec : recording I)
    by exact (recording_and _ _ recording_keyed recording_untranslated).
  assert (Hnew : I new_processor).
  { split; intros k e Hin; by apply elem_of_nil in Hin. }
  destruct (extract_strings_returns I repr maps d output_file r Hnew
              (preserves_map_files I maps Hrec)
              (fun file _ => preserves_process_custom_file I d _ _ Hrec)
              (preserves_process_custom_file I d _ _ Hrec) Hmaps)
    as (self & w & Hrun & Hkeyed & Huntranslated).
  by exists self, w.
Qed.

Lemma map_file_error_ends_extraction_witness :
  let maps := [ ("Map001.json", JDict [ (KStr "events", JList [ JDict [ (KStr "id", JInt 1) ] ]) ]) ] in
  let r := Run new_processor (World ∅ []) [] in
  process_map_files maps new_processor = (Raise KeyError, new_processor)
  /\ extract_strings (fun _ => "") maps (fun _ => None) "rmmvlt.json" r
     = (Raise KeyError,
        Run new_processor
          (World (files (world_of r))
             (stdout (world_of r)
              ++ [ Print "[>] initializing";
                   Print (String "010" "[>] processing maps") ]))
          (saved r)).
Proof.
  cbv zeta.
  assert (Hmaps : process_map_files
            [ ("Map001.json",
               JDict [ (KStr "events", JList [ JDict [ (KStr "id", JInt 1) ] ]) ]) ]
            new_processor = (Raise KeyError, new_processor))
    by (vm_compute; reflexivity).
  split; [exact Hmaps|].
  exact (map_file_error_ends_extraction (fun _ => "") _ (fun _ => None) "rmmvlt.json"
           (Run new_processor (World ∅ []) []) KeyError new_processor Hmaps).
Defined.

Lemma data_files_cannot_end_extraction_witness :
  let maps := [ ("Map001.json", JDict [ (KStr "events", JList [ JNull ]) ]) ] in
  let d : disk := fun path =>
    if bool_decide (path = (ProjectDir, "data/Items.json"))
    then Some (Ok (JInt 5)) else None in
  let r := Run new_processor (World ∅ []) [] in
  exists (self : processor) (w : world),
    extract_strings (fun _ => "") maps d "rmmvlt.json" r
    = (Ok tt, Run self w (saved r ++ [ ("rmmvlt.json", translation_map self) ]))
    /\ keyed_by_fingerprint self
    /\ untranslated self.
Proof.
  cbv zeta.
  apply (data_files_cannot_end_extraction (fun _ => "")
           [ ("Map001.json", JDict [ (KStr "events", JList [ JNull ]) ]) ]).
  vm_compute. reflexivity.
Defined.

(** ** The strings of a data file *)

Lemma field_of_record_reaches (data : json) (p : json * string) :
  field_of_record data p -> reaches data (segments (snd p)) (fst p).
Proof.
  intros (idx & name & d & Hname & Hg & Hv & ->).
  rewrite (segments_index_field _ _ Hname).
  apply (reaches_cons _ (JDict d)); [done..|].
  apply reaches_one; [simpl; by rewrite Hv | done |].
  simpl. exact (proj2 (kind_of_Name _ (proj2 Hname))).
Qed.

Lemma preserves_pairs_patchable (file_path : string) (data : json) (results : pairs) :
  (forall v path, (v, path) ∈ results -> reaches data (segments path) v) ->
  preserves (custom_entries_patchable file_path data)
    (process_pairs file_path results).
Proof.
  intros Hreach. unfold process_pairs.
  apply preserves_for_each_elem. intros [v path] Hin.
  apply preserves_lift_bind. intros text ->%as_text_Ok.
  intros s Hs.
  destruct (process_string_run text file_path path None None s) as (fp & _ & ->).
  intros k e Hin'. simpl in Hin'.
  apply dict_set_elem in Hin' as [[-> ->]|Hin']; [|exact (Hs _ _ Hin')].
  simpl. split; [done|]. by apply Hreach.
Qed.

(** X20. The strings of a data file are patched where they were read.
    For a file found at one of the four places, read with the
    extractors of the record files or of the common events (whose
    commands have list parameters), every entry [process_custom_file]
    records, even when it ends in an exception, carries the path of the
    file below its directory, its context path reads the original text
    in the document, and the patch of that path returns a document in
    which the path reads the translation. *)
Theorem data_file_strings_can_be_patched
    (d : disk) (file_name : string) (path_extractors : list (json -> result pairs))
    (file_path : base * string) (data : json)
    (k : string) (e : entry) (new_text : string) :
  List.find (path_exists d) (possible_paths file_name) = Some file_path ->
  d file_path = Some (Ok data) ->
  commands_shaped data = true ->
  (forall extractor, extractor ∈ path_extractors ->
     extractor ∈ record_extractors \/ extractor = extract_from_common_events) ->
  (k, e) ∈ translation_map
             (snd (process_custom_file d file_name path_extractors new_processor)) ->
  c_file (e_context e) = snd file_path
  /\ read_path data (segments (c_path (e_context e))) = Ok (JStr (e_original e))
  /\ exists data' : json,
       apply_patch data (c_path (e_context e)) new_text = Ok data'
       /\ read_path data' (segments (c_path (e_context e))) = Ok (JStr new_text).
Proof.
  intros Hfind Hdata Hshape Hextractors Hin.
  assert (Hinv : custom_entries_patchable (snd file_path) data
                   (snd (process_custom_file d file_name path_extractors new_processor))).
  { unfold process_custom_file. rewrite Hfind, Hdata. simpl default.
    apply preserves_lift_bind; [|by intros k' e' Hin'; apply elem_of_nil in Hin'].
    intros data' [= <-].
    apply preserves_for_each_elem. intros extractor Hextractor.
    apply preserves_lift_bind. intros results Hresults.
    apply preserves_pairs_patchable. intros v path Hpair.
    destruct (Hextractors _ Hextractor) as [Hrecord| ->].
    - exact (field_of_record_reaches data (v, path)
               (record_extractors_fields extractor data results (v, path)
                  Hrecord Hresults Hpair)).
    - by apply (common_event_pairs_reach data results). }
  destruct (Hinv k e Hin) as [Hfile Hpatch]. split; [done|].
  by apply reaches_patch.
Qed.

Lemma preserves_pairs_file (file_path : string) (results : pairs) :
  preserves (recorded_in file_path) (process_pairs file_path results).
Proof.
  unfold process_pairs. apply preserves_for_each. intros [v path].
  apply preserves_bind; [apply preserves_lift|]. intros text s Hs.
  destruct (process_string_run text file_path path None None s) as (fp & _ & ->).
  intros k e Hin. simpl in Hin.
  apply dict_set_elem in Hin as [[-> ->]|Hin]; [done|exact (Hs _ _ Hin)].
Qed.

Lemma find_working_dir (d : disk) (file_name rel : string) :
  List.find (path_exists d) (possible_paths file_name) = Some (WorkingDir, rel) ->
  d (ProjectDir, rel) = None.
Proof.
  unfold possible_paths. simpl. unfold path_exists at 1.
  destruct (d (ProjectDir, "data/" +:+ file_name)) eqn:H1; [done|].
  unfold path_exists at 1.
  destruct (d (ProjectDir, file_name)) eqn:H2; [done|].
  unfold path_exists at 1.
  destruct (d (WorkingDir, "data/" +:+ file_name)); [by intros [= <-]|].
  unfold path_exists at 1.
  destruct (d (WorkingDir, file_name)); [by intros [= <-]|done].
Qed.

(** X21. A data file found outside the project cannot be patched.  When
    [process_custom_file] finds the file at one of the two places below
    the working directory, every entry it records carries the path
    below that directory; the patcher opens this path below the project
    directory, where the search has just found no file: in a project
    with the files of the search [patch_file] raises FileNotFoundError
    and writes nothing. *)
Theorem file_outside_the_project_cannot_be_patched
    (d : disk) (file_name rel : string) (path_extractors : list (json -> result pairs))
    (k : string) (e : entry) (patches : list (string * string)) (w : world) :
  List.find (path_exists d) (possible_paths file_name) = Some (WorkingDir, rel) ->
  (forall path, d (ProjectDir, path) = None -> files w !! path = None) ->
  (k, e) ∈ translation_map
             (snd (process_custom_file d file_name path_extractors new_processor)) ->
  c_file (e_context e) = rel
  /\ patch_file (c_file (e_context e)) patches w = (Raise FileNotFoundError, w).
Proof.
  intros Hfind Hproject Hin.
  assert (Hinv : recorded_in rel
                   (snd (process_custom_file d file_name path_extractors new_processor))).
  { unfold process_custom_file. rewrite Hfind.
    apply preserves_bind; [apply preserves_lift|
                           |by intros k' e' Hin'; apply elem_of_nil in Hin'].
    intros data. apply preserves_for_each. intros extractor.
    apply preserves_bind; [apply preserves_lift|]. intros results.
    apply preserves_pairs_file. }
  pose proof (Hinv k e Hin) as Hfile.
  split; [done|]. rewrite Hfile.
  unfold patch_file. rewrite bind_run. unfold read_json.
  by rewrite (Hproject rel (find_working_dir _ _ _ Hfind)).
Qed.

Lemma data_file_strings_can_be_patched_witness :
  let data :=
    JList [ JNull; JDict [ (KStr "id", JInt 1); (KStr "name", JStr "Potion") ] ] in
  let d : disk := fun path =>
    if bool_decide (path = (ProjectDir, "data/Items.json"))
    then Some (Ok data) else None in
  translation_map (snd (process_custom_file d "Items.json" [ extract_from_items ]
                          new_processor))
  = [ ("1a14249056ea0d0f",
       Entry "Potion" (Context "data/Items.json" "1.name" None None) None) ]
  /\ read_path data (segments "1.name") = Ok (JStr "Potion")
  /\ exists data' : json,
       apply_patch data "1.name" "Trank" = Ok data'
       /\ read_path data' (segments "1.name") = Ok (JStr "Trank").
Proof.
  cbv zeta.
  set (data := JList _).
  set (d := fun path : base * string =>
              if bool_decide (path = (ProjectDir, "data/Items.json"))
              then Some (Ok data) else None).
  set (e := Entry "Potion" (Context "data/Items.json" "1.name" None None) None).
  assert (Hmap : translation_map
                   (snd (process_custom_file d "Items.json" [ extract_from_items ]
                           new_processor))
                 = [ ("1a14249056ea0d0f", e) ]) by (vm_compute; reflexivity).
  split; [exact Hmap|].
  assert (Hfind : List.find (path_exists d) (possible_paths "Items.json")
                  = Some (ProjectDir, "data/Items.json")) by (vm_compute; reflexivity).
  assert (Hdata : d (ProjectDir, "data/Items.json") = Some (Ok data))
    by (vm_compute; reflexivity).
  assert (Hshape : commands_shaped data = true) by (vm_compute; reflexivity).
  assert (Hextractors : forall extractor, extractor ∈ [ extract_from_items ] ->
            extractor ∈ record_extractors \/ extractor = extract_from_common_events).
  { intros extractor ->%list_elem_of_singleton. left. by left. }
  assert (Hin : ("1a14249056ea0d0f", e)
                ∈ translation_map
                    (snd (process_custom_file d "Items.json" [ extract_from_items ]
                            new_processor))).
  { rewrite Hmap. by left. }
  exact (proj2 (data_file_strings_can_be_patched d "Items.json" [ extract_from_items ]
                  (ProjectDir, "data/Items.json") data "1a14249056ea0d0f" e "Trank"
                  Hfind Hdata Hshape Hextractors Hin)).
Defined.

Lemma file_outside_the_project_cannot_be_patched_witness :
  let data :=
    JList [ JNull; JDict [ (KStr "id", JInt 1); (KStr "name", JStr "Potion") ] ] in
  let d : disk := fun path =>
    if bool_decide (path = (WorkingDir, "Items.json"))
    then Some (Ok data) else None in
  let e := Entry "Potion" (Context "Items.json" "1.name" None None) None in
  let w := World ∅ [] in
  translation_map (snd (process_custom_file d "Items.json" [ extract_from_items ]
                          new_processor))
  = [ ("52e7431717bc070b", e) ]
  /\ c_file (e_context e) = "Items.json"
  /\ patch_file (c_file (e_context e)) [ ("1.name", "Trank") ] w
     = (Raise FileNotFoundError, w).
Proof.
  cbv zeta.
  set (data := JList _).
  set (d := fun path : base * string =>
              if bool_decide (path = (WorkingDir, "Items.json"))
              then Some (Ok data) else None).
  set (e := Entry "Potion" (Context "Items.json" "1.name" None None) None).
  assert (Hmap : translation_map
                   (snd (process_custom_file d "Items.json" [ extract_from_items ]
                           new_processor))
                 = [ ("52e7431717bc070b", e) ]) by (vm_compute; reflexivity).
  split; [exact Hmap|].
  assert (Hfind : List.find (path_exists d) (possible_paths "Items.json")
                  = Some (WorkingDir, "Items.json")) by (vm_compute; reflexivity).
  assert (Hproject : forall path, d (ProjectDir, path) = None ->
                                  files (World ∅ []) !! path = None).
  { intros path _. apply lookup_empty. }
  assert (Hin : ("52e7431717bc070b", e)
                ∈ translation_map
                    (snd (process_custom_file d "Items.json" [ extract_from_items ]
                            new_processor))).
  { rewrite Hmap. by left. }
  exact (file_outside_the_project_cannot_be_patched d "Items.json" "Items.json"
           [ extract_from_items ] "52e7431717bc070b" e [ ("1.name", "Trank") ]
           (World ∅ []) Hfind Hproject Hin).
Defined.

(** ** The Fingerprint cell *)

Lemma clean_parts (fingerprint : string) :
  clean_fingerprint fingerprint = true ->
  fingerprint <> ""
  /\ forallb (fun c => negb (Ascii.eqb c ";")) (list_ascii_of_string fingerprint) = true
  /\ Py.isascii fingerprint = true
  /\ forallb (fun c => negb (Py.is_space (N_of_ascii c)))
             (list_ascii_of_string fingerprint) = true.
Proof.
  unfold clean_fingerprint, Py.isascii. intros [Hne Hall]%andb_prop.
  split; [by apply negb_true_iff, bool_decide_eq_false in Hne|].
  rewrite forallb_forall in Hall.
  split; [|split]; apply forallb_forall; intros c Hc;
    destruct (andb_prop _ _ (Hall c Hc)) as [[? ?]%andb_prop ?]; done.
Qed.

Lemma lstrip_characters_none (cs : list (N * string)) :
  forallb (fun c => negb (Py.is_space (fst c))) cs = true ->
  Py.lstrip_characters cs = cs.
Proof.
  destruct cs as [|c cs]; simpl; [done|].
  intros [Hc _]%andb_prop. by destruct (Py.is_space (fst c)).
Qed.

Lemma strip_characters_none (cs : list (N * string)) :
  forallb (fun c => negb (Py.is_space (fst c))) cs = true ->
  Py.strip_characters cs = cs.
Proof.
  intros Hcs. unfold Py.strip_characters.
  rewrite (lstrip_characters_none cs Hcs).
  rewrite lstrip_characters_none by (by rewrite forallb_rev).
  apply rev_involutive.
Qed.

Lemma of_characters_ascii (s : string) :
  Py.of_characters (map (fun b => (N_of_ascii b, String b "")) (list_ascii_of_string s))
  = s.
Proof. induction s as [|b s IH]; [done|]. simpl. by rewrite IH. Qed.

Lemma strip_clean (fingerprint : string) :
  clean_fingerprint fingerprint = true -> Py.strip fingerprint = fingerprint.
Proof.
  intros (_ & _ & Hascii & Hs)%clean_parts. unfold Py.strip.
  rewrite (characters_ascii _ Hascii), strip_characters_none.
  - apply of_characters_ascii.
  - by rewrite forallb_fmap.
Qed.

Lemma strip_space_clean (fingerprint : string) :
  clean_fingerprint fingerprint = true ->
  Py.strip (String " " fingerprint) = fingerprint.
Proof.
  intros H. rewrite <- (strip_clean _ H) at 2. unfold Py.strip.
  change (Py.characters (String " " fingerprint))
    with ((32%N, String " " "") :: Py.characters fingerprint).
  reflexivity.
Qed.

(** The pieces of a cell between the separators. *)
Lemma split_cell (fingerprint : string) (rest : list string) :
  Forall (fun fp => clean_fingerprint fp = true) (fingerprint :: rest) ->
  Py.split ";" (Py.join "; " (fingerprint :: rest))
  = fingerprint :: map (String " ") rest.
Proof.
  revert fingerprint. induction rest as [|next rest IH]; intros fingerprint Hclean.
  - apply Forall_cons in Hclean as [(_ & Hsep & _ & _)%clean_parts _].
    simpl. by apply split_no_separator.
  - apply Forall_cons in Hclean as [(_ & Hsep & _ & _)%clean_parts Hrest].
    change (Py.join "; " (fingerprint :: next :: rest))
      with (fingerprint +:+ String ";" (String " " (Py.join "; " (next :: rest)))).
    rewrite (split_prefix _ _ _ Hsep).
    change (Py.split ";" (String " " (Py.join "; " (next :: rest))))
      with (match Py.split ";" (Py.join "; " (next :: rest)) with
            | [] => [ String " " "" ]
            | p :: ps => String " " p :: ps
            end).
    by rewrite (IH next Hrest).
Qed.

(** What the export joins, the import splits. *)
Lemma split_fingerprints_join (fingerprints : list string) :
  Forall (fun fp => clean_fingerprint fp = true) fingerprints ->
  split_fingerprints (Py.join "; " fingerprints) = fingerprints.
Proof.
  destruct fingerprints as [|fingerprint rest]; [done|]. intros Hclean.
  unfold split_fingerprints. rewrite (split_cell _ _ Hclean).
  apply Forall_cons in Hclean as [Hfirst Hrest].
  cbn [List.filter map]. rewrite (strip_clean _ Hfirst).
  destruct (clean_parts _ Hfirst) as (Hne & _ & _ & _).
  rewrite bool_decide_eq_false_2 by done. cbn [negb map].
  rewrite (strip_clean _ Hfirst). f_equal.
  induction Hrest as [|fp rest Hfp _ IH]; [reflexivity|].
  cbn [List.filter map]. rewrite (strip_space_clean _ Hfp).
  destruct (clean_parts _ Hfp) as (Hne' & _ & _ & _).
  rewrite bool_decide_eq_false_2 by done. cbn [negb map].
  by rewrite (strip_space_clean _ Hfp), IH.
Qed.

(** ** The rows of the export *)

Lemma fingerprints_of_snoc (text : string) (read : tmap) (k : string) (e : entry) :
  fingerprints_of text (read ++ [ (k, e) ])
  = fingerprints_of text read
    ++ (if bool_decide (Py.strip (e_original e) = text) then [ k ] else []).
Proof.
  unfold fingerprints_of. rewrite List.filter_app, map_app. simpl.
  by destruct (bool_decide (Py.strip (e_original e) = text)).
Qed.

Lemma label_entry_fingerprints (e : entry) (g g' : group) (context_str : string) :
  label_entry e g = Ok (context_str, g') -> g_fingerprints g' = g_fingerprints g.
Proof.
  unfold label_entry.
  destruct (Py.contains "MapInfos.json" _); [by intros [= _ <-]|].
  destruct (Py.contains "Map" _); [|by intros [= _ <-]].
  destruct (g_first_context g); [by intros [= _ <-]|].
  destruct (first_context_of _); [|done]. rewrite bind_Ok. by intros [= _ <-].
Qed.

Lemma export_entry_grouped (language : string) (read : tmap)
    (grouped_data grouped_data' : list (string * group)) (k : string) (e : entry) :
  export_entry language grouped_data (k, e) = Ok grouped_data' ->
  grouped_by_text read grouped_data ->
  grouped_by_text (read ++ [ (k, e) ]) grouped_data'.
Proof.
  unfold export_entry. intros Hrun [Hnd Hinv].
  case_bool_decide as Hblank.
  - injection Hrun as <-. split; [done|]. intros text.
    rewrite fingerprints_of_snoc. specialize (Hinv text).
    destruct (dict_get text grouped_data) as [g|].
    + destruct Hinv as (Hne & Hfps & Hnil). case_bool_decide; [congruence|].
      by rewrite app_nil_r.
    + intros Hne. case_bool_decide; [congruence|]. rewrite app_nil_r. by apply Hinv.
  - set (text0 := Py.strip (e_original e)) in *.
    set (grouped1 :=
           if dict_mem text0 grouped_data then grouped_data
           else dict_set text0
                  (Group [] []
                     (default "" (dict_get language (default [] (e_translations e))))
                     None)
                  grouped_data) in *.
    assert (H1 : NoDup (dict_keys grouped1)
                 /\ (forall text, text <> text0 ->
                       dict_get text grouped1 = dict_get text grouped_data)
                 /\ exists g, dict_get text0 grouped1 = Some g
                              /\ g_fingerprints g = fingerprints_of text0 read).
    { unfold grouped1, dict_mem. pose proof (Hinv text0) as H0.
      destruct (dict_get text0 grouped_data) as [g|] eqn:Hg.
      - split; [done|]. split; [done|]. exists g. by destruct H0 as (_ & ? & _).
      - split; [by apply dict_set_nodup|].
        split; [intros text Hne; by rewrite dict_get_set_ne|].
        eexists. split; [apply dict_get_set_eq|]. simpl. symmetry. by apply H0. }
    destruct H1 as (Hnd1 & Hother & g & Hg & Hfps).
    rewrite Hg in Hrun. simpl default in Hrun.
    destruct (label_entry e g) as [[context_str g']|] eqn:Hlabel; [|done].
    rewrite bind_Ok in Hrun. injection Hrun as <-.
    apply label_entry_fingerprints in Hlabel.
    split; [by apply dict_set_nodup|]. intros text.
    rewrite fingerprints_of_snoc. fold text0.
    destruct (decide (text0 = text)) as [<-|Hne].
    + rewrite dict_get_set_eq. simpl. rewrite bool_decide_eq_true_2 by done.
      split; [done|]. split; [by rewrite Hlabel, Hfps|].
      apply not_eq_sym, app_cons_not_nil.
    + rewrite dict_get_set_ne by done. rewrite (Hother text) by congruence.
      rewrite bool_decide_eq_false_2 by done. rewrite app_nil_r. apply Hinv.
Qed.

Lemma group_entries_grouped (language : string) (items read : tmap)
    (grouped_data grouped_data' : list (string * group)) :
  group_entries language grouped_data items = Ok grouped_data' ->
  grouped_by_text read grouped_data ->
  grouped_by_text (read ++ items) grouped_data'.
Proof.
  revert read grouped_data. induction items as [|[k e] items IH];
    intros read grouped_data Hrun Hinv.
  - injection Hrun as <-. by rewrite app_nil_r.
  - cbn [group_entries] in Hrun.
    destruct (export_entry language grouped_data (k, e)) as [g1|] eqn:Hstep; [|done].
    rewrite bind_Ok in Hrun.
    rewrite (cons_middle (k, e) read items), app_assoc.
    apply (IH _ g1 Hrun). by apply (export_entry_grouped language read grouped_data).
Qed.

Lemma insert_by_key_perm (x : Z * sheet_row) (sorted : list (Z * sheet_row)) :
  insert_by_key x sorted ≡ₚ x :: sorted.
Proof.
  induction sorted as [|y rest IH]; simpl; [done|].
  destruct (fst x <=? fst y); [done|]. rewrite IH. apply Permutation_swap.
Qed.

Lemma sort_by_key_perm (rows : list (Z * sheet_row)) : sort_by_key rows ≡ₚ rows.
Proof.
  induction rows as [|x rows IH]; simpl; [done|].
  by rewrite insert_by_key_perm, IH.
Qed.

(** The sheet has the rows of the groups, in another order. *)
Lemma sheet_rows_perm (rows : list (option Z * sheet_row)) :
  map snd (sort_by_key (map_data rows)) ++ other_data rows ≡ₚ map snd rows.
Proof.
  rewrite sort_by_key_perm. unfold map_data, other_data.
  induction rows as [|[[key|] row] rows IH]; simpl; [done| |].
  - by rewrite IH.
  - rewrite <- IH. by rewrite Permutation_middle.
Qed.

Lemma export_rows (data : tmap) (language : string) (rows : list sheet_row) :
  translation_map_to_excel data language = Ok rows ->
  exists grouped_data,
    grouped_by_text data grouped_data
    /\ rows ≡ₚ map (fun item => snd (export_group item)) grouped_data.
Proof.
  unfold translation_map_to_excel.
  destruct (group_entries language [] data) as [grouped_data|] eqn:Hgroups; [|done].
  rewrite bind_Ok. intros [= <-]. exists grouped_data. split.
  - apply (group_entries_grouped language data [] [] _ Hgroups).
    split; [constructor|]. by intros text.
  - rewrite sheet_rows_perm. by rewrite map_map.
Qed.

Lemma export_group_row (text : string) (g : group) :
  r_original (snd (export_group (text, g))) = text
  /\ r_fingerprint (snd (export_group (text, g))) = Py.join "; " (g_fingerprints g).
Proof. unfold export_group. by destruct (g_first_context g) as [[]|]. Qed.

Lemma fingerprints_of_keys (text : string) (data : tmap) :
  Forall (fun fp => fp ∈ dict_keys data) (fingerprints_of text data).
Proof.
  apply Forall_forall. intros fp Hin. unfold fingerprints_of in Hin.
  apply list_elem_of_In, in_map_iff in Hin as (item & <- & Hitem).
  apply filter_In in Hitem as [Hitem _].
  apply list_elem_of_In, in_map. exact Hitem.
Qed.

(** X22. What the export joins, the import splits.  When the keys of
    the map are fingerprints the cell can hold (not empty, made of
    ASCII characters, no semicolon, no white space), the Fingerprint
    cell of every row the export
    writes is split by the import into the keys of the entries whose
    original text, stripped, is the text of the row, in the order of
    the map. *)
Theorem exported_cell_names_its_entries
    (data : tmap) (language : string) (rows : list sheet_row) (r : sheet_row) :
  Forall (fun fp => clean_fingerprint fp = true) (dict_keys data) ->
  translation_map_to_excel data language = Ok rows ->
  r ∈ rows ->
  split_fingerprints (r_fingerprint r) = fingerprints_of (r_original r) data
  /\ fingerprints_of (r_original r) data <> [].
Proof.
  intros Hclean Hrun Hin.
  destruct (export_rows _ _ _ Hrun) as (grouped_data & [Hnd Hinv] & Hperm).
  rewrite Hperm in Hin.
  apply list_elem_of_In, in_map_iff in Hin as ([text g] & <- & Hitem).
  apply list_elem_of_In in Hitem.
  destruct (export_group_row text g) as [-> ->].
  pose proof (Hinv text) as Htext.
  rewrite (dict_get_elem _ _ _ Hnd Hitem) in Htext.
  destruct Htext as (_ & Hfps & Hnil). rewrite <- Hfps. split; [|done].
  apply split_fingerprints_join. rewrite Hfps.
  rewrite Forall_forall in Hclean. apply Forall_forall. intros fp Hfp.
  apply Hclean.
  pose proof (fingerprints_of_keys text data) as Hkeys.
  rewrite Forall_forall in Hkeys. by apply Hkeys.
Qed.

(** X23. One row for each text.  The rows the export writes have
    pairwise different original texts, and a text is the text of a row
    exactly when it is not empty and is the original text, stripped, of
    an entry of the map: an entry whose original text is blank is in no
    row. *)
Theorem export_has_one_row_for_each_text
    (data : tmap) (language : string) (rows : list sheet_row) :
  translation_map_to_excel data language = Ok rows ->
  NoDup (map r_original rows)
  /\ forall text : string,
       text ∈ map r_original rows
       <-> text <> ""
           /\ exists k e, (k, e) ∈ data /\ Py.strip (e_original e) = text.
Proof.
  intros Hrun.
  destruct (export_rows _ _ _ Hrun) as (grouped_data & [Hnd Hinv] & Hperm).
  assert (Htexts : map r_original rows ≡ₚ dict_keys grouped_data).
  { rewrite Hperm, map_map. unfold dict_keys.
    erewrite map_ext; [done|]. intros [text g]. by destruct (export_group_row text g). }
  split; [by rewrite Htexts|]. intros text. rewrite Htexts.
  assert (Hentry : fingerprints_of text data <> []
                   <-> exists k e, (k, e) ∈ data /\ Py.strip (e_original e) = text).
  { unfold fingerprints_of. split.
    - intros Hne.
      destruct (List.filter _ data) as [|[k e] l] eqn:Hf; [done|].
      assert (Hin : In (k, e) (List.filter
                (fun item => bool_decide (Py.strip (e_original (snd item)) = text))
                data)) by (rewrite Hf; by left).
      apply filter_In in Hin as [Hin Ht]. apply bool_decide_eq_true in Ht.
      exists k, e. split; [by apply list_elem_of_In | done].
    - intros (k & e & Hin & Ht) Hnil. apply map_eq_nil in Hnil.
      assert (Hin' : In (k, e) (List.filter
                (fun item => bool_decide (Py.strip (e_original (snd item)) = text))
                data)).
      { apply filter_In. split; [by apply list_elem_of_In|].
        by apply bool_decide_eq_true. }
      by rewrite Hnil in Hin'. }
  rewrite <- Hentry. specialize (Hinv text).
  destruct (dict_get text grouped_data) as [g|] eqn:Hg.
  - destruct Hinv as (Hne & Hfps & Hnil). split.
    + intros _. split; [done|]. by rewrite <- Hfps.
    + intros _. apply dict_get_Some_elem in Hg.
      apply list_elem_of_In, in_map_iff. exists (text, g).
      split; [done | by apply list_elem_of_In].
  - apply dict_get_None_keys in Hg. split; [done|].
    intros [Hne Hfps]. by specialize (Hinv Hne).
Qed.

Lemma exported_cell_names_its_entries_witness :
  let data :=
    [ ("ab145aed2279820d",
       Entry "Hello" (Context "data/Map001.json" "events.1.pages.0.list.0.parameters.0"
                        (Some "1") (Some "001")) None);
      ("1a14249056ea0d0f",
       Entry " Hello " (Context "data/Items.json" "1.name" None None) None);
      ("52e7431717bc070b",
       Entry "  " (Context "data/Items.json" "2.name" None None) None) ] in
  let r := SheetRow "ab145aed2279820d; 1a14249056ea0d0f"
             "Map 001 Event 1 | data/Items.json: 1.name" "Hello" "" "" in
  translation_map_to_excel data "fr" = Ok [ r ]
  /\ split_fingerprints (r_fingerprint r) = fingerprints_of (r_original r) data
  /\ fingerprints_of (r_original r) data <> [].
Proof.
  cbv zeta.
  set (data := [ (_, _); (_, _); (_, _) ]).
  set (r := SheetRow _ _ _ _ _).
  assert (Hrun : translation_map_to_excel data "fr" = Ok [ r ])
    by (vm_compute; reflexivity).
  split; [exact Hrun|].
  apply (exported_cell_names_its_entries data "fr" [ r ] r).
  - repeat constructor.
  - exact Hrun.
  - by left.
Defined.

Lemma export_has_one_row_for_each_text_witness :
  let data :=
    [ ("ab145aed2279820d",
       Entry "Hello" (Context "data/Map001.json" "events.1.pages.0.list.0.parameters.0"
                        (Some "1") (Some "001")) None);
      ("1a14249056ea0d0f",
       Entry " Hello " (Context "data/Items.json" "1.name" None None) None);
      ("52e7431717bc070b",
       Entry "  " (Context "data/Items.json" "2.name" None None) None) ] in
  let rows := [ SheetRow "ab145aed2279820d; 1a14249056ea0d0f"
                  "Map 001 Event 1 | data/Items.json: 1.name" "Hello" "" "" ] in
  translation_map_to_excel data "fr" = Ok rows
  /\ NoDup (map r_original rows)
  /\ forall text : string,
       text ∈ map r_original rows
       <-> text <> ""
           /\ exists k e, (k, e) ∈ data /\ Py.strip (e_original e) = text.
Proof.
  cbv zeta.
  set (data := [ (_, _); (_, _); (_, _) ]).
  set (rows := [ SheetRow _ _ _ _ _ ]).
  assert (Hrun : translation_map_to_excel data "fr" = Ok rows)
    by (vm_compute; reflexivity).
  split; [exact Hrun|].
  exact (export_has_one_row_for_each_text data "fr" rows Hrun).
Defined.

(** ** The export returns *)

Lemma digit_is_not_sign (c : ascii) :
  Py.is_ascii_digit c = true ->
  (N_of_ascii c =? 43)%N = false /\ (N_of_ascii c =? 45)%N = false.
Proof. by destruct c as [[] [] [] [] [] [] [] []]. Qed.

Lemma int_lstrip_none (cps : list N) :
  forallb (fun cp => negb (is_int_space cp)) cps = true -> int_lstrip cps = cps.
Proof.
  destruct cps as [|cp cps]; simpl; [done|].
  intros [Hc _]%andb_prop. by destruct (is_int_space cp).
Qed.

Lemma int_strip_none (cps : list N) :
  forallb (fun cp => negb (is_int_space cp)) cps = true -> int_strip cps = cps.
Proof.
  intros Hcps. unfold int_strip. rewrite (int_lstrip_none cps Hcps).
  rewrite int_lstrip_none by (by rewrite forallb_rev).
  apply rev_involutive.
Qed.

Lemma all_digits_no_space (s : string) :
  Py.all_digits s = true ->
  forallb (fun cp => negb (is_int_space cp))
          (map N_of_ascii (list_ascii_of_string s)) = true.
Proof.
  induction s as [|c s IH]; simpl; [done|].
  intros [Hc Hs]%andb_prop. unfold is_int_space at 1.
  by rewrite (is_space_ascii_digit _ Hc), (IH Hs).
Qed.

Lemma int_digits_all_digits (s : string) (acc : N) (after_digit : bool) :
  Py.all_digits s = true -> s <> "" \/ after_digit = true ->
  exists n, int_digits acc after_digit (map N_of_ascii (list_ascii_of_string s))
            = Some n.
Proof.
  revert acc after_digit. induction s as [|c s IH]; intros acc after_digit; simpl.
  - intros _ [?| ->]; [done | eauto].
  - intros [Hc Hs]%andb_prop _. rewrite (proj2 (is_ascii_digit_value c Hc)).
    apply (IH _ _ Hs). by right.
Qed.

(** [int] of a string of ASCII digits returns. *)
Lemma int_of_text_digits (s : string) :
  Py.isascii s && Py.isdigit s = true -> exists z, int_of_text s = Ok z.
Proof.
  intros [Hascii Hdigit]%andb_prop.
  destruct (isdigit_all_digits s Hascii Hdigit) as [Hne Hs].
  unfold int_of_text. rewrite (characters_ascii s Hascii), map_map.
  change (map (fun x : ascii => fst (N_of_ascii x, String x "")))
    with (map N_of_ascii).
  rewrite (int_strip_none _ (all_digits_no_space _ Hs)).
  destruct (int_digits_all_digits s 0 false Hs) as [n Hn]; [by left|].
  destruct s as [|c s]; [done|].
  assert (Hc : Py.is_ascii_digit c = true).
  { simpl in Hs. by apply andb_prop in Hs as [? _]. }
  cbn [list_ascii_of_string map] in *.
  destruct (digit_is_not_sign _ Hc) as [-> ->]. rewrite Hn. simpl. eauto.
Qed.

Lemma first_context_of_numbered (c : context) :
  numbered c = true -> exists first, first_context_of c = Ok first.
Proof.
  unfold numbered, first_context_of. intros [Hmap Hevent]%andb_prop.
  destruct (c_map_id c) as [map_id|]; [|done].
  destruct (int_of_text_digits _ Hmap) as [m Hm]. simpl. rewrite Hm, bind_Ok.
  destruct (c_event_id c) as [event_id|]; simpl; [|eauto].
  case_bool_decide as Hempty; simpl; [eauto|].
  simpl in Hevent. destruct (int_of_text_digits _ Hevent) as [n ->]. simpl. eauto.
Qed.

Lemma group_entries_returns (language : string) (items : tmap)
    (grouped_data : list (string * group)) :
  (forall k e, (k, e) ∈ items ->
     Py.contains "MapInfos.json" (c_file (e_context e)) = false ->
     Py.contains "Map" (c_file (e_context e)) = true ->
     numbered (e_context e) = true) ->
  exists grouped_data', group_entries language grouped_data items = Ok grouped_data'.
Proof.
  revert grouped_data. induction items as [|[k e] items IH]; intros grouped_data Hnum.
  - by exists grouped_data.
  - cbn [group_entries].
    assert (Hstep : exists g1, export_entry language grouped_data (k, e) = Ok g1).
    { unfold export_entry. case_bool_decide; [eauto|].
      set (g := default (Group [] [] "" None) _).
      assert (Hlabel : exists r, label_entry e g = Ok r).
      { unfold label_entry.
        destruct (Py.contains "MapInfos.json" _) eqn:Hinfos; [eauto|].
        destruct (Py.contains "Map" _) eqn:Hmap; [|eauto].
        destruct (g_first_context g); [eauto|].
        destruct (first_context_of_numbered (e_context e)) as [first ->];
          [|rewrite bind_Ok; eauto].
        apply (Hnum k e); [by left|done..]. }
      destruct Hlabel as [[context_str g'] ->]. rewrite bind_Ok. eauto. }
    destruct Hstep as [g1 ->]. rewrite bind_Ok. apply IH.
    intros k' e' Hin. apply (Hnum k' e'). by right.
Qed.

(** X24. The export returns when the maps are numbered.  If every entry
    of a map file (a file path with Map in it, MapInfos.json apart) has
    a map id made of ASCII digits and an event id that is absent, empty
    or made of ASCII digits, as [process_map_files] records them for the maps
    the editor numbers, [translation_map_to_excel] builds its rows
    without an exception. *)
Theorem export_returns_for_numbered_maps (data : tmap) (language : string) :
  (forall k e, (k, e) ∈ data ->
     Py.contains "MapInfos.json" (c_file (e_context e)) = false ->
     Py.contains "Map" (c_file (e_context e)) = true ->
     numbered (e_context e) = true) ->
  exists rows, translation_map_to_excel data language = Ok rows.
Proof.
  intros Hnum. unfold translation_map_to_excel.
  destruct (group_entries_returns language data [] Hnum) as [grouped_data ->].
  rewrite bind_Ok. eauto.
Qed.

Lemma export_returns_for_numbered_maps_witness :
  exists rows,
    translation_map_to_excel
      [ ("ab145aed2279820d",
         Entry "Hello" (Context "data/Map001.json" "events.1.pages.0.list.0.parameters.0"
                          (Some "1") (Some "001")) None);
        ("18d85f68e0bd0c78",
         Entry "Town" (Context "data/Map001.json" "001.displayName" None (Some "001"))
               None) ] "fr"
    = Ok rows.
Proof.
  apply export_returns_for_numbered_maps.
  intros k e Hin _ _.
  apply elem_of_cons in Hin as [[= -> ->]|Hin]; [reflexivity|].
  apply list_elem_of_singleton in Hin as [= -> ->]. reflexivity.
Defined.

(** ** From the extraction to the export *)

Lemma preserves_exportable_numbered (text file_path context_path : string)
    (event_id map_id : option string) :
  numbered (Context file_path context_path event_id map_id) = true ->
  preserves exportable (process_string text file_path context_path event_id map_id).
Proof.
  intros Hnum s Hs.
  destruct (process_string_run text file_path context_path event_id map_id s)
    as (fp & _ & ->).
  intros k e Hin. simpl in Hin.
  apply dict_set_elem in Hin as [[-> ->]|Hin]; [done|exact (Hs _ _ Hin)].
Qed.

Lemma preserves_exportable_other (text file_path context_path : string)
    (event_id map_id : option string) :
  Py.contains "Map" file_path = false ->
  preserves exportable (process_string text file_path context_path event_id map_id).
Proof.
  intros Hfile s Hs.
  destruct (process_string_run text file_path context_path event_id map_id s)
    as (fp & _ & ->).
  intros k e Hin. simpl in Hin.
  apply dict_set_elem in Hin as [[-> ->]|Hin]; [|exact (Hs _ _ Hin)].
  simpl. congruence.
Qed.

Lemma numbered_line (file_path context_path map_id : string) (event_idx : nat) :
  Py.isascii map_id && Py.isdigit map_id = true ->
  numbered (Context file_path context_path (Some (Py.str_of_nat event_idx))
              (Some map_id)) = true.
Proof.
  intros Hmap. unfold numbered. cbn [c_map_id c_event_id]. rewrite Hmap.
  unfold Py.str_of_nat.
  rewrite isdigit_str_of_N, (all_digits_isascii _ (all_digits_str_of_N _)).
  by rewrite orb_true_r.
Qed.

Lemma preserves_exportable_map_file (name : string) (data : json) :
  Py.isascii (Py.drop 3 (stem name)) && Py.isdigit (Py.drop 3 (stem name)) = true ->
  preserves exportable (process_map_file name data).
Proof.
  intros Hmap.
  assert (Hline : forall text file_path context_path event_idx,
            preserves exportable
              (process_string text file_path context_path
                 (Some (Py.str_of_nat event_idx)) (Some (Py.drop 3 (stem name))))).
  { intros. by apply preserves_exportable_numbered, numbered_line. }
  assert (Hname : forall text file_path context_path,
            preserves exportable
              (process_string text file_path context_path None
                 (Some (Py.drop 3 (stem name))))).
  { intros. apply preserves_exportable_numbered. unfold numbered.
    cbn [c_map_id c_event_id]. by rewrite Hmap. }
  unfold process_map_file, process_map_event, process_map_item.
  repeat match goal with
         | |- preserves _ (process_string _ _ _ None _) => apply Hname
         | |- preserves _ (process_string _ _ _ (Some _) _) => apply Hline
         | |- preserves _ (mret _) => apply preserves_ret
         | |- preserves _ (lift _) => apply preserves_lift
         | |- _ => preserves_step
         end.
Qed.

Lemma preserves_exportable_map_files (maps : list (string * json)) :
  (forall name data, (name, data) ∈ maps -> glob_map name = true ->
     Py.isascii (Py.drop 3 (stem name)) && Py.isdigit (Py.drop 3 (stem name)) = true) ->
  preserves exportable (process_map_files maps).
Proof.
  intros Hnames. unfold process_map_files.
  apply preserves_for_each_elem. intros [name data] Hin.
  apply list_elem_of_In, filter_In in Hin as [Hin Hglob].
  apply preserves_exportable_map_file, (Hnames name data); [|done].
  by apply list_elem_of_In.
Qed.

Lemma preserves_exportable_custom_file (d : disk) (file_name : string)
    (path_extractors : list (json -> result pairs)) :
  Py.contains "Map" ("data/" +:+ file_name) = false ->
  Py.contains "Map" file_name = false ->
  preserves exportable (process_custom_file d file_name path_extractors).
Proof.
  intros Hdata Hplain. unfold process_custom_file.
  destruct (List.find _ _) as [file_path|] eqn:Hfind; [|apply preserves_lift].
  assert (Hfile : Py.contains "Map" (snd file_path) = false).
  { apply find_some in Hfind as [Hin _]. unfold possible_paths in Hin. simpl in Hin.
    destruct Hin as [<-|[<-|[<-|[<-|[]]]]]; done. }
  apply preserves_bind; [apply preserves_lift|]. intros data.
  apply preserves_for_each. intros extractor.
  apply preserves_bind; [apply preserves_lift|]. intros results.
  unfold process_pairs. apply preserves_for_each. intros [v path].
  apply preserves_bind; [apply preserves_lift|]. intros text.
  by apply preserves_exportable_other.
Qed.

(** X25. What the extraction writes can be exported.  When the map
    files the project lists under the pattern Map???.json (three
    characters of any kind between Map and .json) have three ASCII
    digits there and are processed without an exception,
    [extract_strings] returns, and [translation_map_to_excel] builds
    the rows of the sheet from the map it has written, for every
    language, without an exception: the map id and the event id of
    every entry of a map file are numbers, and no data file has Map in
    its name. *)
Theorem extracted_strings_can_be_exported
    (repr : json -> string) (maps : list (string * json)) (d : disk)
    (output_file language : string) (r : run) :
  (forall name data, (name, data) ∈ maps -> glob_map name = true ->
     Py.isascii (Py.drop 3 (stem name)) && Py.isdigit (Py.drop 3 (stem name)) = true) ->
  fst (process_map_files maps new_processor) = Ok tt ->
  exists (self : processor) (w : world) (rows : list sheet_row),
    extract_strings repr maps d output_file r
    = (Ok tt, Run self w (saved r ++ [ (output_file, translation_map self) ]))
    /\ translation_map_to_excel (translation_map self) language = Ok rows.
Proof.
  intros Hnames Hmaps.
  assert (Hnew : exportable new_processor).
  { intros k e Hin. by apply elem_of_nil in Hin. }
  assert (Hdata_files : forall file, file ∈ data_files ->
            preserves exportable (process_custom_file d (fst file) (snd file))).
  { intros file Hfile. unfold data_files in Hfile.
    repeat (apply elem_of_cons in Hfile as [->|Hfile]);
      [..|by apply elem_of_nil in Hfile];
      by apply preserves_exportable_custom_file. }
  destruct (extract_strings_returns exportable repr maps d output_file r Hnew
              (preserves_exportable_map_files maps Hnames) Hdata_files
              (preserves_exportable_custom_file d "rmmvlt_misc.json"
                 [ extract_from_misc repr ] eq_refl eq_refl) Hmaps)
    as (self & w & Hrun & Hexportable).
  destruct (group_entries_returns language (translation_map self) [] Hexportable)
    as [grouped_data Hgroups].
  exists self, w. eexists. split; [done|].
  unfold translation_map_to_excel. by rewrite Hgroups, bind_Ok.
Qed.

Lemma extracted_strings_can_be_exported_witness :
  let maps :=
    [ ("Map001.json",
       JDict [ (KStr "displayName", JStr "Town");
               (KStr "events",
                JList [ JNull;
                        JDict [ (KStr "id", JInt 1);
                                (KStr "pages",
                                 JList [ JDict [ (KStr "list",
                                   JList [ JDict [ (KStr "code", JInt 401);
                                                   (KStr "parameters",
                                                    JList [ JStr "Hello" ]) ] ]) ] ]) ] ]) ]) ] in
  let r := Run new_processor (World ∅ []) [] in
  exists (self : processor) (w : world) (rows : list sheet_row),
    extract_strings (fun _ => "") maps (fun _ => None) "rmmvlt.json" r
    = (Ok tt, Run self w (saved r ++ [ ("rmmvlt.json", translation_map self) ]))
    /\ translation_map_to_excel (translation_map self) "fr" = Ok rows.
Proof.
  cbv zeta.
  set (maps := [ ("Map001.json", _) ]).
  assert (Hnames : forall name data, (name, data) ∈ maps -> glob_map name = true ->
                     Py.isascii (Py.drop 3 (stem name))
                     && Py.isdigit (Py.drop 3 (stem name)) = true).
  { intros name data [= -> ->]%list_elem_of_singleton _. vm_compute. reflexivity. }
  assert (Hmaps : fst (process_map_files maps new_processor) = Ok tt)
    by (vm_compute; reflexivity).
  exact (extracted_strings_can_be_exported (fun _ => "") maps (fun _ => None)
           "rmmvlt.json" "fr" (Run new_processor (World ∅ []) []) Hnames Hmaps).
Defined.
